(** * ETHANI backend: rule-based pricing and contract resolution

    A shallow embedding of [app/pricing.py] (the rule engine) and of the
    pricing part of [app/blockchain.py] (the contract resolver with its
    fallbacks), with the properties the specification states about them.

    Python integers are unbounded, so they are [Z].  Python floats are IEEE-754
    binary64 values; module [Binary64] gives them an exact integer model with
    round-to-nearest-even, infinities and NaN, and the Python conversions that
    raise ([OverflowError], [ValueError], [ZeroDivisionError]).  Module
    [KernelAgreement] runs the model against the kernel's primitive floats on
    the literals and operations the program uses.  Module [PyStr] has the
    conversion of an int to text, which raises [ValueError] past 4300
    digits. *)

From Stdlib Require Import ZArith Lia Bool String List.
From Stdlib Require PrimFloat FloatOps SpecFloat Uint63.
Import ListNotations.
Local Open Scope string_scope.
Local Open Scope Z_scope.

(** ** Exceptions and fallible computations *)

Inductive exn : Type :=
| OverflowError
| ValueError
| ZeroDivisionError
| RemoteError.   (* any [Exception] raised by the web3 client *)

Inductive result (A : Type) : Type :=
| Ok (a : A)
| Raise (e : exn).
Arguments Ok {A} a.
Arguments Raise {A} e.

Definition bind {A B : Type} (m : result A) (k : A -> result B) : result B :=
  match m with
  | Ok a => k a
  | Raise e => Raise e
  end.

Notation "x <- m ;; k" := (bind m (fun x => k))
  (at level 61, m at next level, right associativity).

(** [try: body except Exception: handler] *)
Definition try_except {A : Type} (body : result A) (handler : exn -> result A)
  : result A :=
  match body with
  | Ok a => Ok a
  | Raise e => handler e
  end.

Definition returns {A : Type} (m : result A) : Prop := exists a, m = Ok a.

(** ** IEEE-754 binary64 as Python uses it *)

Module Binary64.

(** Every finite binary64 value is an integer multiple of [2^-1074], the
    smallest subnormal.  [Fin n] denotes the value [n * 2^-1074]; the two
    zeros are identified (Python's [==], [<], [>], [round] and [int] do not
    tell them apart). *)
Definition scale : Z := 2 ^ 1074.

Inductive float : Type :=
| Fin (n : Z)
| Inf (negative : bool)
| NaN.

(** The first magnitude past the largest finite value, [2^1024], scaled. *)
Definition huge : Z := 2 ^ 1024 * scale.

(** [rne n d]: the integer nearest to the rational [n/d] ([0 < d]), ties to
    the even neighbour. *)
Definition rne (n d : Z) : Z :=
  let q := n / d in
  let r := n mod d in
  match 2 * r ?= d with
  | Lt => q
  | Gt => q + 1
  | Eq => if Z.even q then q else q + 1
  end.

(** Exponent of the unit in the last place of [n/d] (in multiples of
    [2^-1074]): 53 significant bits, never below the subnormal step. *)
Definition ulp_exp (n d : Z) : Z := Z.max 0 (Z.log2 (n / d) - 52).

(** Rounding of a non-negative rational [n/d], counted in units of
    [2^-1074], to the nearest value with a 53-bit significand. *)
Definition rnd_mag (n d : Z) : Z :=
  let j := ulp_exp n d in
  rne n (d * 2 ^ j) * 2 ^ j.

Definition rnd (n d : Z) : Z := Z.sgn n * rnd_mag (Z.abs n) d.

Definition overflows (n : Z) : bool := huge <=? Z.abs n.

(** Result of an arithmetic operation whose exact value is [n/d] units:
    overflow gives an infinity, silently, as float operations do. *)
Definition round_to_float (n d : Z) : float :=
  let r := rnd n d in
  if overflows r then Inf (r <? 0) else Fin r.

(** A decimal literal [num/den] of the source text, e.g. [1.30] is
    [float_lit 130 100]. *)
Definition float_lit (num den : Z) : float := round_to_float (num * scale) den.

(** [float(i)], as done implicitly by [int * float]. *)
Definition float_of_int (i : Z) : result float :=
  let r := rnd (i * scale) 1 in
  if overflows r then Raise OverflowError else Ok (Fin r).

(** [a / b] on two ints: the correctly rounded quotient. *)
Definition true_div (a b : Z) : result float :=
  if b =? 0 then Raise ZeroDivisionError
  else
    let r := rnd (Z.sgn b * a * scale) (Z.abs b) in
    if overflows r then Raise OverflowError else Ok (Fin r).

(** [x * y] on two floats. *)
Definition fmul (x y : float) : float :=
  match x, y with
  | NaN, _ | _, NaN => NaN
  | Fin a, Fin b => round_to_float (a * b) scale
  | Inf s, Fin a | Fin a, Inf s =>
      if a =? 0 then NaN else Inf (xorb s (a <? 0))
  | Inf s, Inf t => Inf (xorb s t)
  end.

(** [x < y] and [x > y]; any comparison with NaN is false. *)
Definition fltb (x y : float) : bool :=
  match x, y with
  | NaN, _ | _, NaN => false
  | Fin a, Fin b => a <? b
  | Fin _, Inf s => negb s
  | Inf s, Fin _ => s
  | Inf s, Inf t => s && negb t
  end.

Definition fgtb (x y : float) : bool := fltb y x.

Definition fleb (x y : float) : bool :=
  match x, y with
  | NaN, _ | _, NaN => false
  | _, _ => negb (fltb y x)
  end.

(** [int * float]: the int is converted first. *)
Definition int_mul_float (i : Z) (y : float) : result float :=
  x <- float_of_int i ;;
  Ok (fmul x y).

(** [round(x)] with one argument: nearest int, ties to even. *)
Definition py_round (x : float) : result Z :=
  match x with
  | Fin n => Ok (rne n scale)
  | Inf _ => Raise OverflowError
  | NaN => Raise ValueError
  end.

(** [int(x)]: truncation toward zero. *)
Definition py_int (x : float) : result Z :=
  match x with
  | Fin n => Ok (Z.quot n scale)
  | Inf _ => Raise OverflowError
  | NaN => Raise ValueError
  end.

(** [math.floor(x)], used to state bounds. *)
Definition py_floor (x : float) : result Z :=
  match x with
  | Fin n => Ok (n / scale)
  | Inf _ => Raise OverflowError
  | NaN => Raise ValueError
  end.

(** [round(x, 2)]: the exact value is rounded to two decimals (ties to
    even) and the decimal result is read back as the nearest float. *)
Definition py_round2 (x : float) : result float :=
  match x with
  | Fin n =>
      let r := rnd (rne (100 * n) scale * scale) 100 in
      if overflows r then Raise OverflowError else Ok (Fin r)
  | _ => Ok x
  end.

Definition is_finite (x : float) : bool :=
  match x with
  | Fin _ => true
  | _ => false
  end.

(** Magnitudes with a 53-bit significand: the finite values rounding
    produces. *)
Definition binary64_mag (x : Z) : Prop :=
  exists M j, 0 <= M < 2 ^ 53 /\ 0 <= j /\ x = M * 2 ^ j.

(** [2^1023] and [1.5 * 2^1023], in units of [2^-1074]: the bounds used
    for "well inside the float range". *)
Definition range_bound : Z := 2 ^ 1023 * scale.
Definition product_bound : Z := 3 * 2 ^ 1022 * scale.

End Binary64.
Import Binary64.

(** Literals are compared by name, never by unfolding them to their
    1075-bit values. *)
Global Opaque float_lit.

(** ** Integers as text

    [str(i)] and [f"{i}"] on an int.  CPython refuses to write out an int of
    more than [sys.int_max_str_digits] decimal digits, 4300 by default, and
    raises [ValueError].  The f-strings of the program also interpolate
    floats; that conversion cannot raise, and its digits are not modelled:
    an interpolated float is kept as a value. *)

Module PyStr.

Definition int_max_str_digits : Z := 4300.

Definition digit_char (d : Z) : Ascii.ascii :=
  Ascii.ascii_of_N (48 + Z.to_N d).

(** The decimal digits of [n >= 0], most significant first, put before
    [acc]; [fuel] bounds the number of further digits. *)
Fixpoint decimal (fuel : nat) (n : Z) (acc : string) : string :=
  let acc := String (digit_char (n mod 10)) acc in
  match fuel with
  | O => acc
  | S fuel => if n <? 10 then acc else decimal fuel (n / 10) acc
  end.

Definition digits (n : Z) : string := decimal (Z.to_nat (Z.log2 n)) n "".

Definition py_str_int (i : Z) : result string :=
  let text := digits (Z.abs i) in
  if int_max_str_digits <? Z.of_nat (String.length text) then Raise ValueError
  else Ok (if i <? 0 then "-" ++ text else text).

(** The ints that can be written out: at most [int_max_str_digits]
    digits. *)
Definition int_printable (i : Z) : Prop := Z.abs i < 10 ^ int_max_str_digits.

(** An f-string, as the sequence of its parts. *)
Inductive piece : Type :=
| Text (s : string)       (* literal text, or an int written out *)
| FloatText (x : float).  (* an interpolated float *)

Definition fstring : Type := list piece.

End PyStr.
Import PyStr.

(** ** The kernel's binary64, to test the model against *)

Module KernelFloats.

(** The model's value of a primitive float. *)
Definition of_kernel (f : PrimFloat.float) : float :=
  match FloatOps.Prim2SF f with
  | SpecFloat.S754_zero _ => Fin 0
  | SpecFloat.S754_infinity s => Inf s
  | SpecFloat.S754_nan => NaN
  | SpecFloat.S754_finite s m e =>
      Fin ((if s then -1 else 1) * Z.pos m * 2 ^ (e + 1074))
  end.

(** Small integers and quotients of small integers as primitive floats. *)
Definition kint (i : Z) : PrimFloat.float :=
  PrimFloat.of_uint63 (Uint63.of_Z i).

Definition kdiv (a b : Z) : PrimFloat.float := PrimFloat.div (kint a) (kint b).

Definition same_float (x y : float) : bool :=
  match x, y with
  | Fin a, Fin b => a =? b
  | Inf s, Inf t => Bool.eqb s t
  | NaN, NaN => true
  | _, _ => false
  end.

Definition same_result (x : float) (y : result float) : bool :=
  match y with
  | Ok y => same_float x y
  | Raise _ => false
  end.

Definition agree_literal (p : Z * Z) : bool :=
  same_float (of_kernel (kdiv (fst p) (snd p))) (float_lit (fst p) (snd p)).

Definition agree_int (i : Z) : bool :=
  same_result (of_kernel (kint i)) (float_of_int i).

Definition agree_true_div (p : Z * Z) : bool :=
  same_result (of_kernel (kdiv (fst p) (snd p))) (true_div (fst p) (snd p)).

Definition agree_mul (p : PrimFloat.float * PrimFloat.float) : bool :=
  same_float (of_kernel (PrimFloat.mul (fst p) (snd p)))
             (fmul (of_kernel (fst p)) (of_kernel (snd p))).

(** [2^496], [2^992] and [2^-1054] (a subnormal). *)
Definition k2p62 : PrimFloat.float := kint (2 ^ 62).
Definition k2p496 : PrimFloat.float :=
  let x2 := PrimFloat.mul k2p62 k2p62 in
  let x4 := PrimFloat.mul x2 x2 in
  PrimFloat.mul x4 x4.
Definition k2p992 : PrimFloat.float := PrimFloat.mul k2p496 k2p496.
Definition ktiny : PrimFloat.float :=
  PrimFloat.div (PrimFloat.div (kint 1) k2p992) k2p62.

End KernelFloats.

(** ** app/pricing.py *)

Module Pricing.

(* Supply-demand ratio thresholds *)
Definition CRITICAL_SHORTAGE_THRESHOLD : float := float_lit 130 100.
Definition SHORTAGE_THRESHOLD : float := float_lit 110 100.
Definition SURPLUS_THRESHOLD : float := float_lit 80 100.

(* Price multipliers (ratio-based) *)
Definition CRITICAL_SHORTAGE_MULTIPLIER : float := float_lit 115 100.
Definition SHORTAGE_MULTIPLIER : float := float_lit 108 100.
Definition NORMAL_MULTIPLIER : float := float_lit 10 10.
Definition SURPLUS_MULTIPLIER : float := float_lit 90 100.

(* Hard limits to prevent extreme swings *)
Definition MAX_PRICE_INCREASE : float := float_lit 150 100.
Definition MAX_PRICE_DECREASE : float := float_lit 70 100.

(** The ['calculations'] entry of the returned dict.  The early exit has
    no ['ratio_formula'] and ['price_formula'] keys. *)
Record Calculations : Type := {
  calc_base_price : Z;
  calc_supply : Z;
  calc_demand : Z;
  calc_season_factor : float;
  ratio_formula : option fstring;
  price_formula : option fstring
}.

Record PriceResult : Type := {
  suggested_price : Z;
  ratio : option float;
  multiplier : float;
  reason : string;
  is_capped : bool;
  calculations : Calculations
}.

Definition default_season_factor : float := float_lit 10 10.

Definition calculate_price (supply demand base_price : Z)
           (season_factor : float) : result PriceResult :=
  if supply <=? 0 then
    Ok {| suggested_price := base_price;
          ratio := None;
          multiplier := float_lit 10 10;
          reason := "No supply available - using base price";
          is_capped := false;
          calculations := {| calc_base_price := base_price;
                             calc_supply := supply;
                             calc_demand := demand;
                             calc_season_factor := season_factor;
                             ratio_formula := None;
                             price_formula := None |} |}
  else
    (* Calculate demand-supply ratio *)
    ratio <- true_div demand supply ;;
    (* Determine multiplier based on ratio *)
    let '(multiplier, tier_reason) :=
      if fgtb ratio CRITICAL_SHORTAGE_THRESHOLD then
        (CRITICAL_SHORTAGE_MULTIPLIER, "Critical shortage (ratio > 1.30)")
      else if fgtb ratio SHORTAGE_THRESHOLD then
        (SHORTAGE_MULTIPLIER, "Shortage detected (ratio > 1.10)")
      else if fltb ratio SURPLUS_THRESHOLD then
        (SURPLUS_MULTIPLIER, "Surplus available (ratio < 0.80)")
      else
        (NORMAL_MULTIPLIER, "Balanced supply-demand (0.80-1.10)") in
    (* Apply multiplier and seasonal factor *)
    scaled <- int_mul_float base_price multiplier ;;
    let calculated_price := fmul scaled season_factor in
    (* Apply hard limits to prevent extreme swings *)
    max_allowed <- int_mul_float base_price MAX_PRICE_INCREASE ;;
    min_allowed <- int_mul_float base_price MAX_PRICE_DECREASE ;;
    let '(calculated_price, tier_reason, is_capped) :=
      if fgtb calculated_price max_allowed then
        (max_allowed, (tier_reason ++ " [CAPPED at +50%]")%string, true)
      else if fltb calculated_price min_allowed then
        (min_allowed, (tier_reason ++ " [FLOORED at -30%]")%string, true)
      else
        (calculated_price, tier_reason, false) in
    (* Round to nearest integer *)
    final_price <- py_round calculated_price ;;
    ratio2 <- py_round2 ratio ;;
    multiplier2 <- py_round2 multiplier ;;
    (* f"{demand} / {supply} = {round(ratio, 2)}" *)
    demand_text <- py_str_int demand ;;
    supply_text <- py_str_int supply ;;
    ratio_shown <- py_round2 ratio ;;
    (* f"{base_price} × {round(multiplier, 2)} × {season_factor}
         = {int(calculated_price)}" *)
    base_price_text <- py_str_int base_price ;;
    multiplier_shown <- py_round2 multiplier ;;
    truncated <- py_int calculated_price ;;
    truncated_text <- py_str_int truncated ;;
    Ok {| suggested_price := final_price;
          ratio := Some ratio2;
          multiplier := multiplier2;
          reason := tier_reason;
          is_capped := is_capped;
          calculations :=
            {| calc_base_price := base_price;
               calc_supply := supply;
               calc_demand := demand;
               calc_season_factor := season_factor;
               ratio_formula :=
                 Some [Text demand_text; Text " / "; Text supply_text;
                       Text " = "; FloatText ratio_shown];
               price_formula :=
                 Some [Text base_price_text; Text " × ";
                       FloatText multiplier_shown; Text " × ";
                       FloatText season_factor; Text " = ";
                       Text truncated_text] |} |}.

(** The dict returned by [get_supply_demand_ratio]; the error branch has no
    ['supply'] and ['demand'] keys. *)
Record RatioInfo : Type := {
  ri_ratio : option float;
  tier : string;
  tier_description : string;
  ri_supply : option Z;
  ri_demand : option Z
}.

Definition get_supply_demand_ratio (supply demand : Z) : result RatioInfo :=
  if supply <=? 0 then
    Ok {| ri_ratio := None;
          tier := "error";
          tier_description := "No supply to calculate ratio";
          ri_supply := None;
          ri_demand := None |}
  else
    ratio <- true_div demand supply ;;
    let '(tier, tier_desc) :=
      if fgtb ratio CRITICAL_SHORTAGE_THRESHOLD then
        ("critical_shortage", "Critical shortage - price +15%")
      else if fgtb ratio SHORTAGE_THRESHOLD then
        ("shortage", "Shortage - price +8%")
      else if fltb ratio SURPLUS_THRESHOLD then
        ("surplus", "Surplus - price -10%")
      else
        ("balanced", "Balanced supply-demand - price baseline") in
    ratio2 <- py_round2 ratio ;;
    Ok {| ri_ratio := Some ratio2;
          tier := tier;
          tier_description := tier_desc;
          ri_supply := Some supply;
          ri_demand := Some demand |}.

Definition validate_inputs (supply demand base_price : Z) : bool * string :=
  if base_price <=? 0 then (false, "Base price must be positive")
  else if supply <? 0 then (false, "Supply cannot be negative")
  else if demand <? 0 then (false, "Demand cannot be negative")
  else if (supply =? 0) && (demand >? 0) then
    (false, "Cannot have demand with zero supply")
  else (true, "").

End Pricing.

(** ** app/blockchain.py *)

Module Blockchain.

Inductive BlockchainMode : Type :=
| MOCK    (* Local calculations (for development) *)
| REAL.   (* Real contract calls (requires deployed contracts) *)

Definition mode_eqb (a b : BlockchainMode) : bool :=
  match a, b with
  | MOCK, MOCK | REAL, REAL => true
  | _, _ => false
  end.

(** The environment variables read by [__init__]; [None] is an unset
    variable. *)
Record Environ : Type := {
  ETHANI_PRICING_ADDRESS : option string;
  ETHANI_REGION_ADDRESS : option string;
  ETHANI_PRICING_STYLUS_ADDRESS : option string;
  ETHANI_REGIONS_STYLUS_ADDRESS : option string;
  BLOCKCHAIN_RPC_URL : option string
}.

Definition getenv (v : option string) (default : string) : string :=
  match v with
  | Some s => s
  | None => default
  end.

(** Truth value of a string: empty is false. *)
Definition truthy (s : string) : bool := negb (s =? "")%string.

Record ContractIntegration : Type := {
  mode : BlockchainMode;
  pricing_contract_address : string;
  region_contract_address : string;
  pricing_stylus_address : string;
  regions_stylus_address : string;
  rpc_url : string;
  use_stylus_pricing : bool;
  use_stylus_regions : bool;
  contracts_available : bool
}.

(** [ContractIntegration.__init__] *)
Definition init (requested : BlockchainMode) (env : Environ)
  : ContractIntegration :=
  let pricing_contract_address :=
    getenv (ETHANI_PRICING_ADDRESS env)
           "0xc92fd01c122821Eb2C911d16468B20b07E25abC0" in
  let region_contract_address :=
    getenv (ETHANI_REGION_ADDRESS env)
           "0x5836cdDE4D05B0aBDB97AE556a0b9E3971a16143" in
  let pricing_stylus_address := getenv (ETHANI_PRICING_STYLUS_ADDRESS env) "" in
  let regions_stylus_address := getenv (ETHANI_REGIONS_STYLUS_ADDRESS env) "" in
  let rpc_url :=
    getenv (BLOCKCHAIN_RPC_URL env) "https://sepolia-rollup.arbitrum.io/rpc" in
  let contracts_available :=
    (truthy pricing_contract_address || truthy pricing_stylus_address)
    && (truthy region_contract_address || truthy regions_stylus_address) in
  {| mode := if mode_eqb requested REAL && negb contracts_available
             then MOCK else requested;
     pricing_contract_address := pricing_contract_address;
     region_contract_address := region_contract_address;
     pricing_stylus_address := pricing_stylus_address;
     regions_stylus_address := regions_stylus_address;
     rpc_url := rpc_url;
     use_stylus_pricing := truthy pricing_stylus_address;
     use_stylus_regions := truthy regions_stylus_address;
     contracts_available := contracts_available |}.

(** Keys of a returned dict beyond the common ones. *)
Inductive Details : Type :=
| MockAudit (supply demand : Z) (ratio multiplier : float)
            (base_price calculated_price : Z)
| FallbackAudit (fallback_reason : string) (base_price : Z)
| ContractInfo (contract_address contract_type : string)
               (execution_type : option string).

(** The dict returned by [calculate_price]; contract results carry no
    ['is_capped'] key. *)
Record Decision : Type := {
  final_price : Z;
  reason : string;
  source : string;
  is_capped : option bool;
  details : Details
}.

(** What one remote call does: the node is not connected, the call returns
    the triple [(finalPrice, reason, tier)], or anything in the [try] block
    raises (import, transport, revert, malformed answer). *)
Inductive RpcOutcome : Type :=
| NotConnected
| Returned (finalPrice : Z) (reason_str tier : string)
| Failed.

(** The behaviour of the two pricing contracts during one request. *)
Record Chain : Type := {
  stylus_call : Z -> Z -> Z -> RpcOutcome;
  solidity_call : Z -> Z -> Z -> RpcOutcome
}.

Definition _fallback_to_base_price (base_price : Z) (reason : string)
  : Decision :=
  {| final_price := base_price;
     reason := reason;
     source := "fallback";
     is_capped := Some false;
     details := FallbackAudit reason base_price |}.

Definition _call_pricing_contract (self : ContractIntegration) (chain : Chain)
           (supply demand base_price : Z) (region : string) : result Decision :=
  try_except
    (match solidity_call chain supply demand base_price with
     | NotConnected =>
         Ok (_fallback_to_base_price base_price "BLOCKCHAIN_UNAVAILABLE")
     | Returned final_price reason_str tier =>
         Ok {| final_price := final_price;
               reason := (reason_str ++ " [" ++ tier ++ "]")%string;
               source := "smart_contract_solidity";
               is_capped := None;
               details := ContractInfo (pricing_contract_address self)
                                       "solidity" None |}
     | Failed => Raise RemoteError
     end)
    (fun _ => Ok (_fallback_to_base_price base_price "CONTRACT_CALL_FAILED")).

Definition _call_stylus_pricing_contract (self : ContractIntegration)
           (chain : Chain) (supply demand base_price : Z) (region : string)
  : result Decision :=
  try_except
    (match stylus_call chain supply demand base_price with
     | NotConnected =>
         Ok (_fallback_to_base_price base_price "BLOCKCHAIN_UNAVAILABLE")
     | Returned final_price reason_str tier =>
         Ok {| final_price := final_price;
               reason := (reason_str ++ " [" ++ tier ++ "]")%string;
               source := "smart_contract_stylus";
               is_capped := None;
               details := ContractInfo (pricing_stylus_address self)
                                       "stylus_wasm" (Some "WASM") |}
     | Failed => Raise RemoteError
     end)
    (fun _ =>
       (* Fallback to Solidity version *)
       if truthy (pricing_contract_address self) then
         _call_pricing_contract self chain supply demand base_price region
       else
         Ok (_fallback_to_base_price base_price "STYLUS_CALL_FAILED")).

Definition _mock_pricing_calculation (self : ContractIntegration)
           (supply demand base_price : Z) (region : string) : result Decision :=
  (* Validate *)
  if supply <=? 0 then
    Ok (_fallback_to_base_price base_price "INSUFFICIENT_DATA")
  else if demand <? 0 then
    Ok (_fallback_to_base_price base_price "INSUFFICIENT_DATA")
  else
    (* Calculate ratio *)
    ratio <- true_div demand supply ;;
    (* Determine multiplier (MUST match contract) *)
    let '(multiplier, tier_reason) :=
      if fgtb ratio (float_lit 130 100) then
        (float_lit 115 100, "Critical shortage (ratio > 1.30)")
      else if fgtb ratio (float_lit 110 100) then
        (float_lit 108 100, "Shortage (ratio > 1.10)")
      else if fltb ratio (float_lit 80 100) then
        (float_lit 90 100, "Surplus (ratio < 0.80)")
      else
        (float_lit 10 10, "Balanced (0.80-1.10)") in
    (* Apply multiplier *)
    scaled <- int_mul_float base_price multiplier ;;
    calculated_price <- py_int scaled ;;
    (* Apply hard limits (MUST match contract) *)
    upper <- int_mul_float base_price (float_lit 150 100) ;;
    max_allowed <- py_int upper ;;
    lower <- int_mul_float base_price (float_lit 70 100) ;;
    min_allowed <- py_int lower ;;
    let '(calculated_price, tier_reason, is_capped) :=
      if calculated_price >? max_allowed then
        (max_allowed, (tier_reason ++ " [CAPPED +50%]")%string, true)
      else if calculated_price <? min_allowed then
        (min_allowed, (tier_reason ++ " [FLOORED -30%]")%string, true)
      else
        (calculated_price, tier_reason, false) in
    ratio2 <- py_round2 ratio ;;
    Ok {| final_price := calculated_price;
          reason := tier_reason;
          source := if mode_eqb (mode self) MOCK
                    then "mock_pricing" else "smart_contract";
          is_capped := Some is_capped;
          details := MockAudit supply demand ratio2 multiplier
                               base_price calculated_price |}.

Definition calculate_price (self : ContractIntegration) (chain : Chain)
           (supply demand base_price : Z) (region : string) : result Decision :=
  if mode_eqb (mode self) REAL && contracts_available self then
    try_except
      ((* Try Stylus first (faster), fallback to Solidity *)
       if use_stylus_pricing self then
         _call_stylus_pricing_contract self chain supply demand base_price region
       else
         _call_pricing_contract self chain supply demand base_price region)
      (fun _ => Ok (_fallback_to_base_price base_price "CONTRACT_UNAVAILABLE"))
  else (* MOCK mode *)
    _mock_pricing_calculation self supply demand base_price region.

End Blockchain.

(** ** The specification's vocabulary *)

(** The four tiers of the specification, with the multiplier and the
    wording each one stands for in the code. *)
Inductive PriceTier : Type :=
| CriticalShortage
| Shortage
| Balanced
| Surplus.

Definition tier_multiplier (t : PriceTier) : float :=
  match t with
  | CriticalShortage => float_lit 115 100
  | Shortage => float_lit 108 100
  | Balanced => float_lit 10 10
  | Surplus => float_lit 90 100
  end.

(** The tier as the specification words it: strict comparisons of the ratio
    in priority order. *)
Definition spec_tier (ratio : float) : PriceTier :=
  if fgtb ratio (float_lit 130 100) then CriticalShortage
  else if fgtb ratio (float_lit 110 100) then Shortage
  else if fltb ratio (float_lit 80 100) then Surplus
  else Balanced.

(** The tier named by a label of [get_supply_demand_ratio]. *)
Definition tier_of_label (label : string) : option PriceTier :=
  if (label =? "critical_shortage")%string then Some CriticalShortage
  else if (label =? "shortage")%string then Some Shortage
  else if (label =? "balanced")%string then Some Balanced
  else if (label =? "surplus")%string then Some Surplus
  else None.

(** The tier a reason text opens with (both modules word their reasons
    this way). *)
Definition tier_of_reason (reason : string) : option PriceTier :=
  if prefix "Critical shortage" reason then Some CriticalShortage
  else if prefix "Shortage" reason then Some Shortage
  else if prefix "Surplus" reason then Some Surplus
  else if prefix "Balanced" reason then Some Balanced
  else None.

Definition float_eqb (x y : float) : bool :=
  match x, y with
  | Fin a, Fin b => a =? b
  | Inf s, Inf t => Bool.eqb s t
  | _, _ => false
  end.

(** The tier whose multiplier a result carries. *)
Definition tier_of_multiplier (m : float) : option PriceTier :=
  if float_eqb m (float_lit 115 100) then Some CriticalShortage
  else if float_eqb m (float_lit 108 100) then Some Shortage
  else if float_eqb m (float_lit 10 10) then Some Balanced
  else if float_eqb m (float_lit 90 100) then Some Surplus
  else None.

(** The provenance tags of the specification and the [source] strings the
    resolver writes. *)
Inductive Provenance : Type :=
| fast_remote
| standard_remote
| local_rule_engine
| static_fallback.

Definition provenance_of_source (source : string) : option Provenance :=
  if (source =? "smart_contract_stylus")%string then Some fast_remote
  else if (source =? "smart_contract_solidity")%string then Some standard_remote
  else if (source =? "mock_pricing")%string then Some local_rule_engine
  else if (source =? "fallback")%string then Some static_fallback
  else None.

(** What a caller reads off a pricing result. *)
Definition outcome (r : Pricing.PriceResult) : Z * float * string * bool :=
  (Pricing.suggested_price r, Pricing.multiplier r, Pricing.reason r,
   Pricing.is_capped r).

Definition result_map {A B : Type} (f : A -> B) (m : result A) : result B :=
  x <- m ;; Ok (f x).

(** The largest integer magnitude used as "well inside the float range". *)
Definition in_float_range (i : Z) : Prop := Z.abs i <= 2 ^ 1023.

(** ** Names for parts of the code, used in the proofs *)

Module Parts.
Import Pricing.

(** The multipliers a request can get. *)
Definition is_multiplier (m : float) : Prop :=
  m = CRITICAL_SHORTAGE_MULTIPLIER \/ m = SHORTAGE_MULTIPLIER \/
  m = SURPLUS_MULTIPLIER \/ m = NORMAL_MULTIPLIER.

(** The tier block of [Pricing.calculate_price]. *)
Definition selected (ratio : float) : float * string :=
  if fgtb ratio CRITICAL_SHORTAGE_THRESHOLD then
    (CRITICAL_SHORTAGE_MULTIPLIER, "Critical shortage (ratio > 1.30)")
  else if fgtb ratio SHORTAGE_THRESHOLD then
    (SHORTAGE_MULTIPLIER, "Shortage detected (ratio > 1.10)")
  else if fltb ratio SURPLUS_THRESHOLD then
    (SURPLUS_MULTIPLIER, "Surplus available (ratio < 0.80)")
  else
    (NORMAL_MULTIPLIER, "Balanced supply-demand (0.80-1.10)").

(** The tier block of [Blockchain._mock_pricing_calculation]. *)
Definition mock_selected (ratio : float) : float * string :=
  if fgtb ratio (float_lit 130 100) then
    (float_lit 115 100, "Critical shortage (ratio > 1.30)")
  else if fgtb ratio (float_lit 110 100) then
    (float_lit 108 100, "Shortage (ratio > 1.10)")
  else if fltb ratio (float_lit 80 100) then
    (float_lit 90 100, "Surplus (ratio < 0.80)")
  else
    (float_lit 10 10, "Balanced (0.80-1.10)").

(** Configurations for the examples: no contract address set at all, both
    pricing contracts set, and a chain on which every call fails. *)
Definition no_contracts_env : Blockchain.Environ :=
  {| Blockchain.ETHANI_PRICING_ADDRESS := Some "";
     Blockchain.ETHANI_REGION_ADDRESS := Some "";
     Blockchain.ETHANI_PRICING_STYLUS_ADDRESS := None;
     Blockchain.ETHANI_REGIONS_STYLUS_ADDRESS := None;
     Blockchain.BLOCKCHAIN_RPC_URL := None |}.

Definition both_contracts_env : Blockchain.Environ :=
  {| Blockchain.ETHANI_PRICING_ADDRESS := None;
     Blockchain.ETHANI_REGION_ADDRESS := None;
     Blockchain.ETHANI_PRICING_STYLUS_ADDRESS :=
       Some "0x00000000000000000000000000000000000000A1";
     Blockchain.ETHANI_REGIONS_STYLUS_ADDRESS := None;
     Blockchain.BLOCKCHAIN_RPC_URL := None |}.

Definition failing_chain : Blockchain.Chain :=
  {| Blockchain.stylus_call := fun _ _ _ => Blockchain.Failed;
     Blockchain.solidity_call := fun _ _ _ => Blockchain.Failed |}.

End Parts.
Import Parts.

(** ** app/blockchain.py, the rest: base prices and health *)

Module BlockchainRest.
Import Blockchain.

(** The exceptions of the base-price path. *)
Inductive region_exn : Type :=
| NotImplementedError (message : string)
| KeyError (key : string).

(** [str.lower()] and [str.replace(" ", "_")].  Strings are byte strings
    here and region names are taken to be ASCII: only the letters [A-Z]
    change under [lower]. *)
Definition lower_char (c : Ascii.ascii) : Ascii.ascii :=
  let n := Ascii.N_of_ascii c in
  if ((65 <=? n) && (n <=? 90))%N then Ascii.ascii_of_N (n + 32) else c.

Definition upper_char (c : Ascii.ascii) : Ascii.ascii :=
  let n := Ascii.N_of_ascii c in
  if ((97 <=? n) && (n <=? 122))%N then Ascii.ascii_of_N (n - 32) else c.

Fixpoint map_chars (f : Ascii.ascii -> Ascii.ascii) (s : string) : string :=
  match s with
  | EmptyString => EmptyString
  | String c rest => String (f c) (map_chars f rest)
  end.

Definition lower (s : string) : string := map_chars lower_char s.

Definition upper (s : string) : string := map_chars upper_char s.

Definition replace_char (old new : Ascii.ascii) (s : string) : string :=
  map_chars (fun c => if Ascii.eqb c old then new else c) s.

Fixpoint ascii_only (s : string) : bool :=
  match s with
  | EmptyString => true
  | String c rest => (Ascii.N_of_ascii c <? 128)%N && ascii_only rest
  end.

(** The characters [" "] and ["_"]. *)
Definition space : Ascii.ascii := Ascii.ascii_of_N 32.
Definition underscore : Ascii.ascii := Ascii.ascii_of_N 95.

(** A dict literal, and [d.get(key)]. *)
Fixpoint dict_get (d : list (string * Z)) (key : string) : option Z :=
  match d with
  | [] => None
  | (k, v) :: rest => if (k =? key)%string then Some v else dict_get rest key
  end.

(* Default prices per region (Indonesia market) *)
Definition mock_prices : list (string * Z) :=
  [("default", 10000); ("minahasa_selatan", 10500); ("java", 9800);
   ("sumatra", 10200)].

Definition _mock_base_price (region : string) : region_exn + Z :=
  let region_key := replace_char space underscore (lower region) in
  match dict_get mock_prices "default" with   (* mock_prices["default"] *)
  | None => inl (KeyError "default")
  | Some default =>
      inr (match dict_get mock_prices region_key with
           | Some price => price
           | None => default
           end)
  end.

Definition _call_region_contract_get_base_price
           (self : ContractIntegration) (region : string) : region_exn + Z :=
  inl (NotImplementedError
         "Contract calls require deployed contracts. Use MOCK mode or deploy contracts first.").

Definition get_base_price (self : ContractIntegration) (region : string)
  : region_exn + Z :=
  if mode_eqb (mode self) REAL && contracts_available self then
    match _call_region_contract_get_base_price self region with
    | inr price => inr price
    | inl _ => _mock_base_price region   (* except Exception *)
    end
  else (* MOCK mode *)
    _mock_base_price region.

(** [mode.value] *)
Definition mode_value (m : BlockchainMode) : string :=
  match m with
  | MOCK => "mock"
  | REAL => "real"
  end.

(** [s or default] on strings. *)
Definition or_else (s default : string) : string :=
  if truthy s then s else default.

Record Health : Type := {
  health_mode : string;
  contracts_deployed : bool;
  pricing_contract : string;
  region_contract : string;
  health_rpc_url : string;
  ready : bool
}.

Definition health_check (self : ContractIntegration) : Health :=
  {| health_mode := mode_value (mode self);
     contracts_deployed := contracts_available self;
     pricing_contract := or_else (pricing_contract_address self) "NOT_SET";
     region_contract := or_else (region_contract_address self) "NOT_SET";
     health_rpc_url := rpc_url self;
     ready := mode_eqb (mode self) REAL && contracts_available self |}.

End BlockchainRest.

(** ** app/main.py: the endpoints over pricing and the resolver *)

Module Endpoints.

(** What an endpoint does: it answers, raises [HTTPException], or lets an
    exception of the code below escape. *)
Inductive http_result (A : Type) : Type :=
| Respond (a : A)
| HTTPException (status_code : Z) (detail : string)
| Escapes (e : exn).
Arguments Respond {A} a.
Arguments HTTPException {A} status_code detail.
Arguments Escapes {A} e.

Record PriceAnswer : Type := {
  pa_region : string;
  pa_base_price : Z;
  pa_supply : Z;
  pa_demand : Z;
  pa_final_price : Z;
  pa_reason : string;
  pa_method : string;
  pa_ai_used : bool
}.

(** [GET /price].  The module-level [blockchain] object and the state of the
    chain are parameters. *)
Definition get_price (blockchain : Blockchain.ContractIntegration)
           (chain : Blockchain.Chain)
           (supply demand base_price : Z) (region : string)
           (season_factor : float) : http_result PriceAnswer :=
  (* Validate inputs *)
  let '(is_valid, error_msg) :=
    Pricing.validate_inputs supply demand base_price in
  if negb is_valid then HTTPException 400 error_msg
  else
    match Blockchain.calculate_price blockchain chain supply demand
                                     base_price region with
    | Raise e => Escapes e
    | Ok contract_result =>
        Respond {| pa_region := region;
                   pa_base_price := base_price;
                   pa_supply := supply;
                   pa_demand := demand;
                   pa_final_price := Blockchain.final_price contract_result;
                   pa_reason := Blockchain.reason contract_result;
                   pa_method := "rule_based";
                   pa_ai_used := false |}
    end.

Record RatioAnswer : Type := {
  ra_supply : Z;
  ra_demand : Z;
  ra_ratio : option float;
  ra_tier : string;
  ra_tier_description : string
}.

(** [GET /ratio] *)
Definition get_ratio (supply demand : Z) : http_result RatioAnswer :=
  if supply <=? 0 then HTTPException 400 "Supply must be positive"
  else if demand <? 0 then HTTPException 400 "Demand cannot be negative"
  else
    match Pricing.get_supply_demand_ratio supply demand with
    | Raise e => Escapes e
    | Ok result =>
        Respond {| ra_supply := supply;
                   ra_demand := demand;
                   ra_ratio := Pricing.ri_ratio result;
                   ra_tier := Pricing.tier result;
                   ra_tier_description := Pricing.tier_description result |}
    end.

(** [GET /blockchain] *)
Definition blockchain_status (blockchain : Blockchain.ContractIntegration)
  : BlockchainRest.Health :=
  BlockchainRest.health_check blockchain.

End Endpoints.

(** ** More names for parts of the code *)

Module MoreParts.

(** The value the limiting block of [Pricing.calculate_price] keeps. *)
Definition limited (calc lo hi : float) : float :=
  if fgtb calc hi then hi
  else if fltb calc lo then lo
  else calc.

(** The note it appends to the reason. *)
Definition limit_note (calc lo hi : float) : string :=
  if fgtb calc hi then " [CAPPED at +50%]"
  else if fltb calc lo then " [FLOORED at -30%]"
  else "".

Definition was_limited (calc lo hi : float) : bool :=
  if fgtb calc hi then true
  else if fltb calc lo then true
  else false.

(** The count of [2^-1074] units in a finite float. *)
Definition units (x : float) : Z :=
  match x with
  | Fin n => n
  | _ => 0
  end.

(** Steps through the two formula strings at the end of [calculate_price]
    in a goal [... = Ok r -> _]: a conversion that raises ends the case. *)
Ltac formula_step f :=
  cbn [bind];
  match goal with
  | |- context [bind (f ?a) _] =>
      destruct (f a) as [? | ?];
      [|let H := fresh in intros H; discriminate H]
  end.

Ltac formulas :=
  formula_step py_str_int; formula_step py_str_int;
  formula_step py_str_int; formula_step py_int;
  formula_step py_str_int; cbn [bind].

(** The floats arithmetic produces: a finite one is below the overflow
    threshold. *)
Definition bounded_float (x : float) : Prop :=
  match x with
  | Fin n => Z.abs n < huge
  | _ => True
  end.

(** Floats that are not below zero: what rounding a non-negative value
    gives. *)
Definition nonneg_float (x : float) : Prop :=
  x = Inf false \/ exists r, x = Fin r /\ 0 <= r.

(** The table key of a character of a region name: lower case, space as
    underscore. *)
Definition key_char (c : Ascii.ascii) : Ascii.ascii :=
  if Ascii.eqb (BlockchainRest.lower_char c) BlockchainRest.space
  then BlockchainRest.underscore
  else BlockchainRest.lower_char c.

End MoreParts.
Import MoreParts.

(** ** Facts about rounding *)

Module Binary64Facts.

Lemma scale_pos : 0 < scale.
Proof. unfold scale. apply Z.pow_pos_nonneg; lia. Qed.

Lemma pow2_pos (j : Z) : 0 <= j -> 0 < 2 ^ j.
Proof. intros. apply Z.pow_pos_nonneg; lia. Qed.

(** *** Nearest integer *)

Lemma rne_bounds (n d : Z) : 0 < d -> n / d <= rne n d <= n / d + 1.
Proof.
  intros Hd. unfold rne.
  destruct (2 * (n mod d) ?= d); [destruct (Z.even (n / d))| |]; lia.
Qed.

Lemma rne_exact (k d : Z) : 0 < d -> rne (k * d) d = k.
Proof.
  intros Hd. unfold rne.
  rewrite Z.div_mul, Z.mod_mul by lia.
  replace (2 * 0) with 0 by lia.
  destruct (Z.compare_spec 0 d); lia.
Qed.

Lemma rne_mono (n1 n2 d : Z) : 0 < d -> n1 <= n2 -> rne n1 d <= rne n2 d.
Proof.
  intros Hd Hn.
  assert (Hq : n1 / d <= n2 / d) by (apply Z.div_le_mono; lia).
  destruct (Z.eq_dec (n1 / d) (n2 / d)) as [E | NE].
  - assert (Hr : n1 mod d <= n2 mod d).
    { rewrite !Z.mod_eq by lia. rewrite E. lia. }
    unfold rne. rewrite E.
    destruct (Z.compare_spec (2 * (n1 mod d)) d);
      destruct (Z.compare_spec (2 * (n2 mod d)) d);
      destruct (Z.even (n2 / d)); lia.
  - pose proof (rne_bounds n1 d Hd). pose proof (rne_bounds n2 d Hd). lia.
Qed.

Lemma rne_scale (k n d : Z) : 0 < k -> 0 < d -> rne (k * n) (k * d) = rne n d.
Proof.
  intros Hk Hd. unfold rne.
  rewrite Z.div_mul_cancel_l by lia.
  rewrite Z.mul_mod_distr_l by lia.
  replace (2 * (k * (n mod d))) with (k * (2 * (n mod d))) by lia.
  assert (C : forall a b, (k * a ?= k * b) = (a ?= b)).
  { intros a b. destruct (Z.compare_spec a b).
    - subst. apply Z.compare_refl.
    - apply Z.compare_lt_iff. nia.
    - apply Z.compare_gt_iff. nia. }
  rewrite C. reflexivity.
Qed.

Lemma rne_mono_frac (n1 d1 n2 d2 : Z) :
  0 < d1 -> 0 < d2 -> n1 * d2 <= n2 * d1 -> rne n1 d1 <= rne n2 d2.
Proof.
  intros H1 H2 H.
  rewrite <- (rne_scale d2 n1 d1), <- (rne_scale d1 n2 d2) by lia.
  replace (d2 * d1) with (d1 * d2) by lia.
  apply rne_mono; lia.
Qed.

Lemma rne_le_int (n d k : Z) : 0 < d -> n <= k * d -> rne n d <= k.
Proof.
  intros Hd H. rewrite <- (rne_exact k d Hd). apply rne_mono; lia.
Qed.

Lemma rne_ge_int (n d k : Z) : 0 < d -> k * d <= n -> k <= rne n d.
Proof.
  intros Hd H. rewrite <- (rne_exact k d Hd). apply rne_mono; lia.
Qed.

Lemma rne_nonneg (n d : Z) : 0 < d -> 0 <= n -> 0 <= rne n d.
Proof. intros. apply rne_ge_int; lia. Qed.

(** *** Rounding to 53 significant bits *)

Lemma ulp_exp_nonneg (n d : Z) : 0 <= ulp_exp n d.
Proof. unfold ulp_exp. lia. Qed.

Lemma ulp_exp_upper (n d : Z) :
  0 <= n -> 0 < d -> n < 2 ^ (53 + ulp_exp n d) * d.
Proof.
  intros Hn Hd.
  assert (Hf : 0 <= n / d) by (apply Z.div_pos; lia).
  assert (Hlt : n / d < 2 ^ (53 + ulp_exp n d)).
  { destruct (Z.eq_dec (n / d) 0) as [E | NE].
    - rewrite E. apply pow2_pos. pose proof (ulp_exp_nonneg n d). lia.
    - destruct (Z.log2_spec (n / d)) as [_ Hu]; [lia|].
      eapply Z.lt_le_trans; [exact Hu|].
      apply Z.pow_le_mono_r; [lia|]. unfold ulp_exp. lia. }
  pose proof (Z.mod_pos_bound n d Hd).
  pose proof (Z.div_mod n d). nia.
Qed.

Lemma ulp_exp_lower (n d : Z) :
  0 <= n -> 0 < d -> 0 < ulp_exp n d -> 2 ^ (52 + ulp_exp n d) * d <= n.
Proof.
  intros Hn Hd Hj.
  assert (Hf : 0 <= n / d) by (apply Z.div_pos; lia).
  assert (Hl : 2 ^ (52 + ulp_exp n d) <= n / d).
  { unfold ulp_exp in *.
    destruct (Z.eq_dec (n / d) 0) as [E | NE].
    - rewrite E in Hj. cbn in Hj. lia.
    - destruct (Z.log2_spec (n / d)) as [Hl _]; [lia|].
      replace (52 + Z.max 0 (Z.log2 (n / d) - 52)) with (Z.log2 (n / d)) by lia.
      exact Hl. }
  pose proof (Z.mod_pos_bound n d Hd).
  pose proof (Z.div_mod n d). nia.
Qed.

Lemma div_le_frac (n1 d1 n2 d2 : Z) :
  0 < d1 -> 0 < d2 -> n1 * d2 <= n2 * d1 -> n1 / d1 <= n2 / d2.
Proof.
  intros H1 H2 H.
  apply Z.div_le_lower_bound; [lia|].
  pose proof (Z.mod_pos_bound n1 d1 H1).
  pose proof (Z.div_mod n1 d1). nia.
Qed.

Lemma ulp_exp_mono (n1 d1 n2 d2 : Z) :
  0 <= n1 -> 0 < d1 -> 0 < d2 -> n1 * d2 <= n2 * d1 ->
  ulp_exp n1 d1 <= ulp_exp n2 d2.
Proof.
  intros Hn H1 H2 H. unfold ulp_exp.
  pose proof (div_le_frac n1 d1 n2 d2 H1 H2 H) as Hq.
  pose proof (Z.log2_le_mono _ _ Hq). lia.
Qed.

Lemma rnd_mag_nonneg (n d : Z) : 0 <= n -> 0 < d -> 0 <= rnd_mag n d.
Proof.
  intros Hn Hd. unfold rnd_mag.
  pose proof (ulp_exp_nonneg n d) as Hj.
  pose proof (pow2_pos _ Hj).
  apply Z.mul_nonneg_nonneg; [|lia].
  apply rne_nonneg; nia.
Qed.

(** A value below [2^(53+j)] rounds to at most [2^(53+j)]; a value with
    [j > 0] rounds to at least [2^(52+j)]. *)
Lemma rnd_mag_below (n d : Z) :
  0 <= n -> 0 < d -> rnd_mag n d <= 2 ^ (53 + ulp_exp n d).
Proof.
  intros Hn Hd. unfold rnd_mag.
  pose proof (ulp_exp_nonneg n d) as Hj.
  pose proof (pow2_pos _ Hj) as Hp.
  pose proof (ulp_exp_upper n d Hn Hd) as Hu.
  rewrite Z.pow_add_r in * by lia.
  apply Z.mul_le_mono_nonneg_r; [lia|].
  apply rne_le_int; nia.
Qed.

Lemma rnd_mag_above (n d : Z) :
  0 <= n -> 0 < d -> 0 < ulp_exp n d -> 2 ^ (52 + ulp_exp n d) <= rnd_mag n d.
Proof.
  intros Hn Hd Hj. unfold rnd_mag.
  pose proof (pow2_pos (ulp_exp n d) ltac:(lia)) as Hp.
  pose proof (ulp_exp_lower n d Hn Hd Hj) as Hl.
  rewrite Z.pow_add_r in * by lia.
  apply Z.mul_le_mono_nonneg_r; [lia|].
  apply rne_ge_int; nia.
Qed.

(** Rounding is monotone on non-negative rationals. *)
Lemma rnd_mag_mono (n1 d1 n2 d2 : Z) :
  0 <= n1 -> 0 < d1 -> 0 < d2 -> n1 * d2 <= n2 * d1 ->
  rnd_mag n1 d1 <= rnd_mag n2 d2.
Proof.
  intros Hn H1 H2 H.
  assert (Hn2 : 0 <= n2) by nia.
  pose proof (ulp_exp_mono n1 d1 n2 d2 Hn H1 H2 H) as Hj.
  pose proof (ulp_exp_nonneg n1 d1) as Hj1.
  destruct (Z.eq_dec (ulp_exp n1 d1) (ulp_exp n2 d2)) as [E | NE].
  - unfold rnd_mag. rewrite <- E.
    pose proof (pow2_pos _ Hj1) as Hp.
    apply Z.mul_le_mono_nonneg_r; [lia|].
    apply rne_mono_frac; nia.
  - eapply Z.le_trans; [apply rnd_mag_below; lia|].
    eapply Z.le_trans; [|apply rnd_mag_above; lia].
    apply Z.pow_le_mono_r; lia.
Qed.

(** Rounding never crosses such a magnitude. *)
Lemma rnd_mag_le_repr (n d x : Z) :
  0 <= n -> 0 < d -> binary64_mag x -> n <= x * d -> rnd_mag n d <= x.
Proof.
  intros Hn Hd (M & j & HM & Hj & ->) H.
  pose proof (ulp_exp_nonneg n d) as Hjn.
  pose proof (pow2_pos _ Hjn) as Hp.
  pose proof (pow2_pos _ Hj) as Hpj.
  destruct (Z_le_gt_dec (ulp_exp n d) j) as [L | G].
  - unfold rnd_mag.
    replace j with ((j - ulp_exp n d) + ulp_exp n d) in * by lia.
    rewrite Z.pow_add_r in * by lia.
    pose proof (pow2_pos (j - ulp_exp n d) ltac:(lia)).
    rewrite Z.mul_assoc.
    apply Z.mul_le_mono_nonneg_r; [lia|].
    apply rne_le_int; nia.
  - exfalso.
    pose proof (ulp_exp_lower n d Hn Hd ltac:(lia)) as Hl.
    assert (Hle : 2 ^ (53 + j) <= 2 ^ (52 + ulp_exp n d))
      by (apply Z.pow_le_mono_r; lia).
    rewrite (Z.pow_add_r 2 53 j) in Hle by lia.
    assert (Hlt : M * 2 ^ j < 2 ^ 53 * 2 ^ j)
      by (apply Z.mul_lt_mono_pos_r; lia).
    assert (M * 2 ^ j * d < 2 ^ (52 + ulp_exp n d) * d)
      by (apply Z.mul_lt_mono_pos_r; lia).
    lia.
Qed.

Lemma rnd_mag_ge_repr (n d x : Z) :
  0 <= n -> 0 < d -> binary64_mag x -> x * d <= n -> x <= rnd_mag n d.
Proof.
  intros Hn Hd (M & j & HM & Hj & ->) H.
  pose proof (ulp_exp_nonneg n d) as Hjn.
  pose proof (pow2_pos _ Hjn) as Hp.
  pose proof (pow2_pos _ Hj) as Hpj.
  destruct (Z_le_gt_dec (ulp_exp n d) j) as [L | G].
  - unfold rnd_mag.
    replace j with ((j - ulp_exp n d) + ulp_exp n d) in * by lia.
    rewrite Z.pow_add_r in * by lia.
    pose proof (pow2_pos (j - ulp_exp n d) ltac:(lia)).
    rewrite Z.mul_assoc.
    apply Z.mul_le_mono_nonneg_r; [lia|].
    apply rne_ge_int; nia.
  - eapply Z.le_trans; [|apply rnd_mag_above; lia].
    assert (Hle : 2 ^ (53 + j) <= 2 ^ (52 + ulp_exp n d))
      by (apply Z.pow_le_mono_r; lia).
    rewrite (Z.pow_add_r 2 53 j) in Hle by lia.
    assert (Hlt : M * 2 ^ j < 2 ^ 53 * 2 ^ j)
      by (apply Z.mul_lt_mono_pos_r; lia).
    lia.
Qed.

(** The result of rounding has a 53-bit significand. *)
Lemma rnd_mag_repr (n d : Z) : 0 <= n -> 0 < d -> binary64_mag (rnd_mag n d).
Proof.
  intros Hn Hd.
  pose proof (ulp_exp_nonneg n d) as Hj.
  pose proof (pow2_pos _ Hj) as Hp.
  pose proof (ulp_exp_upper n d Hn Hd) as Hu.
  rewrite Z.pow_add_r in Hu by lia.
  assert (Hm : 0 <= rne n (d * 2 ^ ulp_exp n d) <= 2 ^ 53).
  { split; [apply rne_nonneg; nia | apply rne_le_int; nia]. }
  destruct (Z.eq_dec (rne n (d * 2 ^ ulp_exp n d)) (2 ^ 53)) as [E | NE].
  - exists (2 ^ 52), (ulp_exp n d + 1). unfold rnd_mag. rewrite E.
    rewrite Z.pow_add_r by lia.
    change (2 ^ 53) with (2 ^ 52 * 2 ^ 1).
    repeat split; lia.
  - exists (rne n (d * 2 ^ ulp_exp n d)), (ulp_exp n d).
    unfold rnd_mag. repeat split; lia.
Qed.

(** Rounding depends on the quotient only. *)
Lemma rnd_mag_scale (k n d : Z) :
  0 < k -> 0 < d -> rnd_mag (k * n) (k * d) = rnd_mag n d.
Proof.
  intros Hk Hd. unfold rnd_mag, ulp_exp.
  rewrite Z.div_mul_cancel_l by lia.
  set (j := Z.max 0 (Z.log2 (n / d) - 52)).
  pose proof (pow2_pos j ltac:(lia)).
  rewrite <- Z.mul_assoc. rewrite rne_scale by nia. reflexivity.
Qed.

(** *** Signed rounding and overflow *)

Lemma rne_zero (d : Z) : 0 < d -> rne 0 d = 0.
Proof. intros Hd. apply (rne_exact 0 d Hd). Qed.

Lemma rnd_mag_zero (d : Z) : 0 < d -> rnd_mag 0 d = 0.
Proof.
  intros Hd. unfold rnd_mag.
  pose proof (pow2_pos _ (ulp_exp_nonneg 0 d)).
  rewrite rne_zero by nia. reflexivity.
Qed.

Lemma rnd_nonneg_eq (n d : Z) : 0 <= n -> 0 < d -> rnd n d = rnd_mag n d.
Proof.
  intros Hn Hd. unfold rnd.
  destruct (Z.eq_dec n 0) as [-> | NE].
  - cbn. now rewrite rnd_mag_zero.
  - rewrite Z.sgn_pos, Z.abs_eq by lia. lia.
Qed.

Lemma rnd_abs (n d : Z) : 0 < d -> Z.abs (rnd n d) = rnd_mag (Z.abs n) d.
Proof.
  intros Hd. unfold rnd.
  pose proof (rnd_mag_nonneg (Z.abs n) d (Z.abs_nonneg n) Hd).
  destruct (Z.sgn_spec n) as [[? ->] | [[? ->] | [? ->]]].
  - lia.
  - subst n. cbn. now rewrite rnd_mag_zero.
  - lia.
Qed.

Lemma rnd_bounded (n d x : Z) :
  0 < d -> binary64_mag x -> Z.abs n <= x * d -> Z.abs (rnd n d) <= x.
Proof.
  intros Hd Hx H. rewrite rnd_abs by assumption.
  apply rnd_mag_le_repr; auto using Z.abs_nonneg.
Qed.

Lemma rnd_repr (n d : Z) : 0 < d -> binary64_mag (Z.abs (rnd n d)).
Proof.
  intros Hd. rewrite rnd_abs by assumption.
  apply rnd_mag_repr; auto using Z.abs_nonneg.
Qed.

Lemma rnd_sign (n d : Z) : 0 < d -> 0 <= n -> 0 <= rnd n d.
Proof.
  intros Hd Hn. rewrite rnd_nonneg_eq by assumption.
  now apply rnd_mag_nonneg.
Qed.

Lemma rnd_mono (n1 n2 d : Z) :
  0 < d -> 0 <= n1 <= n2 -> rnd n1 d <= rnd n2 d.
Proof.
  intros Hd [H1 H2]. rewrite !rnd_nonneg_eq by lia.
  apply rnd_mag_mono; nia.
Qed.

(** A value that already has a 53-bit significand is not moved. *)
Lemma rnd_mag_id (x d : Z) :
  0 < d -> 0 <= x -> binary64_mag x -> rnd_mag (x * d) d = x.
Proof.
  intros Hd Hx Hr.
  apply Z.le_antisymm.
  - apply rnd_mag_le_repr; auto; nia.
  - apply rnd_mag_ge_repr; auto; nia.
Qed.

Lemma pow2_repr (j : Z) : 0 <= j -> binary64_mag (2 ^ j).
Proof.
  intros Hj. exists 1, j. repeat split; lia.
Qed.

Lemma scale_repr : binary64_mag scale.
Proof. unfold scale. apply pow2_repr. lia. Qed.

Lemma range_bound_repr : binary64_mag range_bound.
Proof.
  exists 1, (1023 + 1074). unfold range_bound, scale.
  rewrite Z.pow_add_r by lia. repeat split; lia.
Qed.

Lemma product_bound_repr : binary64_mag product_bound.
Proof.
  exists 3, (1022 + 1074). unfold product_bound, scale.
  rewrite Z.pow_add_r by lia. repeat split; lia.
Qed.

Lemma range_bound_lt_product : range_bound <= product_bound.
Proof.
  unfold range_bound, product_bound.
  pose proof scale_pos.
  replace (2 ^ 1023) with (2 * 2 ^ 1022)
    by (change 1023 with (Z.succ 1022); rewrite Z.pow_succ_r; lia).
  pose proof (pow2_pos 1022 ltac:(lia)). nia.
Qed.

Lemma product_bound_lt_huge : product_bound < huge.
Proof.
  unfold product_bound, huge.
  pose proof scale_pos.
  replace (2 ^ 1024) with (4 * 2 ^ 1022)
    by (change 1024 with (Z.succ (Z.succ 1022)); rewrite !Z.pow_succ_r; lia).
  pose proof (pow2_pos 1022 ltac:(lia)). nia.
Qed.

Lemma no_overflow (r x : Z) : Z.abs r <= x -> x < huge -> overflows r = false.
Proof. intros. unfold overflows. apply Z.leb_gt. lia. Qed.

(** *** Conversions *)

Lemma in_float_range_bound (i : Z) :
  in_float_range i -> Z.abs (i * scale) <= range_bound * 1.
Proof.
  unfold in_float_range, range_bound. intros H.
  pose proof scale_pos. rewrite Z.abs_mul, (Z.abs_eq scale) by lia. nia.
Qed.

Lemma float_of_int_ok (i : Z) (x : float) :
  float_of_int i = Ok x ->
  exists n, x = Fin n /\ n = rnd (i * scale) 1 /\ Z.abs n < huge /\
            binary64_mag (Z.abs n) /\ (0 <= i -> 0 <= n) /\ (0 < i -> scale <= n).
Proof.
  unfold float_of_int, overflows.
  destruct (Z.leb_spec huge (Z.abs (rnd (i * scale) 1))); [discriminate|].
  intros [= <-]. eexists; repeat split; try reflexivity; try assumption.
  - apply rnd_repr. lia.
  - intros Hi. apply rnd_sign; [lia|]. pose proof scale_pos. nia.
  - intros Hi. pose proof scale_pos.
    rewrite rnd_nonneg_eq by nia.
    apply rnd_mag_ge_repr; try lia; [apply scale_repr | nia].
Qed.

Lemma float_of_int_in_range (i : Z) :
  in_float_range i ->
  exists n, float_of_int i = Ok (Fin n) /\ Z.abs n <= range_bound.
Proof.
  intros Hi.
  assert (Hb : Z.abs (rnd (i * scale) 1) <= range_bound).
  { apply rnd_bounded; [lia | apply range_bound_repr |].
    now apply in_float_range_bound. }
  exists (rnd (i * scale) 1). split; [|exact Hb].
  unfold float_of_int. erewrite no_overflow; [reflexivity | exact Hb |].
  pose proof range_bound_lt_product. pose proof product_bound_lt_huge. lia.
Qed.

Lemma true_div_ok (a b : Z) (q : float) :
  true_div a b = Ok q ->
  exists n, q = Fin n /\ Z.abs n < huge /\ (0 < b -> 0 <= a -> 0 <= n).
Proof.
  unfold true_div, overflows.
  destruct (Z.eqb_spec b 0); [discriminate|].
  destruct (Z.leb_spec huge (Z.abs (rnd (Z.sgn b * a * scale) (Z.abs b))));
    [discriminate|].
  intros [= <-]. eexists; repeat split; try reflexivity; try assumption.
  intros Hb Ha. apply rnd_sign; [lia|].
  rewrite Z.sgn_pos by lia. pose proof scale_pos. nia.
Qed.

Lemma true_div_in_range (a b : Z) :
  b <> 0 -> in_float_range a ->
  exists n, true_div a b = Ok (Fin n) /\ Z.abs n <= range_bound.
Proof.
  intros Hb Ha.
  assert (Hr : Z.abs (rnd (Z.sgn b * a * scale) (Z.abs b)) <= range_bound).
  { apply rnd_bounded; [lia | apply range_bound_repr |].
    pose proof (in_float_range_bound a Ha) as H.
    rewrite <- Z.mul_assoc, Z.abs_mul.
    assert (Z.abs (Z.sgn b) = 1) by lia.
    assert (0 <= range_bound) by (unfold range_bound; pose proof scale_pos;
                                  pose proof (pow2_pos 1023); nia).
    nia. }
  exists (rnd (Z.sgn b * a * scale) (Z.abs b)). split; [|exact Hr].
  unfold true_div. destruct (Z.eqb_spec b 0); [contradiction|].
  erewrite no_overflow; [reflexivity | exact Hr |].
  pose proof range_bound_lt_product. pose proof product_bound_lt_huge. lia.
Qed.

Lemma py_round2_in_range (n : Z) :
  Z.abs n <= range_bound -> exists m, py_round2 (Fin n) = Ok (Fin m).
Proof.
  intros Hn. pose proof scale_pos as Hs.
  assert (Hb : Z.abs (rne (100 * n) scale * scale) <= range_bound * 100).
  { assert (H1 : rne (100 * n) scale <= 100 * 2 ^ 1023)
      by (apply rne_le_int; unfold range_bound in Hn; lia).
    assert (H2 : - (100 * 2 ^ 1023) <= rne (100 * n) scale)
      by (apply rne_ge_int; unfold range_bound in Hn; lia).
    unfold range_bound. rewrite Z.abs_mul, (Z.abs_eq scale) by lia. nia. }
  assert (Hr : Z.abs (rnd (rne (100 * n) scale * scale) 100) <= range_bound)
    by (apply rnd_bounded; [lia | apply range_bound_repr | exact Hb]).
  eexists. unfold py_round2.
  erewrite no_overflow; [reflexivity | exact Hr |].
  pose proof range_bound_lt_product. pose proof product_bound_lt_huge. lia.
Qed.

(** *** Float operations *)

Lemma round_to_float_not_nan (n d : Z) : round_to_float n d <> NaN.
Proof. unfold round_to_float. destruct (overflows _); discriminate. Qed.

Lemma round_to_float_mono (n1 n2 d : Z) :
  0 < d -> 0 <= n1 <= n2 ->
  fleb (round_to_float n1 d) (round_to_float n2 d) = true.
Proof.
  intros Hd Hn. unfold round_to_float, overflows.
  pose proof (rnd_mono n1 n2 d Hd Hn) as Hm.
  pose proof (rnd_sign n1 d Hd ltac:(lia)) as H1.
  destruct (Z.leb_spec huge (Z.abs (rnd n1 d)));
    destruct (Z.leb_spec huge (Z.abs (rnd n2 d)));
    destruct (Z.ltb_spec (rnd n1 d) 0);
    destruct (Z.ltb_spec (rnd n2 d) 0); cbn; lia || reflexivity.
Qed.

Lemma round_to_float_bounded (n d x : Z) :
  0 < d -> binary64_mag x -> x < huge -> Z.abs n <= x * d ->
  round_to_float n d = Fin (rnd n d) /\ Z.abs (rnd n d) <= x.
Proof.
  intros Hd Hx Hh Hn.
  pose proof (rnd_bounded n d x Hd Hx Hn) as Hb.
  unfold round_to_float. now rewrite (no_overflow _ x Hb Hh).
Qed.

Lemma fmul_not_nan (x : float) (n : Z) :
  x <> NaN -> n <> 0 -> fmul x (Fin n) <> NaN.
Proof.
  intros Hx Hn. destruct x as [a | s |]; cbn.
  - apply round_to_float_not_nan.
  - destruct (Z.eqb_spec n 0); [contradiction | discriminate].
  - contradiction.
Qed.

Lemma fmul_finite_not_nan (a : Z) (y : float) :
  is_finite y = true -> fmul (Fin a) y <> NaN.
Proof.
  destruct y; cbn; try discriminate. intros _. apply round_to_float_not_nan.
Qed.

(** A product of a value in range with a factor of at most 1.5 is finite. *)
Lemma fmul_in_range (a b : Z) :
  Z.abs a <= range_bound -> 2 * Z.abs b <= 3 * scale ->
  fmul (Fin a) (Fin b) = Fin (rnd (a * b) scale)
  /\ Z.abs (rnd (a * b) scale) <= product_bound.
Proof.
  intros Ha Hb.
  change (fmul (Fin a) (Fin b)) with (round_to_float (a * b) scale).
  apply round_to_float_bounded;
    [apply scale_pos | apply product_bound_repr | apply product_bound_lt_huge |].
  rewrite Z.abs_mul. unfold range_bound, product_bound in *.
  pose proof scale_pos. pose proof (pow2_pos 1022 ltac:(lia)).
  replace (2 ^ 1023) with (2 * 2 ^ 1022) in Ha
    by (change 1023 with (Z.succ 1022); rewrite Z.pow_succ_r; lia).
  pose proof (Z.abs_nonneg a). pose proof (Z.abs_nonneg b).
  assert (2 * (Z.abs a * Z.abs b) <= (2 * 2 ^ 1022 * scale) * (3 * scale)).
  { replace (2 * (Z.abs a * Z.abs b)) with (Z.abs a * (2 * Z.abs b)) by lia.
    apply Z.mul_le_mono_nonneg; lia. }
  lia.
Qed.

(** The limiting block of [calculate_price]: the result lies between the
    two limits, and is finite when they are. *)
Lemma clamp_between (calc lo hi x : float) (t1 t2 t3 t : string) (c : bool) :
  (if fgtb calc hi then (hi, t1, true)
   else if fltb calc lo then (lo, t2, true)
   else (calc, t3, false)) = (x, t, c) ->
  calc <> NaN -> fleb lo hi = true ->
  fleb lo x = true /\ fleb x hi = true.
Proof.
  unfold fgtb.
  destruct calc as [a | [|] |], lo as [l | [|] |], hi as [h | [|] |]; cbn;
    intros H Hnan Hle; try discriminate; try contradiction;
    repeat match type of H with
      | (if ?b then _ else _) = _ => destruct b eqn:?
      end;
    injection H as <- <- <-; cbn; auto;
    rewrite ?negb_true_iff, ?negb_false_iff, ?Z.ltb_lt, ?Z.ltb_ge in *;
    try lia.
Qed.

Lemma clamp_finite (calc lo hi x : float) (t1 t2 t3 t : string) (c : bool) :
  (if fgtb calc hi then (hi, t1, true)
   else if fltb calc lo then (lo, t2, true)
   else (calc, t3, false)) = (x, t, c) ->
  calc <> NaN -> is_finite lo = true -> is_finite hi = true ->
  is_finite x = true.
Proof.
  unfold fgtb.
  destruct calc as [a | [|] |], lo as [l | [|] |], hi as [h | [|] |]; cbn;
    intros H Hnan Hlo Hhi; try discriminate; try contradiction;
    repeat match type of H with
      | (if ?b then _ else _) = _ => destruct b eqn:?
      end;
    injection H as <- <- <-; reflexivity.
Qed.

(** *** Rounding sees the quotient only *)

Lemma rnd_same_quotient (n1 d1 n2 d2 : Z) :
  0 < d1 -> 0 < d2 -> n1 * d2 = n2 * d1 -> rnd n1 d1 = rnd n2 d2.
Proof.
  intros H1 H2 H. unfold rnd.
  assert (Hs : Z.sgn n1 = Z.sgn n2).
  { destruct (Z.sgn_spec n1) as [[? ->] | [[? ->] | [? ->]]];
      destruct (Z.sgn_spec n2) as [[? ->] | [[? ->] | [? ->]]];
      try reflexivity; exfalso; nia. }
  rewrite Hs. f_equal.
  rewrite <- (rnd_mag_scale d2 (Z.abs n1) d1), <- (rnd_mag_scale d1 (Z.abs n2) d2)
    by lia.
  f_equal; [|lia].
  assert (Ha : Z.abs (n1 * d2) = Z.abs (n2 * d1)) by (f_equal; exact H).
  rewrite !Z.abs_mul, (Z.abs_eq d1), (Z.abs_eq d2) in Ha by lia. lia.
Qed.

Lemma true_div_same_quotient (a b a' b' : Z) :
  0 < b -> 0 < b' -> a * b' = a' * b -> true_div a b = true_div a' b'.
Proof.
  intros Hb Hb' H. unfold true_div.
  destruct (Z.eqb_spec b 0); [lia|]. destruct (Z.eqb_spec b' 0); [lia|].
  rewrite !Z.sgn_pos, !Z.abs_eq by lia.
  assert (E : 1 * a * scale * b' = 1 * a' * scale * b)
    by (transitivity (scale * (a * b')); [ring | rewrite H; ring]).
  rewrite (rnd_same_quotient (1 * a * scale) b (1 * a' * scale) b' Hb Hb' E).
  reflexivity.
Qed.

(** *** Multiplying by 1.0 *)

Lemma rnd_id (x d : Z) :
  0 < d -> 0 <= x -> binary64_mag x -> rnd (x * d) d = x.
Proof.
  intros Hd Hx Hr. rewrite rnd_nonneg_eq by nia. now apply rnd_mag_id.
Qed.

Lemma round_to_float_id (x : Z) :
  0 <= x -> binary64_mag x -> x < huge ->
  round_to_float (x * scale) scale = Fin x.
Proof.
  intros Hx Hr Hh. unfold round_to_float.
  rewrite rnd_id by (auto using scale_pos).
  rewrite (no_overflow x x); [reflexivity | lia | exact Hh].
Qed.

End Binary64Facts.

(** ** Facts about integers as text *)

Module PyStrFacts.
Import Binary64Facts.

Lemma int_max_str_digits_bound : 1024 <= int_max_str_digits.
Proof. unfold int_max_str_digits. lia. Qed.

Lemma pow10_step (k : Z) : 1 <= k -> 10 ^ k = 10 * 10 ^ (k - 1).
Proof.
  intros Hk. replace k with (Z.succ (k - 1)) at 1 by lia.
  apply Z.pow_succ_r. lia.
Qed.

(** A number below [10^k] has at most [k] digits. *)
Lemma decimal_length_le (fuel : nat) :
  forall (n : Z) (acc : string) (k : Z),
    1 <= k -> 0 <= n < 10 ^ k ->
    Z.of_nat (String.length (decimal fuel n acc))
    <= k + Z.of_nat (String.length acc).
Proof.
  induction fuel as [|fuel IH]; intros n acc k Hk Hn; cbn [decimal].
  - cbn [String.length]. lia.
  - destruct (Z.ltb_spec n 10) as [Hlt | Hge].
    + cbn [String.length]. lia.
    + pose proof (pow10_step k Hk) as E.
      assert (Hk2 : 2 <= k).
      { destruct (Z.eq_dec k 1) as [-> |]; [|lia].
        rewrite Z.pow_1_r in Hn. lia. }
      assert (H1 : n / 10 < 10 ^ (k - 1))
        by (apply Z.div_lt_upper_bound; lia).
      assert (H0 : 0 <= n / 10) by (apply Z.div_pos; lia).
      specialize (IH (n / 10) (String (digit_char (n mod 10)) acc) (k - 1)
                     ltac:(lia) ltac:(lia)).
      cbn [String.length] in IH. lia.
Qed.

Lemma decimal_length_pos (fuel : nat) :
  forall (n : Z) (acc : string),
    Z.of_nat (String.length acc) + 1
    <= Z.of_nat (String.length (decimal fuel n acc)).
Proof.
  induction fuel as [|fuel IH]; intros n acc; cbn [decimal].
  - cbn [String.length]. lia.
  - destruct (n <? 10).
    + cbn [String.length]. lia.
    + specialize (IH (n / 10) (String (digit_char (n mod 10)) acc)).
      cbn [String.length] in IH. lia.
Qed.

(** A number from [10^k] on has more than [k] digits, given the fuel for
    them. *)
Lemma decimal_length_ge (fuel : nat) :
  forall (n : Z) (acc : string) (k : Z),
    0 <= k -> k <= Z.of_nat fuel -> 10 ^ k <= n ->
    k + 1 + Z.of_nat (String.length acc)
    <= Z.of_nat (String.length (decimal fuel n acc)).
Proof.
  induction fuel as [|fuel IH]; intros n acc k Hk Hf Hn.
  - assert (k = 0) by lia. subst k. cbn [decimal String.length]. lia.
  - destruct (Z.eq_dec k 0) as [-> | Hk0].
    + pose proof (decimal_length_pos (S fuel) n acc). lia.
    + pose proof (pow10_step k ltac:(lia)) as E.
      assert (Hp : 0 < 10 ^ (k - 1)) by (apply Z.pow_pos_nonneg; lia).
      cbn [decimal]. destruct (Z.ltb_spec n 10) as [Hlt | Hge]; [lia|].
      assert (H1 : 10 ^ (k - 1) <= n / 10)
        by (apply Z.div_le_lower_bound; lia).
      specialize (IH (n / 10) (String (digit_char (n mod 10)) acc) (k - 1)
                     ltac:(lia) ltac:(lia) H1).
      cbn [String.length] in IH. lia.
Qed.

(** An int is written out exactly when it has at most 4300 digits. *)
Lemma py_str_int_returns_iff (i : Z) :
  returns (py_str_int i) <-> int_printable i.
Proof.
  pose proof int_max_str_digits_bound as Hm.
  unfold py_str_int, int_printable, digits. split.
  - intros [text H].
    destruct (Z.ltb_spec int_max_str_digits
                (Z.of_nat (String.length
                   (decimal (Z.to_nat (Z.log2 (Z.abs i))) (Z.abs i) ""))))
      as [Hlong | Hshort]; [discriminate H|].
    destruct (Z.lt_ge_cases (Z.abs i) (10 ^ int_max_str_digits))
      as [Hlt | Hge]; [exact Hlt|].
    exfalso.
    assert (Hp : 0 < 10 ^ int_max_str_digits)
      by (apply Z.pow_pos_nonneg; lia).
    assert (H2 : 2 ^ int_max_str_digits <= Z.abs i).
    { apply Z.le_trans with (10 ^ int_max_str_digits); [|exact Hge].
      apply Z.pow_le_mono_l. lia. }
    apply Z.log2_le_pow2 in H2; [|lia].
    pose proof (decimal_length_ge (Z.to_nat (Z.log2 (Z.abs i))) (Z.abs i) ""
                  int_max_str_digits ltac:(lia) ltac:(lia) Hge) as Hlen.
    lia.
  - intros Hi.
    pose proof (decimal_length_le (Z.to_nat (Z.log2 (Z.abs i))) (Z.abs i) ""
                  int_max_str_digits ltac:(lia) ltac:(lia)) as Hlen.
    cbn [String.length] in Hlen.
    destruct (Z.ltb_spec int_max_str_digits
                (Z.of_nat (String.length
                   (decimal (Z.to_nat (Z.log2 (Z.abs i))) (Z.abs i) ""))));
      [lia|].
    eexists. reflexivity.
Qed.

Lemma py_str_int_ok (i : Z) :
  int_printable i -> exists text, py_str_int i = Ok text.
Proof. intros H. apply py_str_int_returns_iff in H. exact H. Qed.

Lemma py_str_int_raises (i : Z) (e : exn) :
  py_str_int i = Raise e -> e = ValueError.
Proof.
  unfold py_str_int. destruct (_ <? _); intros H; [congruence | discriminate H].
Qed.

(** Everything below [2^1024] can be written out. *)
Lemma below_pow2_printable (i : Z) : Z.abs i < 2 ^ 1024 -> int_printable i.
Proof.
  intros H. unfold int_printable.
  apply Z.lt_le_trans with (2 ^ 1024); [exact H|].
  apply Z.le_trans with (10 ^ 1024).
  - apply Z.pow_le_mono_l. lia.
  - apply Z.pow_le_mono_r; [lia | apply int_max_str_digits_bound].
Qed.

Lemma in_float_range_printable (i : Z) : in_float_range i -> int_printable i.
Proof.
  unfold in_float_range. intros H. apply below_pow2_printable.
  apply Z.le_lt_trans with (2 ^ 1023); [exact H|].
  apply Z.pow_lt_mono_r; lia.
Qed.

(** [int(x)] of a finite float can be written out. *)
Lemma truncation_printable (n : Z) :
  Z.abs n < huge -> int_printable (Z.quot n scale).
Proof.
  intros H. pose proof scale_pos as Hs. apply below_pow2_printable.
  rewrite <- (Z.abs_eq scale) at 1 by lia.
  rewrite <- Z.quot_abs by lia.
  rewrite Z.quot_div_nonneg by lia.
  apply Z.div_lt_upper_bound; [lia|].
  unfold huge in H. lia.
Qed.

(** *** Floats produced by arithmetic *)

Lemma round_to_float_is_bounded (n d : Z) : bounded_float (round_to_float n d).
Proof.
  unfold round_to_float, overflows.
  destruct (Z.leb_spec huge (Z.abs (rnd n d))); cbn [bounded_float];
    [exact I | assumption].
Qed.

Lemma fmul_is_bounded (x y : float) : bounded_float (fmul x y).
Proof.
  destruct x as [a | s |], y as [b | t |]; cbn [fmul bounded_float];
    match goal with
    | |- bounded_float (round_to_float _ _) => apply round_to_float_is_bounded
    | |- context [_ =? 0] => destruct (_ =? 0); exact I
    | |- _ => exact I
    end.
Qed.

Lemma int_mul_float_is_bounded (i : Z) (y x : float) :
  int_mul_float i y = Ok x -> bounded_float x.
Proof.
  unfold int_mul_float. destruct (float_of_int i) as [a | e];
    [|intros H; discriminate H].
  cbn [bind]. intros H.
  replace x with (fmul a y) by congruence. apply fmul_is_bounded.
Qed.

Lemma clamp_bounded (calc lo hi x : float) (t1 t2 t3 t : string) (c : bool) :
  (if fgtb calc hi then (hi, t1, true)
   else if fltb calc lo then (lo, t2, true)
   else (calc, t3, false)) = (x, t, c) ->
  bounded_float calc -> bounded_float lo -> bounded_float hi ->
  bounded_float x.
Proof.
  destruct (fgtb calc hi); [|destruct (fltb calc lo)]; intros H Hc Hl Hh.
  - replace x with hi by congruence. exact Hh.
  - replace x with lo by congruence. exact Hl.
  - replace x with calc by congruence. exact Hc.
Qed.

Lemma limited_is_bounded (calc lo hi : float) :
  bounded_float calc -> bounded_float lo -> bounded_float hi ->
  bounded_float (limited calc lo hi).
Proof.
  intros. unfold limited.
  destruct (fgtb calc hi); [|destruct (fltb calc lo)]; assumption.
Qed.

(** The end of [calculate_price]: once the final price is rounded, the
    truncated price of the formula exists and can be written out. *)
Lemma truncated_price_text (x : float) (p : Z) :
  bounded_float x -> py_round x = Ok p ->
  exists t text, py_int x = Ok t /\ py_str_int t = Ok text.
Proof.
  intros Hb Hp. destruct x as [n | s |]; cbn [py_round] in Hp;
    [|discriminate Hp | discriminate Hp].
  cbn [bounded_float] in Hb.
  destruct (py_str_int_ok _ (truncation_printable n Hb)) as (text & E).
  exists (Z.quot n scale), text. split; [reflexivity | exact E].
Qed.

End PyStrFacts.

Global Opaque int_max_str_digits.

(** ** Properties *)

(** ** The model against the kernel's floats *)

Module KernelAgreement.
Import KernelFloats.

(** On the literals of the program, on conversions and quotients of
    integers, and on products (exact, inexact, ties, overflow, subnormal
    results), the model computes what the kernel's IEEE-754 binary64
    arithmetic computes. *)
Lemma model_agrees_with_kernel_floats :
  forallb agree_literal
          [(130, 100); (110, 100); (80, 100); (115, 100); (108, 100);
           (10, 10); (90, 100); (150, 100); (70, 100); (14, 10)] = true
  /\ forallb agree_int [0; 1; 10000; 9007199254740993; 2 ^ 62] = true
  /\ forallb agree_true_div
             [(120, 100); (150, 100); (100, 200); (300, 100); (1, 3);
              (9007199254740991, 7)] = true
  /\ forallb agree_mul
             [(kint 10000, kdiv 115 100);
              (PrimFloat.mul (kint 10000) (kdiv 115 100), kdiv 14 10);
              (kint 10, kdiv 108 100); (kint 5, kdiv 115 100);
              (kint 10, kdiv 70 100); (kint 10000, kdiv 150 100);
              (kdiv 1 10, kdiv 2 10); (k2p992, k2p62); (k2p992, k2p992);
              (ktiny, kdiv 3 10); (ktiny, kdiv 1 2); (ktiny, ktiny)] = true.
Proof.
  repeat match goal with |- _ /\ _ => split end; vm_compute; reflexivity.
Qed.

End KernelAgreement.

Section Validation.

Import Pricing.

(** C8. [validate_inputs] rejects, with a non-empty message, exactly the
    inputs with [base_price <= 0], [supply < 0], [demand < 0], or a positive
    demand with zero supply; every other input is accepted with an empty
    message. *)
Theorem validate_inputs_rejects_exactly (supply demand base_price : Z) :
  (fst (validate_inputs supply demand base_price) = false <->
     (base_price <= 0 \/ supply < 0 \/ demand < 0 \/
      (supply = 0 /\ demand > 0)))
  /\ (fst (validate_inputs supply demand base_price) = false ->
      snd (validate_inputs supply demand base_price) <> "")
  /\ (fst (validate_inputs supply demand base_price) = true ->
      snd (validate_inputs supply demand base_price) = "").
Proof.
  unfold validate_inputs.
  destruct (Z.leb_spec base_price 0); [cbn; repeat split; (lia || discriminate)|].
  destruct (Z.ltb_spec supply 0); [cbn; repeat split; (lia || discriminate)|].
  destruct (Z.ltb_spec demand 0); [cbn; repeat split; (lia || discriminate)|].
  destruct (Z.eqb_spec supply 0); destruct (Z.gtb_spec demand 0); cbn;
    repeat split; intros; try discriminate; try lia; auto.
Qed.

End Validation.

(** From here on the rounding functions and bounds are used through their
    lemmas only. *)
Global Opaque scale huge rnd rne range_bound product_bound.

(** ** Facts about the rule engine *)

Module PricingFacts.
Import Binary64Facts PyStrFacts Pricing.

(** The literals of the module, in units of [2^-1074]. *)
Lemma constants :
  exists k70 k90 k108 k115 k150 : Z,
    MAX_PRICE_DECREASE = Fin k70 /\ SURPLUS_MULTIPLIER = Fin k90 /\
    NORMAL_MULTIPLIER = Fin scale /\ SHORTAGE_MULTIPLIER = Fin k108 /\
    CRITICAL_SHORTAGE_MULTIPLIER = Fin k115 /\ MAX_PRICE_INCREASE = Fin k150 /\
    0 < k70 /\ k70 <= k90 /\ k90 <= scale /\ scale <= k108 /\ k108 <= k115 /\
    k115 <= k150 /\ 2 * k150 = 3 * scale.
Proof.
  exists (rnd (70 * scale) 100), (rnd (90 * scale) 100),
    (rnd (108 * scale) 100), (rnd (115 * scale) 100), (rnd (150 * scale) 100).
  repeat match goal with |- _ /\ _ => split end;
    vm_compute; reflexivity || discriminate.
Qed.

(** Rounding a multiplier to two decimals gives it back. *)
Lemma py_round2_multipliers :
  py_round2 CRITICAL_SHORTAGE_MULTIPLIER = Ok CRITICAL_SHORTAGE_MULTIPLIER /\
  py_round2 SHORTAGE_MULTIPLIER = Ok SHORTAGE_MULTIPLIER /\
  py_round2 SURPLUS_MULTIPLIER = Ok SURPLUS_MULTIPLIER /\
  py_round2 NORMAL_MULTIPLIER = Ok NORMAL_MULTIPLIER.
Proof.
  repeat match goal with |- _ /\ _ => split end; vm_compute; reflexivity.
Qed.

Lemma is_multiplier_units (m : float) :
  is_multiplier m ->
  exists nm k70 k150,
    m = Fin nm /\ MAX_PRICE_DECREASE = Fin k70 /\ MAX_PRICE_INCREASE = Fin k150 /\
    0 < k70 /\ k70 <= nm /\ nm <= k150 /\ 2 * k150 = 3 * scale /\
    py_round2 m = Ok m /\ k70 <= scale.
Proof.
  intros Hm.
  destruct constants as (k70 & k90 & k108 & k115 & k150 & E70 & E90 & E10 &
                         E108 & E115 & E150 & ?).
  destruct py_round2_multipliers as (R1 & R2 & R3 & R4).
  destruct Hm as [-> | [-> | [-> | ->]]];
    [exists k115 | exists k108 | exists k90 | exists scale];
    exists k70, k150;
    repeat match goal with |- _ /\ _ => split end;
    assumption || lia.
Qed.

Lemma tier_selection (ratio m : float) (t : string) :
  (if fgtb ratio CRITICAL_SHORTAGE_THRESHOLD then
     (CRITICAL_SHORTAGE_MULTIPLIER, "Critical shortage (ratio > 1.30)")
   else if fgtb ratio SHORTAGE_THRESHOLD then
     (SHORTAGE_MULTIPLIER, "Shortage detected (ratio > 1.10)")
   else if fltb ratio SURPLUS_THRESHOLD then
     (SURPLUS_MULTIPLIER, "Surplus available (ratio < 0.80)")
   else
     (NORMAL_MULTIPLIER, "Balanced supply-demand (0.80-1.10)")) = (m, t) ->
  is_multiplier m.
Proof.
  unfold is_multiplier.
  destruct (fgtb ratio CRITICAL_SHORTAGE_THRESHOLD);
    [|destruct (fgtb ratio SHORTAGE_THRESHOLD);
      [|destruct (fltb ratio SURPLUS_THRESHOLD)]];
    intros H; apply (f_equal fst) in H; cbn [fst] in H; subst m;
    [left | right; left | right; right; left | right; right; right];
    reflexivity.
Qed.

(** Inside the float range the rule engine returns a result, whatever the
    signs of demand and base price. *)
Lemma calculate_price_returns (supply demand base_price : Z) (season_factor : float) :
  0 < supply -> int_printable supply ->
  in_float_range demand -> in_float_range base_price ->
  is_finite season_factor = true ->
  returns (calculate_price supply demand base_price season_factor).
Proof.
  intros Hs Hp Hd Hb Hsf. unfold calculate_price.
  destruct (Z.leb_spec supply 0); [lia|].
  destruct (true_div_in_range demand supply) as (nq & -> & Hq);
    [lia | assumption |].
  cbn [bind].
  destruct (if fgtb (Fin nq) CRITICAL_SHORTAGE_THRESHOLD then _ else _)
    as [m t] eqn:Hsel.
  apply tier_selection, is_multiplier_units in Hsel.
  destruct Hsel as (nm & k70 & k150 & -> & -> & -> & H70 & Hlo & Hhi & H150 & Hr2 & Hk70).
  unfold int_mul_float.
  destruct (float_of_int_in_range base_price Hb) as (nb & -> & Hnb).
  cbn [bind].
  destruct (fmul_in_range nb nm Hnb ltac:(lia)) as [-> _].
  destruct (fmul_in_range nb k150 Hnb ltac:(lia)) as [-> B150].
  destruct (fmul_in_range nb k70 Hnb ltac:(lia)) as [-> B70].
  pose proof product_bound_lt_huge as Hlt.
  destruct (if fgtb _ _ then _ else _) as [[x t'] c] eqn:Hclamp.
  assert (Bx : bounded_float x).
  { apply (clamp_bounded _ _ _ _ _ _ _ _ _ Hclamp);
      [apply fmul_is_bounded | cbn [bounded_float]; lia
       | cbn [bounded_float]; lia]. }
  apply clamp_finite in Hclamp;
    [| now apply fmul_finite_not_nan | reflexivity | reflexivity].
  destruct x as [nx | |]; try discriminate.
  cbn [py_round bind].
  destruct (py_round2_in_range nq Hq) as (q2 & ->).
  rewrite Hr2. cbn [bind].
  destruct (py_str_int_ok demand (in_float_range_printable _ Hd)) as (dt & ->).
  destruct (py_str_int_ok supply Hp) as (st & ->).
  destruct (py_str_int_ok base_price (in_float_range_printable _ Hb))
    as (bt & ->).
  cbn [bind py_int].
  destruct (py_str_int_ok _ (truncation_printable nx Bx)) as (tt & ->).
  cbn [bind]. eexists. reflexivity.
Qed.

(** A result for a positive supply means that demand and supply were
    written out in the ratio formula. *)
Lemma calculate_price_writes_inputs (supply demand base_price : Z)
      (season_factor : float) (r : PriceResult) :
  0 < supply ->
  calculate_price supply demand base_price season_factor = Ok r ->
  int_printable supply /\ int_printable demand.
Proof.
  intros Hs. unfold calculate_price.
  destruct (Z.leb_spec supply 0); [lia|].
  destruct (true_div demand supply) as [q | e]; [|intros HH; discriminate HH].
  cbn [bind].
  destruct (if fgtb q CRITICAL_SHORTAGE_THRESHOLD then _ else _) as [m t].
  destruct (int_mul_float base_price m) as [x | e];
    [|intros HH; discriminate HH].
  destruct (int_mul_float base_price MAX_PRICE_INCREASE) as [hi | e];
    [|intros HH; discriminate HH].
  destruct (int_mul_float base_price MAX_PRICE_DECREASE) as [lo | e];
    [|intros HH; discriminate HH].
  cbn [bind].
  destruct (if fgtb _ _ then _ else _) as [[y t'] c].
  destruct (py_round y) as [p | e]; [|intros HH; discriminate HH].
  destruct (py_round2 q) as [q2 | e]; [|intros HH; discriminate HH].
  destruct (py_round2 m) as [m2 | e]; [|intros HH; discriminate HH].
  cbn [bind].
  destruct (py_str_int demand) as [dt | e] eqn:Ed;
    [|intros HH; discriminate HH].
  destruct (py_str_int supply) as [st | e] eqn:Es;
    [|intros HH; discriminate HH].
  intros _. split; apply py_str_int_returns_iff; eexists; eassumption.
Qed.

(** *** Which exceptions can leave the rule engine *)

Lemma bind_not_raise {A B : Type} (m : result A) (k : A -> result B) (e : exn) :
  m <> Raise e -> (forall a, k a <> Raise e) -> bind m k <> Raise e.
Proof.
  intros Hm Hk. destruct m as [a | e']; cbn [bind]; [apply Hk|].
  intros H. apply Hm. congruence.
Qed.

Lemma float_of_int_no_zero_division (i : Z) :
  float_of_int i <> Raise ZeroDivisionError.
Proof. unfold float_of_int. destruct (overflows _); discriminate. Qed.

Lemma int_mul_float_no_zero_division (i : Z) (y : float) :
  int_mul_float i y <> Raise ZeroDivisionError.
Proof.
  unfold int_mul_float. apply bind_not_raise.
  - apply float_of_int_no_zero_division.
  - discriminate.
Qed.

Lemma py_str_int_no_zero_division (i : Z) :
  py_str_int i <> Raise ZeroDivisionError.
Proof.
  intros H. apply py_str_int_raises in H. discriminate H.
Qed.

Lemma py_int_no_zero_division (x : float) :
  py_int x <> Raise ZeroDivisionError.
Proof. destruct x; cbn [py_int]; discriminate. Qed.

Lemma py_round_no_zero_division (x : float) :
  py_round x <> Raise ZeroDivisionError.
Proof. destruct x; discriminate. Qed.

Lemma py_round2_no_zero_division (x : float) :
  py_round2 x <> Raise ZeroDivisionError.
Proof.
  destruct x; try discriminate. unfold py_round2.
  destruct (overflows _); discriminate.
Qed.

Lemma true_div_no_zero_division (a b : Z) :
  b <> 0 -> true_div a b <> Raise ZeroDivisionError.
Proof.
  intros Hb. unfold true_div. destruct (Z.eqb_spec b 0); [contradiction|].
  destruct (overflows _); discriminate.
Qed.

(** *** The season factor of a valid request *)

Lemma season_factor_units (season_factor : float) :
  fleb (float_lit 5 10) season_factor = true ->
  fleb season_factor (float_lit 20 10) = true ->
  exists ns, season_factor = Fin ns /\ 0 < ns.
Proof.
  assert (H : exists k5 k20, float_lit 5 10 = Fin k5 /\ float_lit 20 10 = Fin k20
                             /\ 0 < k5).
  { exists (rnd (5 * scale) 10), (rnd (20 * scale) 10).
    repeat match goal with |- _ /\ _ => split end; vm_compute; reflexivity. }
  destruct H as (k5 & k20 & -> & -> & Hk).
  destruct season_factor as [ns | [|] |]; cbn; try discriminate.
  rewrite !negb_true_iff, !Z.ltb_ge. intros H1 H2. exists ns. split; [reflexivity | lia].
Qed.

Lemma round_to_float_nonneg (n d : Z) :
  0 <= n -> 0 < d ->
  round_to_float n d = Inf false \/
  exists r, round_to_float n d = Fin r /\ 0 <= r.
Proof.
  intros Hn Hd. pose proof (rnd_sign n d Hd Hn) as Hr.
  unfold round_to_float. destruct (overflows _).
  - left. destruct (Z.ltb_spec (rnd n d) 0); [lia | reflexivity].
  - right. eauto.
Qed.

(** *** Reading a result back *)

Lemma selected_is_multiplier (q : float) : is_multiplier (fst (selected q)).
Proof.
  unfold selected, is_multiplier.
  destruct (fgtb q CRITICAL_SHORTAGE_THRESHOLD);
    [|destruct (fgtb q SHORTAGE_THRESHOLD);
      [|destruct (fltb q SURPLUS_THRESHOLD)]];
    cbn [fst];
    [left | right; left | right; right; left | right; right; right];
    reflexivity.
Qed.

Lemma append_empty_r (s : string) : (s ++ "")%string = s.
Proof. induction s as [|c s IH]; cbn; [reflexivity | now rewrite IH]. Qed.

Lemma calculate_price_inv (supply demand base_price : Z) (season_factor : float)
      (r : PriceResult) :
  0 < supply ->
  calculate_price supply demand base_price season_factor = Ok r ->
  exists q q2 suffix,
    true_div demand supply = Ok q /\ py_round2 q = Ok q2 /\
    ratio r = Some q2 /\ multiplier r = fst (selected q) /\
    reason r = (snd (selected q) ++ suffix)%string.
Proof.
  intros Hs. unfold calculate_price.
  destruct (Z.leb_spec supply 0); [lia|].
  destruct (true_div demand supply) as [q | e]; [|discriminate].
  cbn [bind]. fold (selected q).
  destruct (selected q) as [m t] eqn:Hsel.
  pose proof (selected_is_multiplier q) as Hm.
  rewrite Hsel in Hm. cbn [fst] in Hm.
  apply is_multiplier_units in Hm.
  destruct Hm as (nm & k70 & k150 & Em & _ & _ & _ & _ & _ & _ & Hr2 & Hk70).
  destruct (int_mul_float base_price m) as [x | e]; [|discriminate].
  destruct (int_mul_float base_price MAX_PRICE_INCREASE) as [hi | e];
    [|discriminate].
  destruct (int_mul_float base_price MAX_PRICE_DECREASE) as [lo | e];
    [|discriminate].
  cbn [bind].
  destruct (fgtb (fmul x season_factor) hi);
    [|destruct (fltb (fmul x season_factor) lo)];
    (destruct (py_round _) as [p | e]; [|discriminate]);
    (destruct (py_round2 q) as [q2 | e] eqn:Eq2; [|discriminate]);
    rewrite Hr2; formulas; intros E; injection E as <-;
    cbn [ratio multiplier reason fst snd];
    exists q, q2;
    [exists " [CAPPED at +50%]" | exists " [FLOORED at -30%]" | exists ""];
    rewrite Hsel; cbn [fst snd];
    repeat match goal with |- _ /\ _ => split end;
    try reflexivity; try exact Eq2; symmetry; apply append_empty_r.
Qed.

(** The code's tier block chooses what the specification's wording says. *)
Lemma selected_spec (q : float) (suffix : string) :
  fst (selected q) = tier_multiplier (spec_tier q) /\
  tier_of_reason (snd (selected q) ++ suffix) = Some (spec_tier q).
Proof.
  unfold selected, spec_tier, CRITICAL_SHORTAGE_THRESHOLD, SHORTAGE_THRESHOLD,
    SURPLUS_THRESHOLD.
  destruct (fgtb q (float_lit 130 100));
    [|destruct (fgtb q (float_lit 110 100));
      [|destruct (fltb q (float_lit 80 100))]];
    split; reflexivity.
Qed.

Lemma tier_of_multiplier_spec (t : PriceTier) :
  tier_of_multiplier (tier_multiplier t) = Some t.
Proof. destruct t; vm_compute; reflexivity. Qed.

Lemma tier_multiplier_injective (t1 t2 : PriceTier) :
  tier_multiplier t1 = tier_multiplier t2 -> t1 = t2.
Proof.
  intros H. apply (f_equal tier_of_multiplier) in H.
  rewrite !tier_of_multiplier_spec in H. congruence.
Qed.

(** The float ratios at the three cut points, and their tiers. *)
Lemma boundary_ratios :
  true_div 11 10 = Ok SHORTAGE_THRESHOLD /\
  spec_tier SHORTAGE_THRESHOLD = Balanced /\
  true_div 13 10 = Ok CRITICAL_SHORTAGE_THRESHOLD /\
  spec_tier CRITICAL_SHORTAGE_THRESHOLD = Shortage /\
  true_div 8 10 = Ok SURPLUS_THRESHOLD /\
  spec_tier SURPLUS_THRESHOLD = Balanced.
Proof.
  repeat match goal with |- _ /\ _ => split end; vm_compute; reflexivity.
Qed.

End PricingFacts.

(** ** The rule engine on its own *)

Section RuleEngine.

Import Binary64Facts PyStrFacts PricingFacts Pricing.

(** C7. With no supply and no demand the rule engine returns at once, for
    every base price [B] (and every season factor): the price is [B], there
    is no ratio, the multiplier is 1.0, nothing is capped, and the reason
    says that there is no supply. *)
Theorem no_supply_returns_base_price (B : Z) (season_factor : float) :
  exists r,
    calculate_price 0 0 B season_factor = Ok r /\
    suggested_price r = B /\ ratio r = None /\
    multiplier r = float_lit 10 10 /\ float_lit 10 10 = Fin scale /\
    is_capped r = false /\ prefix "No supply" (reason r) = true.
Proof.
  eexists. split; [reflexivity|].
  cbn [suggested_price ratio multiplier is_capped reason].
  split; [reflexivity|]. split; [reflexivity|]. split; [reflexivity|].
  split; [vm_compute; reflexivity|]. split; reflexivity.
Qed.

(** C6. The scenarios of the specification at base price 10000: ratio 1.20
    gives 10800 (shortage), 1.50 gives 11500 (critical shortage), 1.00 gives
    10000 (balanced), 0.50 gives 9000 (surplus), 3.00 gives 11500 and is not
    capped; with season factor 1.4 and a critical shortage the raw price
    (16100 to the nearest integer; the float product is a hair below it) is
    above the limit 15000, so the result is 15000 and capped. *)
Theorem specification_scenarios :
  result_map outcome (calculate_price 100 120 10000 (float_lit 10 10))
  = Ok (10800, SHORTAGE_MULTIPLIER, "Shortage detected (ratio > 1.10)", false)
  /\ result_map outcome (calculate_price 100 150 10000 (float_lit 10 10))
     = Ok (11500, CRITICAL_SHORTAGE_MULTIPLIER,
           "Critical shortage (ratio > 1.30)", false)
  /\ result_map outcome (calculate_price 100 100 10000 (float_lit 10 10))
     = Ok (10000, NORMAL_MULTIPLIER, "Balanced supply-demand (0.80-1.10)", false)
  /\ result_map outcome (calculate_price 200 100 10000 (float_lit 10 10))
     = Ok (9000, SURPLUS_MULTIPLIER, "Surplus available (ratio < 0.80)", false)
  /\ result_map outcome (calculate_price 100 300 10000 (float_lit 10 10))
     = Ok (11500, CRITICAL_SHORTAGE_MULTIPLIER,
           "Critical shortage (ratio > 1.30)", false)
  /\ (scaled <- int_mul_float 10000 CRITICAL_SHORTAGE_MULTIPLIER ;;
      py_round (fmul scaled (float_lit 14 10))) = Ok 16100
  /\ (scaled <- int_mul_float 10000 CRITICAL_SHORTAGE_MULTIPLIER ;;
      Ok (fgtb (fmul scaled (float_lit 14 10)) (Fin (15000 * scale)))) = Ok true
  /\ int_mul_float 10000 MAX_PRICE_INCREASE = Ok (Fin (15000 * scale))
  /\ result_map outcome (calculate_price 100 150 10000 (float_lit 14 10))
     = Ok (15000, CRITICAL_SHORTAGE_MULTIPLIER,
           "Critical shortage (ratio > 1.30) [CAPPED at +50%]", true).
Proof.
  repeat match goal with |- _ /\ _ => split end; vm_compute; reflexivity.
Qed.

(** C9, counterexample.  A request that passes validation and makes the rule
    engine raise: the quotient [2^1024 / 1] is too large for a float. *)
Lemma calculate_price_raises_on_huge_demand :
  validate_inputs 1 (2 ^ 1024) 1 = (true, "") /\
  calculate_price 1 (2 ^ 1024) 1 default_season_factor = Raise OverflowError /\
  ~ returns (calculate_price 1 (2 ^ 1024) 1 default_season_factor).
Proof.
  assert (E : calculate_price 1 (2 ^ 1024) 1 default_season_factor
              = Raise OverflowError) by (vm_compute; reflexivity).
  repeat match goal with |- _ /\ _ => split end.
  - vm_compute. reflexivity.
  - exact E.
  - intros [r Hr]. rewrite E in Hr. discriminate.
Qed.

(** C9, as the code has it.  The rule engine never divides by zero, for any
    integers and any season factor; every input with [supply <= 0] (whatever
    the demand) takes the early exit and returns the base price with
    multiplier 1.0, uncapped.  With a positive supply it returns a result
    whenever the supply has at most 4300 decimal digits, demand and base
    price are at most [2^1023] in magnitude and the season factor is finite;
    and it returns no result when supply or demand has more than 4300
    digits, since the result carries both written out. *)
Theorem calculate_price_total_in_float_range
        (supply demand base_price : Z) (season_factor : float) :
  calculate_price supply demand base_price season_factor
    <> Raise ZeroDivisionError
  /\ (supply <= 0 ->
      exists r,
        calculate_price supply demand base_price season_factor = Ok r /\
        suggested_price r = base_price /\ ratio r = None /\
        multiplier r = float_lit 10 10 /\ is_capped r = false)
  /\ (int_printable supply ->
      in_float_range demand -> in_float_range base_price ->
      is_finite season_factor = true ->
      returns (calculate_price supply demand base_price season_factor))
  /\ (0 < supply ->
      returns (calculate_price supply demand base_price season_factor) ->
      int_printable supply /\ int_printable demand).
Proof.
  assert (Early : supply <= 0 ->
                  exists r,
                    calculate_price supply demand base_price season_factor = Ok r /\
                    suggested_price r = base_price /\ ratio r = None /\
                    multiplier r = float_lit 10 10 /\ is_capped r = false).
  { intros Hs. unfold calculate_price.
    destruct (Z.leb_spec supply 0); [|lia].
    eexists. repeat split. }
  split; [|split; [|split]].
  - unfold calculate_price. destruct (Z.leb_spec supply 0); [discriminate|].
    apply bind_not_raise; [apply true_div_no_zero_division; lia|].
    intros q. destruct (if fgtb q CRITICAL_SHORTAGE_THRESHOLD then _ else _)
      as [m t].
    apply bind_not_raise; [apply int_mul_float_no_zero_division|]. intros x.
    apply bind_not_raise; [apply int_mul_float_no_zero_division|]. intros hi.
    apply bind_not_raise; [apply int_mul_float_no_zero_division|]. intros lo.
    destruct (if fgtb _ _ then _ else _) as [[y t'] c].
    apply bind_not_raise; [apply py_round_no_zero_division|]. intros p.
    apply bind_not_raise; [apply py_round2_no_zero_division|]. intros q2.
    apply bind_not_raise; [apply py_round2_no_zero_division|]. intros m2.
    apply bind_not_raise; [apply py_str_int_no_zero_division|]. intros dt.
    apply bind_not_raise; [apply py_str_int_no_zero_division|]. intros st.
    apply bind_not_raise; [apply py_round2_no_zero_division|]. intros q2'.
    apply bind_not_raise; [apply py_str_int_no_zero_division|]. intros bt.
    apply bind_not_raise; [apply py_round2_no_zero_division|]. intros m2'.
    apply bind_not_raise; [apply py_int_no_zero_division|]. intros tr.
    apply bind_not_raise; [apply py_str_int_no_zero_division|]. intros tt.
    discriminate.
  - exact Early.
  - intros Hp Hd Hb Hsf. destruct (Z_le_gt_dec supply 0) as [Hs | Hs].
    + destruct (Early Hs) as (r & Hr & _). now exists r.
    + apply calculate_price_returns; auto; lia.
  - intros Hs [r Hr].
    exact (calculate_price_writes_inputs _ _ _ _ _ Hs Hr).
Qed.

(** The theorem at work: a negative supply with a positive demand, which
    validation would have rejected. *)
Lemma calculate_price_total_in_float_range_witness :
  (exists r,
     calculate_price (-5) 7 10000 default_season_factor = Ok r /\
     suggested_price r = 10000 /\ ratio r = None /\
     multiplier r = float_lit 10 10 /\ is_capped r = false)
  /\ returns (calculate_price 100 (-120) (-10000) default_season_factor).
Proof.
  split.
  - apply (calculate_price_total_in_float_range (-5) 7 10000
             default_season_factor).
    lia.
  - apply (calculate_price_total_in_float_range 100 (-120) (-10000)
             default_season_factor).
    + apply in_float_range_printable. unfold in_float_range. lia.
    + unfold in_float_range. lia.
    + unfold in_float_range. lia.
    + vm_compute. reflexivity.
Defined.

(** C3. For every valid request (positive supply, non-negative demand,
    positive base price, season factor between 0.5 and 2.0) the final price
    lies between the two limits the code computes, [min_allowed = base_price *
    0.70] and [max_allowed = base_price * 1.50], up to the final rounding:
    [floor(min_allowed) <= final_price <= round(max_allowed)].  A result is
    produced whenever the supply has at most 4300 decimal digits and demand
    and base price are at most [2^1023]; for larger integers a result, when
    there is one, still obeys the bounds ([max_allowed] may then be
    infinite). *)
Theorem final_price_within_limits
        (supply demand base_price : Z) (season_factor : float) :
  0 < supply -> 0 <= demand -> 0 < base_price ->
  fleb (float_lit 5 10) season_factor = true ->
  fleb season_factor (float_lit 20 10) = true ->
  (int_printable supply ->
   in_float_range demand -> in_float_range base_price ->
   returns (calculate_price supply demand base_price season_factor))
  /\ forall r,
      calculate_price supply demand base_price season_factor = Ok r ->
      exists min_allowed max_allowed lo,
        int_mul_float base_price MAX_PRICE_DECREASE = Ok min_allowed /\
        int_mul_float base_price MAX_PRICE_INCREASE = Ok max_allowed /\
        py_floor min_allowed = Ok lo /\ lo <= suggested_price r /\
        (max_allowed = Inf false \/
         exists hi, py_round max_allowed = Ok hi /\ suggested_price r <= hi).
Proof.
  intros Hs Hd Hb Hlo Hhi.
  destruct (season_factor_units _ Hlo Hhi) as (ns & -> & Hns).
  split.
  { intros Hp Rd Rb. apply calculate_price_returns; auto. }
  intros r. unfold calculate_price.
  destruct (Z.leb_spec supply 0); [lia|].
  destruct (true_div demand supply) as [q | e]; [|discriminate].
  cbn [bind].
  destruct (if fgtb q CRITICAL_SHORTAGE_THRESHOLD then _ else _)
    as [m t] eqn:Hsel.
  apply tier_selection, is_multiplier_units in Hsel.
  destruct Hsel as (nm & k70 & k150 & -> & -> & -> & H70 & Hlom & Him & H150 & Hr2 & Hk70).
  unfold int_mul_float.
  destruct (float_of_int base_price) as [B | e] eqn:HB; [|discriminate].
  apply float_of_int_ok in HB.
  destruct HB as (nb & -> & _ & Hfin & Hrepr & _ & Hpos).
  specialize (Hpos Hb). pose proof scale_pos as Hsc.
  cbn [bind].
  change (fmul (Fin nb) (Fin nm)) with (round_to_float (nb * nm) scale).
  change (fmul (Fin nb) (Fin k150)) with (round_to_float (nb * k150) scale).
  change (fmul (Fin nb) (Fin k70)) with (round_to_float (nb * k70) scale).
  (* the lower limit is finite, and below the upper one *)
  destruct (round_to_float_bounded (nb * k70) scale (Z.abs nb))
    as [Emin _]; [lia | assumption | assumption | |].
  { rewrite Z.abs_mul. rewrite (Z.abs_eq k70) by lia.
    apply Z.mul_le_mono_nonneg_l; lia. }
  assert (Hminmax : fleb (round_to_float (nb * k70) scale)
                         (round_to_float (nb * k150) scale) = true)
    by (apply round_to_float_mono; [lia | nia]).
  rewrite Emin in *.
  set (nmin := rnd (nb * k70) scale) in *.
  destruct (if fgtb _ _ then _ else _) as [[x t'] c] eqn:Hclamp.
  apply clamp_between in Hclamp;
    [| apply fmul_not_nan; [apply round_to_float_not_nan | lia] | exact Hminmax].
  destruct Hclamp as [Hx1 Hx2].
  destruct x as [nx | |]; cbn [py_round bind];
    [| intros HH; discriminate HH | intros HH; discriminate HH].
  destruct (py_round2 q) as [q2 | e]; [| intros HH; discriminate HH].
  rewrite Hr2. formulas. intros HH. injection HH as <-.
  cbn [suggested_price].
  exists (Fin nmin), (round_to_float (nb * k150) scale), (nmin / scale).
  cbn [fleb fltb] in Hx1. rewrite negb_true_iff, Z.ltb_ge in Hx1.
  repeat match goal with |- _ /\ _ => split end; try reflexivity.
  - pose proof (rne_bounds nmin scale Hsc).
    pose proof (rne_mono nmin nx scale Hsc Hx1). lia.
  - destruct (round_to_float_nonneg (nb * k150) scale) as [E | (nmax & E & _)];
      [nia | lia | now left |].
    rewrite E in *.
    right. exists (rne nmax scale). split; [reflexivity|].
    cbn [fleb fltb] in Hx2. rewrite negb_true_iff, Z.ltb_ge in Hx2.
    now apply rne_mono.
Qed.

(** The theorem at the season-capped scenario of the specification. *)
Lemma final_price_within_limits_witness :
  exists r min_allowed max_allowed lo,
    calculate_price 100 150 10000 (float_lit 14 10) = Ok r /\
    int_mul_float 10000 MAX_PRICE_DECREASE = Ok min_allowed /\
    int_mul_float 10000 MAX_PRICE_INCREASE = Ok max_allowed /\
    py_floor min_allowed = Ok lo /\ lo <= suggested_price r /\
    (max_allowed = Inf false \/
     exists hi, py_round max_allowed = Ok hi /\ suggested_price r <= hi).
Proof.
  destruct (final_price_within_limits 100 150 10000 (float_lit 14 10))
    as [Hret Hbounds];
    [lia | lia | lia | vm_compute; reflexivity | vm_compute; reflexivity |].
  destruct Hret as [r Hr];
    [apply in_float_range_printable; unfold in_float_range; lia
     | unfold in_float_range; lia | unfold in_float_range; lia |].
  destruct (Hbounds r Hr) as (lo' & hi' & l & H).
  exists r, lo', hi', l. split; [exact Hr | exact H].
Defined.

(** C4. For a positive supply and a non-negative demand the rule engine
    assigns exactly one tier, the one the strict comparisons of the ratio
    select in priority order: above 1.30 critical shortage (1.15), above 1.10
    shortage (1.08), below 0.80 surplus (0.90), otherwise balanced (1.0).  A
    ratio of exactly 1.10 or 0.80 is balanced and one of exactly 1.30 is a
    shortage.  The result exists whenever the supply has at most 4300
    decimal digits and demand and base price are inside the float range. *)
Theorem tier_by_strict_comparisons
        (supply demand base_price : Z) (season_factor : float) :
  0 < supply -> 0 <= demand ->
  (int_printable supply ->
   in_float_range demand -> in_float_range base_price ->
   is_finite season_factor = true ->
   returns (calculate_price supply demand base_price season_factor))
  /\ forall r,
      calculate_price supply demand base_price season_factor = Ok r ->
      exists q,
        true_div demand supply = Ok q /\
        multiplier r = tier_multiplier (spec_tier q) /\
        tier_of_reason (reason r) = Some (spec_tier q) /\
        (forall t, multiplier r = tier_multiplier t -> t = spec_tier q) /\
        (10 * demand = 11 * supply -> spec_tier q = Balanced) /\
        (10 * demand = 13 * supply -> spec_tier q = Shortage) /\
        (10 * demand = 8 * supply -> spec_tier q = Balanced).
Proof.
  intros Hs Hd. split.
  { intros Hp Rd Rb Hsf. now apply calculate_price_returns. }
  intros r Hr.
  destruct (calculate_price_inv _ _ _ _ _ Hs Hr)
    as (q & q2 & suffix & Hq & _ & _ & Hm & Hreason).
  destruct (selected_spec q suffix) as [Em Et].
  destruct boundary_ratios as (B1 & T1 & B2 & T2 & B3 & T3).
  exists q. repeat match goal with |- _ /\ _ => split end.
  - exact Hq.
  - rewrite Hm. exact Em.
  - rewrite Hreason. exact Et.
  - intros t Ht. apply tier_multiplier_injective. rewrite <- Ht, Hm. exact Em.
  - intros E.
    rewrite (true_div_same_quotient demand supply 11 10) in Hq by lia.
    rewrite B1 in Hq. replace q with SHORTAGE_THRESHOLD by congruence.
    exact T1.
  - intros E.
    rewrite (true_div_same_quotient demand supply 13 10) in Hq by lia.
    rewrite B2 in Hq. replace q with CRITICAL_SHORTAGE_THRESHOLD by congruence.
    exact T2.
  - intros E.
    rewrite (true_div_same_quotient demand supply 8 10) in Hq by lia.
    rewrite B3 in Hq. replace q with SURPLUS_THRESHOLD by congruence.
    exact T3.
Qed.

(** The theorem at a ratio of exactly 1.30: supply 1000, demand 1300. *)
Lemma tier_by_strict_comparisons_witness :
  exists r q,
    calculate_price 1000 1300 10000 default_season_factor = Ok r /\
    true_div 1300 1000 = Ok q /\ spec_tier q = Shortage /\
    multiplier r = tier_multiplier (spec_tier q) /\
    tier_of_reason (reason r) = Some (spec_tier q).
Proof.
  destruct (tier_by_strict_comparisons 1000 1300 10000 default_season_factor)
    as [Hret Htier]; [lia | lia |].
  destruct Hret as [r Hr];
    [apply in_float_range_printable; unfold in_float_range; lia
     | unfold in_float_range; lia | unfold in_float_range; lia
     | vm_compute; reflexivity |].
  destruct (Htier r Hr) as (q & Hq & Hm & Ht & _ & _ & H130 & _).
  exists r, q.
  split; [exact Hr|]. split; [exact Hq|]. split; [apply H130; lia|].
  split; [exact Hm | exact Ht].
Defined.

(** C10. For a positive supply and a non-negative demand, the tier label of
    [get_supply_demand_ratio] names the tier whose multiplier
    [calculate_price] applies to the same pair, and both report the same
    rounded ratio.  The label exists whenever the demand is inside the float
    range. *)
Theorem ratio_label_matches_multiplier
        (supply demand base_price : Z) (season_factor : float) :
  0 < supply -> 0 <= demand ->
  (in_float_range demand -> returns (get_supply_demand_ratio supply demand))
  /\ forall r,
      calculate_price supply demand base_price season_factor = Ok r ->
      exists g t,
        get_supply_demand_ratio supply demand = Ok g /\
        tier_of_label (tier g) = Some t /\
        tier_of_multiplier (multiplier r) = Some t /\
        ri_ratio g = ratio r.
Proof.
  intros Hs Hd. split.
  - intros Rd. unfold get_supply_demand_ratio.
    destruct (Z.leb_spec supply 0); [lia|].
    destruct (true_div_in_range demand supply) as (nq & -> & Hq);
      [lia | assumption |].
    cbn [bind].
    destruct (py_round2_in_range nq Hq) as (q2 & E).
    destruct (if fgtb (Fin nq) CRITICAL_SHORTAGE_THRESHOLD then _ else _)
      as [label desc].
    rewrite E. cbn [bind]. eexists. reflexivity.
  - intros r Hr.
    destruct (calculate_price_inv _ _ _ _ _ Hs Hr)
      as (q & q2 & suffix & Hq & Hq2 & Hratio & Hm & _).
    destruct (selected_spec q suffix) as [Em _].
    rewrite Hm, Em, tier_of_multiplier_spec, Hratio.
    unfold get_supply_demand_ratio.
    destruct (Z.leb_spec supply 0); [lia|].
    rewrite Hq. cbn [bind].
    unfold spec_tier, CRITICAL_SHORTAGE_THRESHOLD, SHORTAGE_THRESHOLD,
      SURPLUS_THRESHOLD.
    destruct (fgtb q (float_lit 130 100));
      [|destruct (fgtb q (float_lit 110 100));
        [|destruct (fltb q (float_lit 80 100))]];
      rewrite Hq2; cbn [bind]; eexists; eexists;
      repeat match goal with |- _ /\ _ => split end; reflexivity.
Qed.

(** The theorem at the shortage scenario of the specification. *)
Lemma ratio_label_matches_multiplier_witness :
  exists r g t,
    calculate_price 100 120 10000 default_season_factor = Ok r /\
    get_supply_demand_ratio 100 120 = Ok g /\
    tier_of_label (tier g) = Some t /\
    tier_of_multiplier (multiplier r) = Some t /\
    ri_ratio g = ratio r.
Proof.
  destruct (ratio_label_matches_multiplier 100 120 10000 default_season_factor)
    as [_ Hsame]; [lia | lia |].
  destruct (calculate_price_returns 100 120 10000 default_season_factor)
    as [r Hr];
    [lia | apply in_float_range_printable; unfold in_float_range; lia
     | unfold in_float_range; lia | unfold in_float_range; lia
     | vm_compute; reflexivity |].
  destruct (Hsame r Hr) as (g & t & H).
  exists r, g, t. split; [exact Hr | exact H].
Defined.

End RuleEngine.

(** ** Facts about the local path of the resolver *)

Module ResolverFacts.
Import Binary64Facts PyStrFacts PricingFacts.

(** Both tier blocks choose the same multiplier and the same tier. *)
Lemma mock_selected_spec (q : float) (suffix : string) :
  fst (mock_selected q) = fst (selected q) /\
  tier_of_reason (snd (mock_selected q) ++ suffix) = Some (spec_tier q).
Proof.
  unfold mock_selected, selected, spec_tier,
    Pricing.CRITICAL_SHORTAGE_THRESHOLD, Pricing.SHORTAGE_THRESHOLD,
    Pricing.SURPLUS_THRESHOLD.
  destruct (fgtb q (float_lit 130 100));
    [|destruct (fgtb q (float_lit 110 100));
      [|destruct (fltb q (float_lit 80 100))]];
    split; reflexivity.
Qed.

(** The three products both paths start from, for a base price in range:
    all finite, ordered, and unchanged by a season factor of 1.0. *)
Lemma price_core (base_price : Z) (m : float) :
  0 < base_price -> in_float_range base_price -> is_multiplier m ->
  exists x lo hi,
    int_mul_float base_price m = Ok (Fin x) /\
    int_mul_float base_price (float_lit 150 100) = Ok (Fin hi) /\
    int_mul_float base_price (float_lit 70 100) = Ok (Fin lo) /\
    0 <= lo /\ lo <= x /\ x <= hi /\
    fmul (Fin x) (float_lit 10 10) = Fin x /\
    py_round2 m = Ok m.
Proof.
  intros Hb Rb Hm.
  destruct (is_multiplier_units m Hm)
    as (nm & k70 & k150 & -> & E70 & E150 & H70 & Hlo & Hhi & H150 & Hr2 & Hk70).
  unfold Pricing.MAX_PRICE_DECREASE in E70.
  unfold Pricing.MAX_PRICE_INCREASE in E150.
  destruct constants as (_ & _ & _ & _ & _ & _ & _ & E1 & _).
  unfold Pricing.NORMAL_MULTIPLIER in E1.
  rewrite E70, E150, E1.
  unfold int_mul_float.
  destruct (float_of_int_in_range base_price Rb) as (nb & Eb & Hnb).
  destruct (float_of_int_ok _ _ Eb) as (nb' & [= <-] & _ & _ & _ & _ & Hpos).
  specialize (Hpos Hb). pose proof scale_pos as Hsc.
  rewrite Eb. cbn [bind].
  destruct (fmul_in_range nb nm Hnb ltac:(lia)) as [-> Bx].
  destruct (fmul_in_range nb k150 Hnb ltac:(lia)) as [-> _].
  destruct (fmul_in_range nb k70 Hnb ltac:(lia)) as [-> _].
  assert (Hx : 0 <= rnd (nb * nm) scale) by (apply rnd_sign; nia).
  exists (rnd (nb * nm) scale), (rnd (nb * k70) scale), (rnd (nb * k150) scale).
  repeat match goal with |- _ /\ _ => split end; try reflexivity.
  - apply rnd_sign; nia.
  - apply rnd_mono; [lia | nia].
  - apply rnd_mono; [lia | nia].
  - change (fmul (Fin (rnd (nb * nm) scale)) (Fin scale))
      with (round_to_float (rnd (nb * nm) scale * scale) scale).
    apply round_to_float_id; [exact Hx | |].
    + rewrite <- (Z.abs_eq (rnd (nb * nm) scale)) by exact Hx.
      apply rnd_repr. lia.
    + pose proof product_bound_lt_huge. lia.
  - exact Hr2.
Qed.

(** What the local path returns for a valid request in range. *)
Lemma mock_pricing_in_range (self : Blockchain.ContractIntegration)
      (supply demand base_price : Z) (region : string) :
  0 < supply -> 0 <= demand -> 0 < base_price ->
  in_float_range demand -> in_float_range base_price ->
  exists q q2 x,
    true_div demand supply = Ok q /\ py_round2 q = Ok q2 /\
    int_mul_float base_price (fst (selected q)) = Ok (Fin x) /\ 0 <= x /\
    Blockchain._mock_pricing_calculation self supply demand base_price region
    = Ok {| Blockchain.final_price := x / scale;
            Blockchain.reason := snd (mock_selected q);
            Blockchain.source :=
              if Blockchain.mode_eqb (Blockchain.mode self) Blockchain.MOCK
              then "mock_pricing" else "smart_contract";
            Blockchain.is_capped := Some false;
            Blockchain.details :=
              Blockchain.MockAudit supply demand q2 (fst (selected q))
                                   base_price (x / scale) |}.
Proof.
  intros Hs Hd Hb Rd Rb.
  destruct (true_div_in_range demand supply) as (nq & Eq & Hq);
    [lia | assumption |].
  destruct (py_round2_in_range nq Hq) as (q2 & Eq2).
  destruct (mock_selected_spec (Fin nq) "") as [Em _].
  destruct (price_core base_price (fst (selected (Fin nq))) Hb Rb
              (selected_is_multiplier _))
    as (x & lo & hi & Ex & Ehi & Elo & Hlo & Hlx & Hxh & _ & _).
  exists (Fin nq), (Fin q2), x.
  repeat match goal with |- _ /\ _ => split end; auto; try lia.
  unfold Blockchain._mock_pricing_calculation.
  destruct (Z.leb_spec supply 0); [lia|].
  destruct (Z.ltb_spec demand 0); [lia|].
  rewrite Eq. cbn [bind]. fold (mock_selected (Fin nq)).
  rewrite <- Em in *.
  destruct (mock_selected (Fin nq)) as [m t]. cbn [fst snd] in *.
  rewrite Ex, Ehi, Elo. cbn [bind py_int].
  pose proof scale_pos as Hsc.
  rewrite !Z.quot_div_nonneg by lia.
  assert (x / scale <= hi / scale) by (apply Z.div_le_mono; lia).
  assert (lo / scale <= x / scale) by (apply Z.div_le_mono; lia).
  destruct (Z.gtb_spec (x / scale) (hi / scale)); [lia|].
  destruct (Z.ltb_spec (x / scale) (lo / scale)); [lia|].
  rewrite Eq2. reflexivity.
Qed.

(** What the rule engine returns for the same request at the default season
    factor. *)
Lemma calculate_price_default_in_range (supply demand base_price : Z) :
  0 < supply -> int_printable supply -> 0 < base_price ->
  in_float_range demand -> in_float_range base_price ->
  exists q q2 x r,
    true_div demand supply = Ok q /\ py_round2 q = Ok q2 /\
    int_mul_float base_price (fst (selected q)) = Ok (Fin x) /\
    Pricing.calculate_price supply demand base_price
                            Pricing.default_season_factor = Ok r /\
    Pricing.suggested_price r = rne x scale /\
    Pricing.ratio r = Some q2 /\
    Pricing.multiplier r = fst (selected q) /\
    Pricing.reason r = snd (selected q) /\
    Pricing.is_capped r = false.
Proof.
  intros Hs Hp Hb Rd Rb.
  destruct (true_div_in_range demand supply) as (nq & Eq & Hq);
    [lia | assumption |].
  destruct (py_round2_in_range nq Hq) as (q2 & Eq2).
  destruct (price_core base_price (fst (selected (Fin nq))) Hb Rb
              (selected_is_multiplier _))
    as (x & lo & hi & Ex & Ehi & Elo & Hlo & Hlx & Hxh & Eone & Er2).
  pose proof (int_mul_float_is_bounded _ _ _ Ex) as Bx.
  destruct (py_str_int_ok demand (in_float_range_printable _ Rd)) as (dt & Ed).
  destruct (py_str_int_ok supply Hp) as (st & Est).
  destruct (py_str_int_ok base_price (in_float_range_printable _ Rb))
    as (bt & Ebt).
  destruct (py_str_int_ok _ (truncation_printable x Bx)) as (tt & Ett).
  exists (Fin nq), (Fin q2), x.
  destruct (selected (Fin nq)) as [m t] eqn:Hsel. cbn [fst snd] in *.
  eexists.
  split; [exact Eq|]. split; [exact Eq2|]. split; [exact Ex|].
  split.
  { unfold Pricing.calculate_price.
    destruct (Z.leb_spec supply 0); [lia|].
    rewrite Eq. cbn [bind]. fold (selected (Fin nq)). rewrite Hsel.
    unfold Pricing.MAX_PRICE_INCREASE, Pricing.MAX_PRICE_DECREASE,
      Pricing.default_season_factor.
    rewrite Ex, Ehi, Elo. cbn [bind]. rewrite Eone.
    unfold fgtb. cbn [fltb].
    destruct (Z.ltb_spec hi x); [lia|].
    destruct (Z.ltb_spec x lo); [lia|].
    cbn [py_round bind]. rewrite Eq2, Er2. cbn [bind].
    rewrite Ed, Est, Ebt. cbn [bind py_int]. rewrite Ett. cbn [bind].
    reflexivity. }
  cbn [Pricing.suggested_price Pricing.ratio Pricing.multiplier
       Pricing.reason Pricing.is_capped].
  repeat match goal with |- _ /\ _ => split end; reflexivity.
Qed.

End ResolverFacts.

(** ** The resolver *)

Section Resolver.

Import Binary64Facts PyStrFacts PricingFacts ResolverFacts Blockchain.

(** A resolver built without usable contracts, or asked for mock mode, is in
    mock mode. *)
Lemma init_mode_mock (requested : BlockchainMode) (env : Environ) :
  requested = MOCK \/ contracts_available (init requested env) = false ->
  mode (init requested env) = MOCK.
Proof.
  intros [-> | H]; [reflexivity|].
  destruct requested; [reflexivity|].
  unfold init in *. cbn [mode contracts_available] in *.
  rewrite H. reflexivity.
Qed.

(** What validation guarantees. *)
Lemma validated_inputs (supply demand base_price : Z) :
  fst (Pricing.validate_inputs supply demand base_price) = true ->
  0 < base_price /\ 0 <= supply /\ 0 <= demand.
Proof.
  unfold Pricing.validate_inputs.
  destruct (Z.leb_spec base_price 0); [discriminate|].
  destruct (Z.ltb_spec supply 0); [discriminate|].
  destruct (Z.ltb_spec demand 0); [discriminate|].
  intros _. lia.
Qed.

(** The remote path catches everything. *)
Lemma remote_path_returns (self : ContractIntegration) (chain : Chain)
      (supply demand base_price : Z) (region : string) :
  returns
    (try_except
       (if use_stylus_pricing self then
          _call_stylus_pricing_contract self chain supply demand base_price region
        else
          _call_pricing_contract self chain supply demand base_price region)
       (fun _ => Ok (_fallback_to_base_price base_price "CONTRACT_UNAVAILABLE"))).
Proof.
  unfold _call_stylus_pricing_contract, _call_pricing_contract.
  destruct (use_stylus_pricing self);
    [destruct (stylus_call chain supply demand base_price);
     [| |destruct (truthy (pricing_contract_address self))]|];
    try destruct (solidity_call chain supply demand base_price);
    cbn [try_except]; eexists; reflexivity.
Qed.

(** C1, counterexample.  Real mode is requested, no contract is configured,
    and the request is valid: the resolver answers 10 where the rule engine
    answers 11, because [10 * 1.08 = 10.8] is truncated by one and rounded by
    the other. *)
Lemma local_path_truncates_where_rule_engine_rounds :
  contracts_available (init REAL no_contracts_env) = false /\
  result_map final_price
             (calculate_price (init REAL no_contracts_env) failing_chain
                              100 120 10 "Default") = Ok 10 /\
  result_map Pricing.suggested_price
             (Pricing.calculate_price 100 120 10 Pricing.default_season_factor)
  = Ok 11.
Proof.
  repeat match goal with |- _ /\ _ => split end; vm_compute; reflexivity.
Qed.

(** C1, as the code has it.  In mock mode, and in real mode when no contract
    is configured, a valid request with demand and base price in the float
    range, and a supply of at most 4300 decimal digits for the rule engine
    to write out, is answered by the local path: the decision is tagged
    [mock_pricing], and it carries the multiplier, the rounded ratio, the tier
    and the capping status (never capped) of the rule engine's result at the
    default season factor.  The final price is [int(base_price * multiplier)],
    truncated where the rule engine rounds to nearest: the rule engine's
    price or one less. *)
Theorem local_path_agrees_up_to_rounding
        (requested : BlockchainMode) (env : Environ) (chain : Chain)
        (supply demand base_price : Z) (region : string) :
  requested = MOCK \/ contracts_available (init requested env) = false ->
  0 < supply -> 0 <= demand -> 0 < base_price ->
  in_float_range demand -> in_float_range base_price ->
  int_printable supply ->
  exists dec r q2,
    calculate_price (init requested env) chain supply demand base_price region
    = Ok dec /\
    Pricing.calculate_price supply demand base_price
                            Pricing.default_season_factor = Ok r /\
    provenance_of_source (source dec) = Some local_rule_engine /\
    details dec = MockAudit supply demand q2 (Pricing.multiplier r)
                            base_price (final_price dec) /\
    Pricing.ratio r = Some q2 /\
    tier_of_reason (reason dec) = tier_of_reason (Pricing.reason r) /\
    is_capped dec = Some (Pricing.is_capped r) /\
    Pricing.is_capped r = false /\
    final_price dec <= Pricing.suggested_price r <= final_price dec + 1.
Proof.
  intros Hcfg Hs Hd Hb Rd Rb Hp.
  pose proof (init_mode_mock requested env Hcfg) as Hmode.
  destruct (mock_pricing_in_range (init requested env) supply demand base_price
                                  region Hs Hd Hb Rd Rb)
    as (q & q2 & x & Hq & Hq2 & Hx & Hx0 & Hmock).
  destruct (calculate_price_default_in_range supply demand base_price
                                             Hs Hp Hb Rd Rb)
    as (q' & q2' & x' & r & Hq' & Hq2' & Hx' & Hcalc & Rp & Rr & Rm & Rt & Rc).
  rewrite Hq in Hq'. injection Hq' as <-.
  rewrite Hq2 in Hq2'. injection Hq2' as <-.
  rewrite Hx in Hx'. injection Hx' as <-.
  rewrite Hmode in Hmock. cbn [mode_eqb] in Hmock.
  eexists. exists r, q2.
  split.
  { unfold calculate_price. rewrite Hmode. cbn [mode_eqb andb]. exact Hmock. }
  split; [exact Hcalc|].
  rewrite Rp, Rr, Rm, Rt, Rc.
  cbn [source details final_price reason is_capped].
  split; [reflexivity|]. split; [reflexivity|]. split; [reflexivity|].
  split.
  { destruct (mock_selected_spec q "") as [_ E1].
    destruct (selected_spec q "") as [_ E2].
    rewrite append_empty_r in E1, E2. rewrite E1, E2. reflexivity. }
  split; [reflexivity|]. split; [reflexivity|].
  pose proof (rne_bounds x scale scale_pos). lia.
Qed.

(** The theorem at the request of the counterexample. *)
Lemma local_path_agrees_up_to_rounding_witness :
  exists dec r,
    calculate_price (init REAL no_contracts_env) failing_chain
                    100 120 10 "Default" = Ok dec /\
    Pricing.calculate_price 100 120 10 Pricing.default_season_factor = Ok r /\
    provenance_of_source (source dec) = Some local_rule_engine /\
    is_capped dec = Some (Pricing.is_capped r) /\
    final_price dec <= Pricing.suggested_price r <= final_price dec + 1.
Proof.
  destruct (local_path_agrees_up_to_rounding
              REAL no_contracts_env failing_chain 100 120 10 "Default")
    as (dec & r & q2 & H1 & H2 & H3 & _ & _ & _ & H4 & _ & H5);
    [right; vm_compute; reflexivity | lia | lia | lia
     | unfold in_float_range; lia | unfold in_float_range; lia
     | apply in_float_range_printable; unfold in_float_range; lia |].
  exists dec, r. repeat match goal with |- _ /\ _ => split end; auto; lia.
Defined.

(** C2, counterexample.  Real mode, both pricing contracts configured, both
    calls fail: the answer is the static fallback at the base price 10000,
    not the rule engine's 11500. *)
Lemma failed_contracts_fall_back_to_base_price :
  mode (init REAL both_contracts_env) = REAL /\
  contracts_available (init REAL both_contracts_env) = true /\
  use_stylus_pricing (init REAL both_contracts_env) = true /\
  calculate_price (init REAL both_contracts_env) failing_chain
                  100 150 10000 "Default"
  = Ok (_fallback_to_base_price 10000 "CONTRACT_CALL_FAILED") /\
  provenance_of_source
    (source (_fallback_to_base_price 10000 "CONTRACT_CALL_FAILED"))
  = Some static_fallback /\
  result_map final_price
             (_mock_pricing_calculation (init REAL both_contracts_env)
                                        100 150 10000 "Default") = Ok 11500.
Proof.
  repeat match goal with |- _ /\ _ => split end; vm_compute; reflexivity.
Qed.

(** C2, as the code has it.  In real mode with contracts configured, when
    neither remote call returns a price the resolver answers with the static
    fallback: the base price, tagged [fallback], not capped, with the failure
    as reason.  The rule engine is not consulted; the local path is taken
    exactly when the mode is mock or no contracts are configured. *)
Theorem failed_remote_sources_give_static_fallback
        (self : ContractIntegration) (chain : Chain)
        (supply demand base_price : Z) (region : string) :
  (mode self = REAL -> contracts_available self = true ->
   (forall p r t, stylus_call chain supply demand base_price <> Returned p r t) ->
   (forall p r t, solidity_call chain supply demand base_price <> Returned p r t) ->
   exists why,
     calculate_price self chain supply demand base_price region
     = Ok (_fallback_to_base_price base_price why) /\
     In why ["BLOCKCHAIN_UNAVAILABLE"; "CONTRACT_CALL_FAILED";
             "STYLUS_CALL_FAILED"] /\
     provenance_of_source (source (_fallback_to_base_price base_price why))
     = Some static_fallback /\
     final_price (_fallback_to_base_price base_price why) = base_price /\
     is_capped (_fallback_to_base_price base_price why) = Some false)
  /\ (mode self = MOCK \/ contracts_available self = false ->
      calculate_price self chain supply demand base_price region
      = _mock_pricing_calculation self supply demand base_price region).
Proof.
  split.
  - intros Hmode Havail Hst Hso.
    unfold calculate_price. rewrite Hmode, Havail. cbn [mode_eqb andb].
    unfold _call_stylus_pricing_contract, _call_pricing_contract.
    destruct (use_stylus_pricing self);
      [destruct (stylus_call chain supply demand base_price) eqn:E1;
       [| exfalso; eapply Hst; eauto
        | destruct (truthy (pricing_contract_address self))]|];
      try (destruct (solidity_call chain supply demand base_price) eqn:E2;
           [| exfalso; eapply Hso; eauto |]);
      cbn [try_except]; eexists;
      (split; [reflexivity | split; [cbn; tauto | repeat split]]).
  - intros [Hm | Ha]; unfold calculate_price.
    + rewrite Hm. reflexivity.
    + rewrite Ha, andb_false_r. reflexivity.
Qed.

(** The theorem at the configuration of the counterexample. *)
Lemma failed_remote_sources_give_static_fallback_witness :
  exists why,
    calculate_price (init REAL both_contracts_env) failing_chain
                    100 150 10000 "Default"
    = Ok (_fallback_to_base_price 10000 why) /\
    In why ["BLOCKCHAIN_UNAVAILABLE"; "CONTRACT_CALL_FAILED";
            "STYLUS_CALL_FAILED"].
Proof.
  destruct (failed_remote_sources_give_static_fallback
              (init REAL both_contracts_env) failing_chain
              100 150 10000 "Default") as [Hfail _].
  destruct Hfail as (why & H1 & H2 & _);
    [vm_compute; reflexivity | vm_compute; reflexivity
     | intros p r t; discriminate | intros p r t; discriminate |].
  exists why. split; [exact H1 | exact H2].
Defined.

(** C5, counterexample.  A request that passes validation and reaches the
    local path with a demand of [2^1024]: the division raises, and nothing
    catches it. *)
Lemma local_path_raises_on_huge_demand :
  fst (Pricing.validate_inputs 1 (2 ^ 1024) 1) = true /\
  calculate_price (init MOCK both_contracts_env) failing_chain
                  1 (2 ^ 1024) 1 "Default" = Raise OverflowError.
Proof.
  split; vm_compute; reflexivity.
Qed.

(** C5, as the code has it.  For a validated request the resolver returns a
    decision, not an exception, whenever the remote path is taken (real mode
    with contracts configured: every remote failure is caught and turned into
    a fallback), and on the local path whenever demand and base price are at
    most [2^1023]. *)
Theorem resolve_returns_a_decision
        (self : ContractIntegration) (chain : Chain)
        (supply demand base_price : Z) (region : string) :
  fst (Pricing.validate_inputs supply demand base_price) = true ->
  (mode self = REAL /\ contracts_available self = true)
  \/ (in_float_range demand /\ in_float_range base_price) ->
  returns (calculate_price self chain supply demand base_price region).
Proof.
  intros Hvalid Hcase.
  destruct (validated_inputs _ _ _ Hvalid) as (Hb & Hs & Hd).
  unfold calculate_price.
  destruct (mode_eqb (mode self) REAL && contracts_available self) eqn:E.
  - apply remote_path_returns.
  - destruct Hcase as [[Hm Ha] | [Rd Rb]].
    + rewrite Hm, Ha in E. discriminate.
    + destruct (Z.eq_dec supply 0) as [-> | Hs0].
      * eexists. reflexivity.
      * destruct (mock_pricing_in_range self supply demand base_price region)
          as (q & q2 & x & _ & _ & _ & _ & ->); auto; try lia.
        eexists. reflexivity.
Qed.

(** The theorem on both paths: all remote calls failing in real mode, and
    the local path in mock mode. *)
Lemma resolve_returns_a_decision_witness :
  returns (calculate_price (init REAL both_contracts_env) failing_chain
                           100 150 10000 "Default")
  /\ returns (calculate_price (init MOCK both_contracts_env) failing_chain
                              100 150 10000 "Default").
Proof.
  split.
  - apply (resolve_returns_a_decision
             (init REAL both_contracts_env) failing_chain 100 150 10000).
    + vm_compute. reflexivity.
    + left. split; vm_compute; reflexivity.
  - apply (resolve_returns_a_decision
             (init MOCK both_contracts_env) failing_chain 100 150 10000).
    + vm_compute. reflexivity.
    + right. unfold in_float_range. split; lia.
Defined.

End Resolver.

(** ** More facts about the resolver *)

Module WalkFacts.
Import Blockchain.

(** A resolver in real mode has contracts. *)
Lemma init_real_has_contracts (requested : BlockchainMode) (env : Environ) :
  mode (init requested env) = REAL ->
  contracts_available (init requested env) = true.
Proof.
  unfold init. cbn [mode contracts_available].
  destruct requested; cbn [mode_eqb andb]; [discriminate|].
  destruct ((truthy _ || truthy _) && (truthy _ || truthy _)); cbn [negb];
    [reflexivity | discriminate].
Qed.

(** What a result of the local path looks like. *)
Lemma mock_pricing_inv (self : ContractIntegration)
      (supply demand base_price : Z) (region : string) (r : Decision) :
  _mock_pricing_calculation self supply demand base_price region = Ok r ->
  r = _fallback_to_base_price base_price "INSUFFICIENT_DATA"
  \/ source r = (if mode_eqb (mode self) MOCK
                 then "mock_pricing" else "smart_contract").
Proof.
  unfold _mock_pricing_calculation.
  destruct (supply <=? 0); [intros H; left; congruence|].
  destruct (demand <? 0); [intros H; left; congruence|].
  destruct (true_div demand supply) as [q | e]; [|intros H; discriminate H].
  cbn [bind].
  destruct (if fgtb q (float_lit 130 100) then _ else _) as [m t].
  destruct (int_mul_float base_price m) as [x | e];
    [|intros H; discriminate H].
  cbn [bind].
  destruct (py_int x) as [p | e]; [|intros H; discriminate H].
  cbn [bind].
  destruct (int_mul_float base_price (float_lit 150 100)) as [hi | e];
    [|intros H; discriminate H].
  cbn [bind].
  destruct (py_int hi) as [phi | e]; [|intros H; discriminate H].
  cbn [bind].
  destruct (int_mul_float base_price (float_lit 70 100)) as [lo | e];
    [|intros H; discriminate H].
  cbn [bind].
  destruct (py_int lo) as [plo | e]; [|intros H; discriminate H].
  cbn [bind].
  destruct (if p >? phi then _ else _) as [[p' t'] c].
  destruct (py_round2 q) as [q2 | e]; [|intros H; discriminate H].
  cbn [bind]. intros H. right.
  assert (E : r = {| final_price := p';
                     reason := t';
                     source := if mode_eqb (mode self) MOCK
                               then "mock_pricing" else "smart_contract";
                     is_capped := Some c;
                     details := MockAudit supply demand q2 m base_price p' |})
    by congruence.
  rewrite E. reflexivity.
Qed.

End WalkFacts.

(** ** The walk through the remote sources *)

Section RemoteWalk.

Import Blockchain WalkFacts.

(** X1. In real mode with contracts configured the first source that answers
    wins, Stylus before Solidity, and its price is passed on as it is: a
    Stylus answer is returned tagged [smart_contract_stylus] whatever the
    Solidity contract would say; when the Stylus call raises (or no Stylus
    address is set) and the Solidity contract answers, that answer is
    returned tagged [smart_contract_solidity]. *)
Theorem first_remote_answer_wins
        (self : ContractIntegration) (chain : Chain)
        (supply demand base_price : Z) (region : string)
        (price : Z) (reason_str tier : string) :
  mode self = REAL -> contracts_available self = true ->
  (use_stylus_pricing self = true ->
   stylus_call chain supply demand base_price = Returned price reason_str tier ->
   calculate_price self chain supply demand base_price region
   = Ok {| final_price := price;
           reason := (reason_str ++ " [" ++ tier ++ "]")%string;
           source := "smart_contract_stylus";
           is_capped := None;
           details := ContractInfo (pricing_stylus_address self)
                                   "stylus_wasm" (Some "WASM") |})
  /\ (use_stylus_pricing self = false
      \/ (stylus_call chain supply demand base_price = Failed
          /\ truthy (pricing_contract_address self) = true) ->
      solidity_call chain supply demand base_price
      = Returned price reason_str tier ->
      calculate_price self chain supply demand base_price region
      = Ok {| final_price := price;
              reason := (reason_str ++ " [" ++ tier ++ "]")%string;
              source := "smart_contract_solidity";
              is_capped := None;
              details := ContractInfo (pricing_contract_address self)
                                      "solidity" None |}).
Proof.
  intros Hmode Havail.
  unfold calculate_price. rewrite Hmode, Havail. cbn [mode_eqb andb].
  unfold _call_stylus_pricing_contract, _call_pricing_contract.
  split.
  - intros Hst Hcall. rewrite Hst, Hcall. reflexivity.
  - intros [Hst | [Hcall Haddr]] Hsol.
    + rewrite Hst, Hsol. reflexivity.
    + destruct (use_stylus_pricing self).
      * rewrite Hcall. cbn [try_except]. rewrite Haddr, Hsol. reflexivity.
      * rewrite Hsol. reflexivity.
Qed.

(** A Stylus call that raises, answered by the Solidity contract. *)
Lemma first_remote_answer_wins_witness :
  calculate_price
    (init REAL both_contracts_env)
    {| stylus_call := fun _ _ _ => Failed;
       solidity_call := fun _ _ _ => Returned 10800 "Shortage" "SHORTAGE" |}
    100 120 10000 "Default"
  = Ok {| final_price := 10800;
          reason := "Shortage [SHORTAGE]";
          source := "smart_contract_solidity";
          is_capped := None;
          details :=
            ContractInfo "0xc92fd01c122821Eb2C911d16468B20b07E25abC0"
                         "solidity" None |}.
Proof.
  apply (first_remote_answer_wins
           (init REAL both_contracts_env)
           {| stylus_call := fun _ _ _ => Failed;
              solidity_call := fun _ _ _ => Returned 10800 "Shortage" "SHORTAGE" |}
           100 120 10000 "Default" 10800 "Shortage" "SHORTAGE").
  - reflexivity.
  - reflexivity.
  - right. split; reflexivity.
  - reflexivity.
Defined.

(** X2. A node that is not connected at the Stylus attempt ends the walk: the
    answer is the base-price fallback with reason [BLOCKCHAIN_UNAVAILABLE],
    and the Solidity contract is not tried, whatever it would answer. *)
Theorem unconnected_node_ends_the_walk
        (self : ContractIntegration) (chain : Chain)
        (supply demand base_price : Z) (region : string) :
  mode self = REAL -> contracts_available self = true ->
  use_stylus_pricing self = true ->
  stylus_call chain supply demand base_price = NotConnected ->
  calculate_price self chain supply demand base_price region
  = Ok (_fallback_to_base_price base_price "BLOCKCHAIN_UNAVAILABLE").
Proof.
  intros Hmode Havail Hst Hcall.
  unfold calculate_price. rewrite Hmode, Havail, Hst. cbn [mode_eqb andb].
  unfold _call_stylus_pricing_contract. rewrite Hcall. reflexivity.
Qed.

(** The Solidity contract would have answered 10800. *)
Lemma unconnected_node_ends_the_walk_witness :
  calculate_price
    (init REAL both_contracts_env)
    {| stylus_call := fun _ _ _ => NotConnected;
       solidity_call := fun _ _ _ => Returned 10800 "Shortage" "SHORTAGE" |}
    100 120 10000 "Default"
  = Ok (_fallback_to_base_price 10000 "BLOCKCHAIN_UNAVAILABLE").
Proof.
  apply (unconnected_node_ends_the_walk
           (init REAL both_contracts_env)
           {| stylus_call := fun _ _ _ => NotConnected;
              solidity_call := fun _ _ _ => Returned 10800 "Shortage" "SHORTAGE" |}
           100 120 10000 "Default"); reflexivity.
Defined.

(** X3. Every decision tagged [fallback] is the unmodified base price, not
    capped, and its reason is one of [BLOCKCHAIN_UNAVAILABLE],
    [CONTRACT_CALL_FAILED], [STYLUS_CALL_FAILED], [INSUFFICIENT_DATA]: the
    reason [CONTRACT_UNAVAILABLE] of the outermost handler never occurs,
    because the two contract calls catch everything themselves. *)
Theorem fallback_decisions
        (self : ContractIntegration) (chain : Chain)
        (supply demand base_price : Z) (region : string) (r : Decision) :
  calculate_price self chain supply demand base_price region = Ok r ->
  source r = "fallback" ->
  exists why,
    r = _fallback_to_base_price base_price why /\
    final_price r = base_price /\ is_capped r = Some false /\
    In why ["BLOCKCHAIN_UNAVAILABLE"; "CONTRACT_CALL_FAILED";
            "STYLUS_CALL_FAILED"; "INSUFFICIENT_DATA"].
Proof.
  unfold calculate_price.
  destruct (mode_eqb (mode self) REAL && contracts_available self).
  - unfold _call_stylus_pricing_contract, _call_pricing_contract.
    destruct (use_stylus_pricing self);
      [destruct (stylus_call chain supply demand base_price);
       [| |destruct (truthy (pricing_contract_address self))]|];
      try destruct (solidity_call chain supply demand base_price);
      cbn [try_except]; intros H Hsrc;
      assert (E := f_equal (fun x => match x with Ok d => Some d | Raise _ => None end) H);
      cbn in E; injection E as <-;
      try (cbn [source] in Hsrc; discriminate Hsrc);
      eexists; (split; [reflexivity|]); cbn; tauto.
  - intros H Hsrc. apply mock_pricing_inv in H. destruct H as [-> | H].
    + eexists. split; [reflexivity|]. cbn. tauto.
    + rewrite Hsrc in H. destruct (mode_eqb (mode self) MOCK); discriminate H.
Qed.

(** The mock path on a negative demand, which validation would reject. *)
Lemma fallback_decisions_witness :
  exists why,
    _fallback_to_base_price 10000 "INSUFFICIENT_DATA"
    = _fallback_to_base_price 10000 why /\
    In why ["BLOCKCHAIN_UNAVAILABLE"; "CONTRACT_CALL_FAILED";
            "STYLUS_CALL_FAILED"; "INSUFFICIENT_DATA"].
Proof.
  destruct (fallback_decisions
              (init MOCK both_contracts_env) failing_chain 100 (-5) 10000
              "Default" (_fallback_to_base_price 10000 "INSUFFICIENT_DATA"))
    as (why & E & _ & _ & Hin); [reflexivity | reflexivity |].
  exists why. split; [exact E | exact Hin].
Defined.

(** X4. A resolver built by [__init__] tags every decision with one of the
    four provenances: Stylus, Solidity, local rules or static fallback.
    The tag [smart_contract] that the local path has for a non-mock mode
    never appears, since [__init__] leaves real mode only with contracts. *)
Theorem decisions_carry_a_provenance
        (requested : BlockchainMode) (env : Environ) (chain : Chain)
        (supply demand base_price : Z) (region : string) (r : Decision) :
  calculate_price (init requested env) chain supply demand base_price region
  = Ok r ->
  exists tag, provenance_of_source (source r) = Some tag.
Proof.
  unfold calculate_price.
  destruct (mode_eqb (mode (init requested env)) REAL
            && contracts_available (init requested env)) eqn:Hreal.
  - unfold _call_stylus_pricing_contract, _call_pricing_contract.
    destruct (use_stylus_pricing (init requested env));
      [destruct (stylus_call chain supply demand base_price);
       [| |destruct (truthy (pricing_contract_address (init requested env)))]|];
      try destruct (solidity_call chain supply demand base_price);
      cbn [try_except]; intros H;
      assert (E := f_equal (fun x => match x with Ok d => Some d | Raise _ => None end) H);
      cbn in E; injection E as <-;
      eexists; reflexivity.
  - intros H. apply mock_pricing_inv in H. destruct H as [-> | H].
    + eexists. reflexivity.
    + rewrite H.
      destruct (mode (init requested env)) eqn:Hmode.
      * eexists. reflexivity.
      * rewrite (init_real_has_contracts requested env Hmode) in Hreal.
        discriminate Hreal.
Qed.

(** The theorem on the local path of a resolver asked for real mode without
    contracts. *)
Lemma decisions_carry_a_provenance_witness :
  exists tag,
    provenance_of_source
      (source (_fallback_to_base_price 10000 "INSUFFICIENT_DATA")) = Some tag.
Proof.
  apply (decisions_carry_a_provenance REAL no_contracts_env failing_chain
                                      0 0 10000 "Default").
  reflexivity.
Defined.

End RemoteWalk.

(** ** Base prices and health *)

Module RegionFacts.
Import Blockchain BlockchainRest.

Lemma map_chars_compose (f g : Ascii.ascii -> Ascii.ascii) (s : string) :
  map_chars f (map_chars g s) = map_chars (fun c => f (g c)) s.
Proof. induction s as [|c s IH]; cbn; [reflexivity | now rewrite IH]. Qed.

Lemma map_chars_ext (f g : Ascii.ascii -> Ascii.ascii) (s : string) :
  (forall c, f c = g c) -> map_chars f s = map_chars g s.
Proof.
  intros H. induction s as [|c s IH]; cbn; [reflexivity | now rewrite H, IH].
Qed.

Lemma region_key_chars (region : string) :
  replace_char space underscore (lower region) = map_chars key_char region.
Proof.
  unfold replace_char, lower. rewrite map_chars_compose. reflexivity.
Qed.

Lemma key_char_upper (c : Ascii.ascii) : key_char (upper_char c) = key_char c.
Proof.
  destruct c as [[|] [|] [|] [|] [|] [|] [|] [|]]; vm_compute; reflexivity.
Qed.

Lemma key_char_lower (c : Ascii.ascii) : key_char (lower_char c) = key_char c.
Proof.
  destruct c as [[|] [|] [|] [|] [|] [|] [|] [|]]; vm_compute; reflexivity.
Qed.

Lemma key_char_underscore (c : Ascii.ascii) :
  key_char (if Ascii.eqb c space then underscore else c) = key_char c.
Proof.
  destruct c as [[|] [|] [|] [|] [|] [|] [|] [|]]; vm_compute; reflexivity.
Qed.

Lemma mock_base_price_key (region region' : string) :
  map_chars key_char region = map_chars key_char region' ->
  _mock_base_price region = _mock_base_price region'.
Proof.
  intros H. unfold _mock_base_price. rewrite !region_key_chars, H. reflexivity.
Qed.

End RegionFacts.

Section BasePrices.

Import Blockchain BlockchainRest RegionFacts.

(** X5. [get_base_price] answers from the static table in every mode and
    configuration: the region contract call only raises
    [NotImplementedError], which is caught.  It never raises, and the price
    is one of the four of the table. *)
Theorem base_price_comes_from_the_table
        (self : ContractIntegration) (region : string) :
  get_base_price self region = _mock_base_price region
  /\ exists price,
      get_base_price self region = inr price /\
      In price [10000; 10500; 9800; 10200].
Proof.
  assert (E : get_base_price self region = _mock_base_price region).
  { unfold get_base_price.
    destruct (mode_eqb (mode self) REAL && contracts_available self);
      reflexivity. }
  split; [exact E|]. rewrite E. unfold _mock_base_price.
  set (key := replace_char space underscore (lower region)).
  change (dict_get mock_prices "default") with (Some 10000).
  unfold mock_prices. cbn [dict_get].
  destruct ("default" =? key)%string;
    [exists 10000; split; [reflexivity | cbn [In]; auto 6]|].
  destruct ("minahasa_selatan" =? key)%string;
    [exists 10500; split; [reflexivity | cbn [In]; auto 6]|].
  destruct ("java" =? key)%string;
    [exists 9800; split; [reflexivity | cbn [In]; auto 6]|].
  destruct ("sumatra" =? key)%string;
    [exists 10200 | exists 10000]; (split; [reflexivity | cbn [In]; auto 6]).
Qed.

(** X6. For an ASCII region name the table is looked up without regard to
    case and with spaces read as underscores: changing the case of the name
    or writing underscores for its spaces gives the same price, and a name
    whose key is not in the table gets the default 10000. *)
Theorem base_price_lookup_is_normalised (region : string) :
  ascii_only region = true ->
  _mock_base_price (upper region) = _mock_base_price region
  /\ _mock_base_price (lower region) = _mock_base_price region
  /\ _mock_base_price (replace_char space underscore region)
     = _mock_base_price region
  /\ (dict_get mock_prices (replace_char space underscore (lower region)) = None ->
      _mock_base_price region = inr 10000).
Proof.
  intros _.
  repeat match goal with |- _ /\ _ => split end.
  - apply mock_base_price_key. unfold upper. rewrite map_chars_compose.
    apply map_chars_ext, key_char_upper.
  - apply mock_base_price_key. unfold lower. rewrite map_chars_compose.
    apply map_chars_ext, key_char_lower.
  - apply mock_base_price_key. unfold replace_char. rewrite map_chars_compose.
    apply map_chars_ext, key_char_underscore.
  - intros H. unfold _mock_base_price. rewrite H. reflexivity.
Qed.

(** The name of a region, written three ways, and an unknown one. *)
Lemma base_price_lookup_is_normalised_witness :
  _mock_base_price (upper "Minahasa Selatan") = _mock_base_price "Minahasa Selatan"
  /\ _mock_base_price "Minahasa Selatan" = inr 10500
  /\ _mock_base_price "Bali" = inr 10000.
Proof.
  destruct (base_price_lookup_is_normalised "Minahasa Selatan") as (H1 & _);
    [reflexivity|].
  destruct (base_price_lookup_is_normalised "Bali") as (_ & _ & _ & H4);
    [reflexivity|].
  split; [exact H1|]. split; [reflexivity|]. apply H4. reflexivity.
Defined.

(** X7. The health report of a resolver built by [__init__] is consistent:
    it reports [ready] exactly when it reports mode [real], a ready resolver
    has its contracts deployed, real mode asked for without contracts is
    reported as [mock], and the two contract fields are never empty (an unset
    address reads [NOT_SET]). *)
Theorem health_report_is_consistent
        (requested : BlockchainMode) (env : Environ) :
  let report := health_check (init requested env) in
  (ready report = true <-> health_mode report = "real")
  /\ (ready report = true -> contracts_deployed report = true)
  /\ (contracts_deployed report = false -> health_mode report = "mock")
  /\ pricing_contract report <> ""
  /\ region_contract report <> "".
Proof.
  assert (Hor : forall s, or_else s "NOT_SET" <> "").
  { intros s. unfold or_else, truthy.
    destruct (String.eqb_spec s ""); cbn [negb]; [discriminate | assumption]. }
  cbn zeta. unfold health_check.
  cbn [ready health_mode contracts_deployed pricing_contract region_contract].
  repeat match goal with |- _ /\ _ => split end; try apply Hor.
  - destruct (mode (init requested env)) eqn:Hmode; cbn [mode_eqb andb mode_value].
    + split; intros H; discriminate H.
    + rewrite (WalkFacts.init_real_has_contracts requested env Hmode).
      split; reflexivity.
  - intros H. apply andb_true_iff in H. apply H.
  - intros H. destruct (mode (init requested env)) eqn:Hmode; [reflexivity|].
    rewrite (WalkFacts.init_real_has_contracts requested env Hmode) in H.
    discriminate H.
Qed.

End BasePrices.

(** ** More facts about the rule engine *)

Module MoreRuleFacts.
Import Binary64Facts PricingFacts Pricing.

(** Everything a result of [calculate_price] is made of. *)
Lemma calculate_price_inv_full (supply demand base_price : Z)
      (season_factor : float) (r : PriceResult) :
  0 < supply ->
  calculate_price supply demand base_price season_factor = Ok r ->
  exists q q2 x hi lo,
    true_div demand supply = Ok q /\ py_round2 q = Ok q2 /\
    int_mul_float base_price (fst (selected q)) = Ok x /\
    int_mul_float base_price MAX_PRICE_INCREASE = Ok hi /\
    int_mul_float base_price MAX_PRICE_DECREASE = Ok lo /\
    py_round (limited (fmul x season_factor) lo hi) = Ok (suggested_price r) /\
    ratio r = Some q2 /\ multiplier r = fst (selected q) /\
    reason r
    = (snd (selected q) ++ limit_note (fmul x season_factor) lo hi)%string /\
    is_capped r = was_limited (fmul x season_factor) lo hi.
Proof.
  intros Hs. unfold calculate_price.
  destruct (Z.leb_spec supply 0); [lia|].
  destruct (true_div demand supply) as [q | e]; [|intros HH; discriminate HH].
  cbn [bind]. fold (selected q).
  destruct (selected q) as [m t] eqn:Hsel.
  pose proof (selected_is_multiplier q) as Hm.
  rewrite Hsel in Hm. cbn [fst] in Hm.
  apply is_multiplier_units in Hm.
  destruct Hm as (nm & k70 & k150 & Em & _ & _ & _ & _ & _ & _ & Hr2 & _).
  destruct (int_mul_float base_price m) as [x | e] eqn:Ex;
    [|intros HH; discriminate HH].
  destruct (int_mul_float base_price MAX_PRICE_INCREASE) as [hi | e] eqn:Ehi;
    [|intros HH; discriminate HH].
  destruct (int_mul_float base_price MAX_PRICE_DECREASE) as [lo | e] eqn:Elo;
    [|intros HH; discriminate HH].
  cbn [bind]. unfold limited, limit_note, was_limited.
  destruct (fgtb (fmul x season_factor) hi) eqn:Egt;
    [|destruct (fltb (fmul x season_factor) lo) eqn:Elt];
    (destruct (py_round _) as [p | e] eqn:Ep; [|intros HH; discriminate HH]);
    (destruct (py_round2 q) as [q2 | e] eqn:Eq2; [|intros HH; discriminate HH]);
    rewrite Hr2; formulas; intros E; injection E as <-;
    cbn [ratio multiplier reason is_capped suggested_price fst snd];
    exists q, q2, x, hi, lo; rewrite Hsel, ?Egt, ?Elt; cbn [fst snd];
    (split; [reflexivity|]); (split; [exact Eq2|]); (split; [exact Ex|]);
    (split; [reflexivity|]); (split; [reflexivity|]); (split; [exact Ep|]);
    (split; [reflexivity|]); (split; [reflexivity|]);
    (split; [|reflexivity]);
    reflexivity || (symmetry; apply append_empty_r).
Qed.

(** The thresholds, in units of [2^-1074]. *)
Lemma thresholds :
  exists k80 k110 k130 : Z,
    SURPLUS_THRESHOLD = Fin k80 /\ SHORTAGE_THRESHOLD = Fin k110 /\
    CRITICAL_SHORTAGE_THRESHOLD = Fin k130 /\ k80 <= k110 /\ k110 <= k130.
Proof.
  exists (rnd (80 * scale) 100), (rnd (110 * scale) 100),
    (rnd (130 * scale) 100).
  repeat match goal with |- _ /\ _ => split end;
    vm_compute; reflexivity || discriminate.
Qed.

(** A larger ratio never selects a smaller multiplier. *)
Lemma selected_mono (n1 n2 : Z) :
  n1 <= n2 ->
  exists m1 m2,
    fst (selected (Fin n1)) = Fin m1 /\ fst (selected (Fin n2)) = Fin m2 /\
    0 < m1 /\ m1 <= m2.
Proof.
  intros Hn.
  destruct thresholds as (k80 & k110 & k130 & E80 & E110 & E130 & H1 & H2).
  destruct constants as (k70 & k90 & k108 & k115 & k150 & _ & E90 & E10 &
                         E108 & E115 & _ & H70 & H90 & H10 & H108 & H115 & _).
  unfold selected. rewrite E80, E110, E130, E90, E10, E108, E115.
  unfold fgtb. cbn [fltb].
  destruct (Z.ltb_spec k130 n1); destruct (Z.ltb_spec k130 n2);
    destruct (Z.ltb_spec k110 n1); destruct (Z.ltb_spec k110 n2);
    destruct (Z.ltb_spec n1 k80); destruct (Z.ltb_spec n2 k80);
    cbn [fst]; eexists; eexists;
    (split; [reflexivity|]); (split; [reflexivity|]); lia.
Qed.

Lemma rnd_mono_frac (n1 d1 n2 d2 : Z) :
  0 <= n1 -> 0 < d1 -> 0 < d2 -> n1 * d2 <= n2 * d1 -> rnd n1 d1 <= rnd n2 d2.
Proof.
  intros Hn H1 H2 H.
  assert (0 <= n2) by nia.
  rewrite !rnd_nonneg_eq by lia. now apply rnd_mag_mono.
Qed.

(** Integer division is monotone in the quotient. *)
Lemma true_div_mono (d1 s1 d2 s2 n1 n2 : Z) :
  0 < s1 -> 0 < s2 -> 0 <= d1 -> d1 * s2 <= d2 * s1 ->
  true_div d1 s1 = Ok (Fin n1) -> true_div d2 s2 = Ok (Fin n2) -> n1 <= n2.
Proof.
  intros H1 H2 Hd H. unfold true_div.
  destruct (Z.eqb_spec s1 0); [lia|]. destruct (Z.eqb_spec s2 0); [lia|].
  rewrite !Z.sgn_pos, !Z.abs_eq by lia.
  destruct (overflows _); [intros HH; discriminate HH|].
  destruct (overflows _); [intros _ HH; discriminate HH|].
  intros E1 E2.
  replace n1 with (rnd (1 * d1 * scale) s1) by congruence.
  replace n2 with (rnd (1 * d2 * scale) s2) by congruence.
  pose proof scale_pos.
  apply rnd_mono_frac; nia.
Qed.

Lemma fmul_nonneg (a b : Z) :
  0 <= a -> 0 <= b -> nonneg_float (fmul (Fin a) (Fin b)).
Proof.
  intros Ha Hb.
  change (fmul (Fin a) (Fin b)) with (round_to_float (a * b) scale).
  apply round_to_float_nonneg; [nia | apply scale_pos].
Qed.

Lemma fmul_season_mono (x1 x2 : float) (ns : Z) :
  0 < ns -> nonneg_float x1 -> nonneg_float x2 -> fleb x1 x2 = true ->
  fleb (fmul x1 (Fin ns)) (fmul x2 (Fin ns)) = true
  /\ fmul x1 (Fin ns) <> NaN /\ fmul x2 (Fin ns) <> NaN.
Proof.
  intros Hns [-> | (r1 & -> & Hr1)] [-> | (r2 & -> & Hr2)] Hle.
  - cbn [fmul]. destruct (Z.eqb_spec ns 0); [lia|].
    destruct (Z.ltb_spec ns 0); [lia|]. cbn.
    repeat split; discriminate.
  - cbn in Hle. discriminate Hle.
  - split; [|split].
    + cbn [fmul]. destruct (Z.eqb_spec ns 0); [lia|].
      destruct (Z.ltb_spec ns 0); [lia|]. cbn [xorb].
      destruct (round_to_float_nonneg (r1 * ns) scale) as [E | (r & E & _)];
        [nia | apply scale_pos | |]; rewrite E; reflexivity.
    + apply round_to_float_not_nan.
    + cbn [fmul]. destruct (Z.eqb_spec ns 0); [lia|]. discriminate.
  - cbn [fleb fltb] in Hle. rewrite negb_true_iff, Z.ltb_ge in Hle.
    split; [|split]; try apply round_to_float_not_nan.
    apply round_to_float_mono; [apply scale_pos | nia].
Qed.

(** The limiting block is monotone when the limits are in order. *)
Lemma limited_mono (c1 c2 hi : float) (l : Z) :
  fleb c1 c2 = true -> fleb (Fin l) hi = true ->
  fleb (limited c1 (Fin l) hi) (limited c2 (Fin l) hi) = true.
Proof.
  unfold limited, fgtb.
  destruct c1 as [a1 | [|] |], c2 as [a2 | [|] |], hi as [h | [|] |];
    cbn [fleb fltb negb andb]; intros H1 H2;
    try discriminate H1; try discriminate H2;
    repeat match goal with
      | |- context [if ?b then _ else _] => destruct b eqn:?
      end;
    cbn [fleb fltb negb andb]; try reflexivity;
    rewrite ?negb_true_iff, ?negb_false_iff, ?Z.ltb_lt, ?Z.ltb_ge in *;
    try lia; try discriminate.
Qed.

(** The two limits of a positive base price: the lower one is finite and
    not above the upper one. *)
Lemma limits_ordered (base_price : Z) (hi lo : float) :
  0 < base_price ->
  int_mul_float base_price MAX_PRICE_INCREASE = Ok hi ->
  int_mul_float base_price MAX_PRICE_DECREASE = Ok lo ->
  exists nb l,
    float_of_int base_price = Ok (Fin nb) /\ 0 < nb /\
    lo = Fin l /\ fleb (Fin l) hi = true.
Proof.
  intros Hb. unfold int_mul_float.
  destruct (float_of_int base_price) as [B | e] eqn:HB;
    [|intros HH; discriminate HH].
  apply float_of_int_ok in HB.
  destruct HB as (nb & -> & _ & Hfin & Hrepr & _ & Hpos).
  specialize (Hpos Hb). pose proof scale_pos as Hsc.
  destruct constants as (k70 & k90 & k108 & k115 & k150 & E70 & _ & _ & _ & _ &
                         E150 & H70 & H90 & H10 & H108 & H115 & H150 & _).
  rewrite E70, E150. cbn [bind].
  change (fmul (Fin nb) (Fin k150)) with (round_to_float (nb * k150) scale).
  change (fmul (Fin nb) (Fin k70)) with (round_to_float (nb * k70) scale).
  destruct (round_to_float_bounded (nb * k70) scale (Z.abs nb))
    as [Emin _]; [lia | assumption | assumption | |].
  { rewrite Z.abs_mul. rewrite (Z.abs_eq k70) by lia.
    apply Z.mul_le_mono_nonneg_l; lia. }
  assert (Hminmax : fleb (round_to_float (nb * k70) scale)
                         (round_to_float (nb * k150) scale) = true)
    by (apply round_to_float_mono; [lia | nia]).
  rewrite Emin in *.
  intros Ehi Elo. exists nb, (rnd (nb * k70) scale).
  split; [reflexivity|]. split; [lia|].
  split; [congruence|].
  replace hi with (round_to_float (nb * k150) scale) by congruence.
  exact Hminmax.
Qed.

(** The upper limit is exact for a base price below [2^53 / 3]. *)
Lemma max_allowed_exact (base_price : Z) :
  0 < base_price -> 3 * base_price < 2 ^ 53 ->
  int_mul_float base_price MAX_PRICE_INCREASE
  = Ok (Fin (3 * base_price * 2 ^ 1073))
  /\ py_round (Fin (3 * base_price * 2 ^ 1073)) = Ok (rne (3 * base_price) 2).
Proof.
  intros Hb H3. pose proof scale_pos as Hsc.
  assert (Es : scale = 2 ^ 1073 * 2) by (vm_compute; reflexivity).
  assert (Hh : huge = 2 ^ 1024 * scale) by (vm_compute; reflexivity).
  assert (Hp : 0 < 2 ^ 1073) by (apply pow2_pos; lia).
  assert (Hbig : 2 ^ 53 * 2 ^ 1073 < 2 ^ 1024 * scale).
  { rewrite Es. rewrite Z.mul_assoc.
    assert (2 ^ 53 < 2 ^ 1024 * 2 ^ 1073 * 2 / 2 ^ 1073 + 1) by (vm_compute; reflexivity).
    assert (2 ^ 53 <= 2 ^ 1024) by (apply Z.pow_le_mono_r; lia).
    nia. }
  destruct constants as (k70 & k90 & k108 & k115 & k150 & _ & _ & _ & _ & _ &
                         E150 & _ & _ & _ & _ & _ & _ & H150).
  assert (Ek : k150 = 3 * 2 ^ 1073) by lia.
  split.
  - unfold int_mul_float, float_of_int.
    assert (Eb : rnd (base_price * scale) 1 = base_price * scale).
    { rewrite <- (Z.mul_1_r (base_price * scale)) at 1.
      apply rnd_id; [lia | nia |].
      exists base_price, 1074. lia. }
    rewrite Eb.
    rewrite (no_overflow (base_price * scale) (base_price * scale));
      [| lia | rewrite Hh; nia].
    cbn [bind]. rewrite E150, Ek.
    change (fmul (Fin (base_price * scale)) (Fin (3 * 2 ^ 1073)))
      with (round_to_float (base_price * scale * (3 * 2 ^ 1073)) scale).
    replace (base_price * scale * (3 * 2 ^ 1073))
      with (3 * base_price * 2 ^ 1073 * scale) by ring.
    rewrite round_to_float_id; [reflexivity | nia | | rewrite Hh; nia].
    exists (3 * base_price), 1073. lia.
  - cbn [py_round]. f_equal. rewrite Es.
    replace (3 * base_price * 2 ^ 1073) with (2 ^ 1073 * (3 * base_price)) by ring.
    apply rne_scale; lia.
Qed.

Lemma get_supply_demand_ratio_returns (supply demand : Z) :
  0 < supply -> in_float_range demand ->
  returns (get_supply_demand_ratio supply demand).
Proof.
  intros Hs Rd. unfold get_supply_demand_ratio.
  destruct (Z.leb_spec supply 0); [lia|].
  destruct (true_div_in_range demand supply) as (nq & -> & Hq);
    [lia | assumption |].
  cbn [bind].
  destruct (py_round2_in_range nq Hq) as (q2 & E).
  destruct (if fgtb (Fin nq) CRITICAL_SHORTAGE_THRESHOLD then _ else _)
    as [label desc].
  rewrite E. cbn [bind]. eexists. reflexivity.
Qed.

(** A report for a positive supply. *)
Lemma get_supply_demand_ratio_inv (supply demand : Z) (g : RatioInfo) :
  0 < supply ->
  get_supply_demand_ratio supply demand = Ok g ->
  (exists t, tier_of_label (tier g) = Some t) /\
  (exists q, ri_ratio g = Some q) /\
  ri_supply g = Some supply /\ ri_demand g = Some demand.
Proof.
  intros Hs. unfold get_supply_demand_ratio.
  destruct (Z.leb_spec supply 0); [lia|].
  destruct (true_div demand supply) as [q | e];
    [|intros HH; discriminate HH].
  cbn [bind].
  destruct (fgtb q CRITICAL_SHORTAGE_THRESHOLD);
    [|destruct (fgtb q SHORTAGE_THRESHOLD);
      [|destruct (fltb q SURPLUS_THRESHOLD)]];
    (destruct (py_round2 q) as [q2 | e]; [|intros HH; discriminate HH]);
    cbn [bind]; intros E;
    assert (Hg : Ok g = Ok g) by reflexivity;
    rewrite <- E in Hg at 1;
    apply (f_equal (fun m => match m with Ok v => v | Raise _ => g end))
      in Hg; rewrite <- Hg;
    cbn [tier ri_ratio ri_supply ri_demand];
    (split; [eexists; reflexivity|]);
    (split; [eexists; reflexivity|]);
    (split; reflexivity).
Qed.

(** With a positive supply only an overflow of the quotient is raised. *)
Lemma get_supply_demand_ratio_raises (supply demand : Z) (e : exn) :
  0 < supply ->
  get_supply_demand_ratio supply demand = Raise e -> e = OverflowError.
Proof.
  intros Hs. unfold get_supply_demand_ratio.
  destruct (Z.leb_spec supply 0); [lia|].
  unfold true_div. destruct (Z.eqb_spec supply 0); [lia|].
  destruct (overflows _); [cbn [bind]; intros HH; congruence|].
  cbn [bind].
  destruct (if fgtb _ CRITICAL_SHORTAGE_THRESHOLD then _ else _)
    as [label desc].
  unfold py_round2. destruct (overflows _); cbn [bind]; intros HH;
    [congruence | discriminate HH].
Qed.

End MoreRuleFacts.

Section RuleEngineOrder.

Import Binary64Facts PyStrFacts PricingFacts MoreRuleFacts Pricing.

(** X8. The rule engine is monotone in the ratio.  For one base price and
    one season factor in [0.5, 2.0], a request whose demand to supply
    quotient is not smaller gets a multiplier and a suggested price that are
    not smaller: the roundings of the quotient, of the products and of the
    final price, and the two limits, all preserve the order. *)
Theorem price_rises_with_the_ratio
        (supply1 demand1 supply2 demand2 base_price : Z)
        (season_factor : float) (r1 r2 : PriceResult) :
  0 < supply1 -> 0 < supply2 -> 0 <= demand1 ->
  demand1 * supply2 <= demand2 * supply1 ->
  0 < base_price ->
  fleb (float_lit 5 10) season_factor = true ->
  fleb season_factor (float_lit 20 10) = true ->
  calculate_price supply1 demand1 base_price season_factor = Ok r1 ->
  calculate_price supply2 demand2 base_price season_factor = Ok r2 ->
  suggested_price r1 <= suggested_price r2
  /\ fleb (multiplier r1) (multiplier r2) = true.
Proof.
  intros Hs1 Hs2 Hd1 Hle Hb Hsf1 Hsf2 E1 E2.
  destruct (season_factor_units season_factor Hsf1 Hsf2) as (ns & -> & Hns).
  apply calculate_price_inv_full in E1; [|exact Hs1].
  apply calculate_price_inv_full in E2; [|exact Hs2].
  destruct E1 as (q1 & q1' & x1 & hi & lo & Eq1 & _ & Ex1 & Ehi & Elo & Ep1 &
                  _ & Em1 & _).
  destruct E2 as (q2 & q2' & x2 & hi' & lo' & Eq2 & _ & Ex2 & Ehi' & Elo' &
                  Ep2 & _ & Em2 & _).
  assert (hi' = hi) by congruence. assert (lo' = lo) by congruence.
  subst hi' lo'.
  destruct (limits_ordered base_price hi lo Hb Ehi Elo)
    as (nb & l & Eb & Hnb & -> & Hlh).
  destruct (true_div_ok _ _ _ Eq1) as (n1 & -> & _).
  destruct (true_div_ok _ _ _ Eq2) as (n2 & -> & _).
  pose proof (true_div_mono _ _ _ _ _ _ Hs1 Hs2 Hd1 Hle Eq1 Eq2) as Hn.
  destruct (selected_mono n1 n2 Hn) as (m1 & m2 & F1 & F2 & Hm1 & Hm12).
  rewrite Em1, Em2, F1, F2. rewrite F1 in Ex1. rewrite F2 in Ex2.
  unfold int_mul_float in Ex1, Ex2. rewrite Eb in Ex1, Ex2.
  cbn [bind] in Ex1, Ex2.
  assert (X1 : x1 = fmul (Fin nb) (Fin m1)) by congruence.
  assert (X2 : x2 = fmul (Fin nb) (Fin m2)) by congruence.
  pose proof scale_pos as Hsc.
  assert (Hx : fleb x1 x2 = true).
  { rewrite X1, X2.
    change (fmul (Fin nb) (Fin m1)) with (round_to_float (nb * m1) scale).
    change (fmul (Fin nb) (Fin m2)) with (round_to_float (nb * m2) scale).
    apply round_to_float_mono; [exact Hsc | nia]. }
  assert (N1 : nonneg_float x1) by (rewrite X1; apply fmul_nonneg; lia).
  assert (N2 : nonneg_float x2) by (rewrite X2; apply fmul_nonneg; lia).
  destruct (fmul_season_mono x1 x2 ns Hns N1 N2 Hx) as (Hc & _ & _).
  pose proof (limited_mono _ _ hi l Hc Hlh) as Hlim.
  split.
  - destruct (limited (fmul x1 (Fin ns)) (Fin l) hi) as [v1 | [|] |];
      cbn [py_round] in Ep1; try (discriminate Ep1).
    destruct (limited (fmul x2 (Fin ns)) (Fin l) hi) as [v2 | [|] |];
      cbn [py_round] in Ep2; try (discriminate Ep2).
    cbn [fleb fltb] in Hlim. rewrite negb_true_iff, Z.ltb_ge in Hlim.
    replace (suggested_price r1) with (rne v1 scale) by congruence.
    replace (suggested_price r2) with (rne v2 scale) by congruence.
    apply rne_mono; assumption.
  - cbn [fleb fltb]. rewrite negb_true_iff, Z.ltb_ge. exact Hm12.
Qed.

(** Balanced and shortage requests at base price 10000. *)
Lemma price_rises_with_the_ratio_witness :
  exists r1 r2,
    calculate_price 100 100 10000 default_season_factor = Ok r1 /\
    calculate_price 100 150 10000 default_season_factor = Ok r2 /\
    suggested_price r1 <= suggested_price r2.
Proof.
  destruct (calculate_price_returns 100 100 10000 default_season_factor)
    as (r1 & E1);
    [lia | apply in_float_range_printable; vm_compute; discriminate
     | vm_compute; discriminate
     | vm_compute; discriminate | vm_compute; reflexivity |].
  destruct (calculate_price_returns 100 150 10000 default_season_factor)
    as (r2 & E2);
    [lia | apply in_float_range_printable; vm_compute; discriminate
     | vm_compute; discriminate
     | vm_compute; discriminate | vm_compute; reflexivity |].
  exists r1, r2. split; [exact E1|]. split; [exact E2|].
  apply (price_rises_with_the_ratio 100 100 100 150 10000
           default_season_factor r1 r2);
    [lia | lia | lia | lia | lia
     | vm_compute; reflexivity | vm_compute; reflexivity
     | exact E1 | exact E2].
Defined.

(** X9. At the default season factor the limits never bind.  For a
    positive supply of at most 4300 decimal digits and a positive base
    price, with demand and base price inside the float range, the rule
    engine returns a result that is not capped, whose reason is the tier's
    message without a note, and whose price is the rounded product of the
    base price and the tier's multiplier. *)
Theorem default_season_never_limited (supply demand base_price : Z) :
  0 < supply -> int_printable supply -> 0 < base_price ->
  in_float_range demand -> in_float_range base_price ->
  exists r q x,
    calculate_price supply demand base_price default_season_factor = Ok r /\
    true_div demand supply = Ok q /\
    is_capped r = false /\
    reason r = snd (selected q) /\
    multiplier r = fst (selected q) /\
    int_mul_float base_price (multiplier r) = Ok x /\
    py_round x = Ok (suggested_price r).
Proof.
  intros Hs Hp Hb Rd Rb.
  destruct (ResolverFacts.calculate_price_default_in_range
              supply demand base_price Hs Hp Hb Rd Rb)
    as (q & q2 & x & r & Eq & _ & Ex & E & Rp & _ & Rm & Rt & Rc).
  exists r, q, (Fin x). split; [exact E|].
  rewrite Rp, Rm, Rt, Rc. cbn [py_round].
  split; [exact Eq|]. split; [reflexivity|]. split; [reflexivity|].
  split; [reflexivity|]. split; [exact Ex | reflexivity].
Qed.

(** A shortage request. *)
Lemma default_season_never_limited_witness :
  exists r,
    calculate_price 100 120 10000 default_season_factor = Ok r /\
    is_capped r = false.
Proof.
  destruct (default_season_never_limited 100 120 10000)
    as (r & q & x & E & _ & Hc & _);
    [lia | apply in_float_range_printable; vm_compute; discriminate
     | lia | vm_compute; discriminate
     | vm_compute; discriminate |].
  exists r. split; [exact E | exact Hc].
Defined.

(** X10. What a limited result holds.  A result is flagged capped exactly
    when its reason carries one of the two notes.  With the upper note the
    price is the rounded upper limit, which for a base price below
    [2^53 / 3] is exactly three halves of the base price, rounded half to
    even; with the lower note it is the rounded lower limit; without a note
    it is the rounded seasonal price. *)
Theorem limited_price_is_the_rounded_limit
        (supply demand base_price : Z) (season_factor : float)
        (r : PriceResult) :
  0 < supply -> 0 < base_price -> 3 * base_price < 2 ^ 53 ->
  calculate_price supply demand base_price season_factor = Ok r ->
  exists q x lo,
    true_div demand supply = Ok q /\
    int_mul_float base_price (fst (selected q)) = Ok x /\
    int_mul_float base_price MAX_PRICE_DECREASE = Ok lo /\
    ((is_capped r = true /\
      reason r = (snd (selected q) ++ " [CAPPED at +50%]")%string /\
      suggested_price r = rne (3 * base_price) 2)
     \/ (is_capped r = true /\
         reason r = (snd (selected q) ++ " [FLOORED at -30%]")%string /\
         py_round lo = Ok (suggested_price r))
     \/ (is_capped r = false /\
         reason r = snd (selected q) /\
         py_round (fmul x season_factor) = Ok (suggested_price r))).
Proof.
  intros Hs Hb H3 E.
  apply calculate_price_inv_full in E; [|exact Hs].
  destruct E as (q & q2 & x & hi & lo & Eq & _ & Ex & Ehi & Elo & Ep & _ & _ &
                 Er & Ec).
  destruct (max_allowed_exact base_price Hb H3) as [Ehi' Ep'].
  exists q, x, lo.
  split; [exact Eq|]. split; [exact Ex|]. split; [exact Elo|].
  unfold limited in Ep. unfold limit_note in Er. unfold was_limited in Ec.
  destruct (fgtb (fmul x season_factor) hi);
    [|destruct (fltb (fmul x season_factor) lo)].
  - left. split; [exact Ec|]. split; [exact Er|].
    assert (Hhi : hi = Fin (3 * base_price * 2 ^ 1073)) by congruence.
    rewrite Hhi in Ep. congruence.
  - right; left. split; [exact Ec|]. split; [exact Er | exact Ep].
  - right; right. split; [exact Ec|]. split; [|exact Ep].
    rewrite Er. apply append_empty_r.
Qed.

(** A critical shortage in high season: [10000 * 1.15 * 1.4] is capped at
    15000. *)
Lemma limited_price_is_the_rounded_limit_witness :
  exists r,
    calculate_price 100 150 10000 (float_lit 14 10) = Ok r /\
    is_capped r = true /\ suggested_price r = 15000.
Proof.
  destruct (calculate_price_returns 100 150 10000 (float_lit 14 10))
    as (r & E);
    [lia | apply in_float_range_printable; vm_compute; discriminate
     | vm_compute; discriminate
     | vm_compute; discriminate | vm_compute; reflexivity |].
  assert (P : result_map suggested_price
                (calculate_price 100 150 10000 (float_lit 14 10)) = Ok 15000)
    by (vm_compute; reflexivity).
  assert (C : result_map is_capped
                (calculate_price 100 150 10000 (float_lit 14 10)) = Ok true)
    by (vm_compute; reflexivity).
  rewrite E in P, C. unfold result_map in P, C. cbn [bind] in P, C.
  exists r. split; [exact E|]. split; [congruence|].
  destruct (limited_price_is_the_rounded_limit 100 150 10000 (float_lit 14 10) r)
    as (q & x & lo & _ & _ & _ & [(_ & _ & H) | _]);
    [lia | lia | lia | exact E | | congruence].
  rewrite H. vm_compute. reflexivity.
Defined.

(** X11. The ratio report without supply.  [get_supply_demand_ratio] labels
    the tier [error] exactly when the supply is not positive; it then
    returns without dividing, whatever the demand, and leaves the ratio and
    both echoed quantities empty.  With a positive supply a returned report
    carries a ratio, repeats the two inputs and has one of the four tier
    labels. *)
Theorem ratio_report_error_iff_no_supply (supply demand : Z) :
  (supply <= 0 ->
   exists g, get_supply_demand_ratio supply demand = Ok g /\
             tier g = "error" /\ ri_ratio g = None /\
             ri_supply g = None /\ ri_demand g = None)
  /\ forall g,
      get_supply_demand_ratio supply demand = Ok g ->
      (tier g = "error" <-> supply <= 0) /\
      (0 < supply ->
       (exists t, tier_of_label (tier g) = Some t) /\
       (exists q, ri_ratio g = Some q) /\
       ri_supply g = Some supply /\ ri_demand g = Some demand).
Proof.
  unfold get_supply_demand_ratio. split.
  - intros Hs. destruct (Z.leb_spec supply 0); [|lia].
    eexists. split; [reflexivity|]. cbn [tier ri_ratio ri_supply ri_demand].
    repeat match goal with |- _ /\ _ => split end; reflexivity.
  - intros g. destruct (Z.leb_spec supply 0) as [Hs | Hs].
    + intros E. assert (Hg : tier g = "error")
        by (apply (f_equal (result_map tier)) in E; cbn in E; congruence).
      split; [split; [intros _; exact Hs | intros _; exact Hg] | lia].
    + intros E.
      assert (E' : get_supply_demand_ratio supply demand = Ok g).
      { unfold get_supply_demand_ratio.
        destruct (Z.leb_spec supply 0); [lia | exact E]. }
      pose proof (get_supply_demand_ratio_inv supply demand g Hs E') as Hinv.
      split; [|intros _; exact Hinv].
      destruct Hinv as ((t & Ht) & _).
      split; [intros HH; rewrite HH in Ht; discriminate Ht | lia].
Qed.

End RuleEngineOrder.

(** ** The endpoints *)

Module EndpointFacts.
Import Binary64Facts PricingFacts ResolverFacts Blockchain.

(** The local path raises nothing but [OverflowError]. *)
Lemma mock_pricing_raises (self : ContractIntegration)
      (supply demand base_price : Z) (region : string) (e : exn) :
  _mock_pricing_calculation self supply demand base_price region = Raise e ->
  e = OverflowError.
Proof.
  unfold _mock_pricing_calculation.
  destruct (Z.leb_spec supply 0); [intros HH; discriminate HH|].
  destruct (demand <? 0); [intros HH; discriminate HH|].
  unfold true_div. destruct (Z.eqb_spec supply 0); [lia|].
  destruct (overflows _); [cbn [bind]; intros HH; congruence|].
  cbn [bind].
  match goal with
  | |- context [fgtb (Fin ?r) (float_lit 130 100)] =>
      fold (mock_selected (Fin r));
      destruct (mock_selected_spec (Fin r) "") as [Em _];
      pose proof (selected_is_multiplier (Fin r)) as Hm;
      rewrite <- Em in Hm;
      destruct (mock_selected (Fin r)) as [m t]
  end.
  cbn [fst] in Hm.
  destruct (is_multiplier_units m Hm)
    as (nm & k70 & k150 & -> & E70 & E150 & _).
  unfold Pricing.MAX_PRICE_DECREASE in E70.
  unfold Pricing.MAX_PRICE_INCREASE in E150.
  rewrite E70, E150.
  unfold int_mul_float, float_of_int.
  destruct (overflows _); [cbn [bind]; intros HH; congruence|].
  cbn [bind].
  change (fmul (Fin ?a) (Fin ?b)) with (round_to_float (a * b) scale).
  unfold round_to_float.
  destruct (overflows _); [cbn [bind py_int]; intros HH; congruence|].
  cbn [bind py_int].
  destruct (overflows _); [cbn [bind py_int]; intros HH; congruence|].
  cbn [bind py_int].
  destruct (overflows _); [cbn [bind py_int]; intros HH; congruence|].
  cbn [bind py_int].
  destruct (_ >? _); [|destruct (_ <? _)];
    unfold py_round2; destruct (overflows _); cbn [bind]; intros HH;
    congruence || discriminate HH.
Qed.

(** A validated request gets a decision when the remote path is taken or
    the quantities are inside the float range. *)
Lemma validated_request_resolves (self : ContractIntegration) (chain : Chain)
      (supply demand base_price : Z) (region : string) :
  0 < base_price -> 0 <= supply -> 0 <= demand ->
  (mode self = REAL /\ contracts_available self = true)
  \/ (in_float_range demand /\ in_float_range base_price) ->
  returns (calculate_price self chain supply demand base_price region).
Proof.
  intros Hb Hs Hd Hcase. unfold calculate_price.
  destruct (mode_eqb (mode self) REAL && contracts_available self) eqn:E.
  - unfold _call_stylus_pricing_contract, _call_pricing_contract.
    destruct (use_stylus_pricing self);
      [destruct (stylus_call chain supply demand base_price);
       [| |destruct (truthy (pricing_contract_address self))]|];
      try destruct (solidity_call chain supply demand base_price);
      cbn [try_except]; eexists; reflexivity.
  - destruct Hcase as [[Hm Ha] | [Rd Rb]].
    + rewrite Hm, Ha in E. discriminate E.
    + destruct (Z.eq_dec supply 0) as [-> | Hs0].
      * eexists. reflexivity.
      * destruct (mock_pricing_in_range self supply demand base_price region)
          as (q & q2 & x & _ & _ & _ & _ & ->);
          [lia | lia | lia | exact Rd | exact Rb |].
        eexists. reflexivity.
Qed.

(** On the remote path nothing is raised at all. *)
Lemma resolver_raises (self : ContractIntegration) (chain : Chain)
      (supply demand base_price : Z) (region : string) (e : exn) :
  calculate_price self chain supply demand base_price region = Raise e ->
  e = OverflowError
  /\ mode_eqb (mode self) REAL && contracts_available self = false.
Proof.
  unfold calculate_price.
  destruct (mode_eqb (mode self) REAL && contracts_available self).
  - unfold _call_stylus_pricing_contract, _call_pricing_contract.
    destruct (use_stylus_pricing self);
      [destruct (stylus_call chain supply demand base_price);
       [| |destruct (truthy (pricing_contract_address self))]|];
      try destruct (solidity_call chain supply demand base_price);
      cbn [try_except]; intros HH; discriminate HH.
  - intros HH. split; [|reflexivity].
    exact (mock_pricing_raises _ _ _ _ _ _ HH).
Qed.

End EndpointFacts.

Section EndpointAnswers.

Import Binary64Facts PricingFacts MoreRuleFacts EndpointFacts.
Import Pricing Endpoints.

(** X12. The handler of [GET /ratio].  It raises [HTTPException] exactly
    when the supply is not positive or the demand is negative, always with
    status 400.  An answer repeats the two inputs, carries a ratio and one of
    the four tier labels: the label [error] of [get_supply_demand_ratio] is
    never served.  The only exception that escapes is the [OverflowError] of
    the division, and none escapes for a demand inside the float range. *)
Theorem ratio_endpoint_answers (supply demand : Z) :
  (supply <= 0 \/ demand < 0 <->
   exists detail, get_ratio supply demand = HTTPException 400 detail)
  /\ (forall status detail,
        get_ratio supply demand = HTTPException status detail ->
        status = 400)
  /\ (forall a,
        get_ratio supply demand = Respond a ->
        ra_supply a = supply /\ ra_demand a = demand /\
        (exists t, tier_of_label (ra_tier a) = Some t) /\
        (exists q, ra_ratio a = Some q))
  /\ (forall e, get_ratio supply demand = Escapes e -> e = OverflowError)
  /\ (0 < supply -> 0 <= demand -> in_float_range demand ->
      exists a, get_ratio supply demand = Respond a).
Proof.
  unfold get_ratio.
  destruct (Z.leb_spec supply 0) as [Hs | Hs].
  { split; [split; [intros _; eexists; reflexivity | intros _; lia]|].
    split; [intros st dt HH; congruence|].
    split; [intros a HH; discriminate HH|].
    split; [intros e HH; discriminate HH | intros; lia]. }
  destruct (Z.ltb_spec demand 0) as [Hd | Hd].
  { split; [split; [intros _; eexists; reflexivity | intros _; lia]|].
    split; [intros st dt HH; congruence|].
    split; [intros a HH; discriminate HH|].
    split; [intros e HH; discriminate HH | intros; lia]. }
  destruct (get_supply_demand_ratio supply demand) as [g | e0] eqn:Eg.
  - destruct (get_supply_demand_ratio_inv supply demand g Hs Eg)
      as (Ht & Hq & _).
    split; [split; [lia | intros (dt & HH); discriminate HH]|].
    split; [intros st dt HH; discriminate HH|].
    split; [|split; [intros e HH; discriminate HH
                    | intros _ _ _; eexists; reflexivity]].
    intros a HH.
    assert (Ha : a = {| ra_supply := supply; ra_demand := demand;
                        ra_ratio := ri_ratio g; ra_tier := tier g;
                        ra_tier_description := tier_description g |})
      by congruence.
    rewrite Ha. cbn [ra_supply ra_demand ra_tier ra_ratio].
    split; [reflexivity|]. split; [reflexivity|]. split; assumption.
  - pose proof (get_supply_demand_ratio_raises supply demand e0 Hs Eg) as He.
    split; [split; [lia | intros (dt & HH); discriminate HH]|].
    split; [intros st dt HH; discriminate HH|].
    split; [intros a HH; discriminate HH|].
    split; [intros e HH; congruence|].
    intros _ _ Rd.
    destruct (get_supply_demand_ratio_returns supply demand Hs Rd) as (g & Eg').
    rewrite Eg' in Eg. discriminate Eg.
Qed.

(** X13. The handler of [GET /price].  A request the validator rejects
    raises [HTTPException] 400 with the validator's message.  For a
    validated request the answer takes price and reason from the resolver's
    decision and is labelled rule based without AI; nothing but
    [OverflowError] escapes, and only from the local path; the request is
    answered whenever the remote path is taken or demand and base price are
    inside the float range.  A validated request without supply is answered
    on the local path with the base price.  The season factor of the request
    has no effect. *)
Theorem price_endpoint_answers
        (blockchain : Blockchain.ContractIntegration) (chain : Blockchain.Chain)
        (supply demand base_price : Z) (region : string)
        (season_factor : float) :
  (fst (validate_inputs supply demand base_price) = false ->
   get_price blockchain chain supply demand base_price region season_factor
   = HTTPException 400 (snd (validate_inputs supply demand base_price)))
  /\ (fst (validate_inputs supply demand base_price) = true ->
      (forall a,
         get_price blockchain chain supply demand base_price region
                   season_factor = Respond a ->
         exists dec,
           Blockchain.calculate_price blockchain chain supply demand
                                      base_price region = Ok dec /\
           pa_final_price a = Blockchain.final_price dec /\
           pa_reason a = Blockchain.reason dec /\
           pa_method a = "rule_based" /\ pa_ai_used a = false)
      /\ (forall status detail,
            get_price blockchain chain supply demand base_price region
                      season_factor <> HTTPException status detail)
      /\ (forall e,
            get_price blockchain chain supply demand base_price region
                      season_factor = Escapes e ->
            e = OverflowError /\
            Blockchain.mode_eqb (Blockchain.mode blockchain) Blockchain.REAL
            && Blockchain.contracts_available blockchain = false)
      /\ ((Blockchain.mode blockchain = Blockchain.REAL /\
           Blockchain.contracts_available blockchain = true)
          \/ (in_float_range demand /\ in_float_range base_price) ->
          exists a,
            get_price blockchain chain supply demand base_price region
                      season_factor = Respond a)
      /\ (supply = 0 ->
          Blockchain.mode_eqb (Blockchain.mode blockchain) Blockchain.REAL
          && Blockchain.contracts_available blockchain = false ->
          exists a,
            get_price blockchain chain supply demand base_price region
                      season_factor = Respond a /\
            pa_final_price a = base_price /\
            pa_reason a = "INSUFFICIENT_DATA"))
  /\ forall season_factor',
      get_price blockchain chain supply demand base_price region season_factor'
      = get_price blockchain chain supply demand base_price region
                  season_factor.
Proof.
  split; [|split; [|reflexivity]].
  - unfold get_price.
    destruct (validate_inputs supply demand base_price) as [ok msg].
    cbn [fst snd]. intros ->. reflexivity.
  - intros Hv.
    assert (Hval : 0 < base_price /\ 0 <= supply /\ 0 <= demand).
    { revert Hv. unfold validate_inputs.
      destruct (Z.leb_spec base_price 0); [intros HH; discriminate HH|].
      destruct (Z.ltb_spec supply 0); [intros HH; discriminate HH|].
      destruct (Z.ltb_spec demand 0); [intros HH; discriminate HH|].
      intros _. lia. }
    destruct Hval as (Hb & Hs & Hd).
    unfold get_price.
    destruct (validate_inputs supply demand base_price) as [ok msg].
    cbn [fst] in Hv. rewrite Hv. cbn [negb].
    destruct (Blockchain.calculate_price blockchain chain supply demand
                                         base_price region)
      as [dec | e0] eqn:Edec.
    + split.
      { intros a HH. exists dec. split; [reflexivity|].
        assert (Ha : a = {| pa_region := region; pa_base_price := base_price;
                            pa_supply := supply; pa_demand := demand;
                            pa_final_price := Blockchain.final_price dec;
                            pa_reason := Blockchain.reason dec;
                            pa_method := "rule_based";
                            pa_ai_used := false |}) by congruence.
        rewrite Ha. cbn [pa_final_price pa_reason pa_method pa_ai_used].
        repeat match goal with |- _ /\ _ => split end; reflexivity. }
      split; [intros st dt HH; discriminate HH|].
      split; [intros e HH; discriminate HH|].
      split; [intros _; eexists; reflexivity|].
      intros -> Hlocal. eexists. split; [reflexivity|].
      cbn [pa_final_price pa_reason].
      revert Edec. unfold Blockchain.calculate_price. rewrite Hlocal.
      unfold Blockchain._mock_pricing_calculation.
      change (0 <=? 0) with true. cbn iota.
      intros Edec.
      assert (Hd' : dec = Blockchain._fallback_to_base_price
                            base_price "INSUFFICIENT_DATA") by congruence.
      rewrite Hd'. split; reflexivity.
    + destruct (resolver_raises _ _ _ _ _ _ _ Edec) as [He Hlocal].
      split; [intros a HH; discriminate HH|].
      split; [intros st dt HH; discriminate HH|].
      split; [intros e HH; split; [congruence | exact Hlocal]|].
      split.
      { intros Hcase.
        destruct (validated_request_resolves blockchain chain supply demand
                    base_price region Hb Hs Hd Hcase) as (dec & Edec').
        rewrite Edec' in Edec. discriminate Edec. }
      intros -> _.
      destruct (validated_request_resolves blockchain chain 0 demand
                  base_price region Hb Hs Hd) as (dec & Edec').
      { revert Edec. unfold Blockchain.calculate_price.
        destruct (Blockchain.mode_eqb _ _ && _); intros HH;
          discriminate Hlocal || discriminate HH. }
      rewrite Edec' in Edec. discriminate Edec.
Qed.

End EndpointAnswers.

Section LocalPath.

Import Binary64Facts PricingFacts ResolverFacts Blockchain.

(** X14. The hard limits of the local path never apply to a positive base
    price.  Every decision of [_mock_pricing_calculation] is flagged not
    capped: it is the static fallback for missing data, or its reason is the
    tier's reason without a note and its price is the truncated product of
    base price and multiplier.  The multipliers lie between the two limit
    factors, and rounding and truncation keep the order, whatever the size of
    the base price. *)
Theorem local_path_never_limits
        (self : ContractIntegration)
        (supply demand base_price : Z) (region : string) (dec : Decision) :
  0 < base_price ->
  _mock_pricing_calculation self supply demand base_price region = Ok dec ->
  is_capped dec = Some false
  /\ ((dec = _fallback_to_base_price base_price "INSUFFICIENT_DATA"
       /\ (supply <= 0 \/ demand < 0))
      \/ exists q x,
          0 < supply /\ 0 <= demand /\
          true_div demand supply = Ok q /\
          reason dec = snd (mock_selected q) /\
          int_mul_float base_price (fst (mock_selected q)) = Ok x /\
          py_int x = Ok (final_price dec)).
Proof.
  intros Hb H. unfold _mock_pricing_calculation in H.
  destruct (Z.leb_spec supply 0) as [Hs | Hs].
  { assert (E : dec = _fallback_to_base_price base_price "INSUFFICIENT_DATA")
      by congruence.
    rewrite E. split; [reflexivity|]. left. split; [reflexivity | lia]. }
  destruct (Z.ltb_spec demand 0) as [Hd | Hd].
  { assert (E : dec = _fallback_to_base_price base_price "INSUFFICIENT_DATA")
      by congruence.
    rewrite E. split; [reflexivity|]. left. split; [reflexivity | lia]. }
  destruct (true_div demand supply) as [q | e] eqn:Eq; [|discriminate H].
  cbn [bind] in H. fold (mock_selected q) in H.
  destruct (mock_selected_spec q "") as [Em _].
  pose proof (selected_is_multiplier q) as Hm. rewrite <- Em in Hm.
  destruct (mock_selected q) as [m t] eqn:Hsel. cbn [fst] in Hm.
  destruct (is_multiplier_units m Hm)
    as (nm & k70 & k150 & -> & E70 & E150 & H70 & Hlo & Hhi & _).
  unfold Pricing.MAX_PRICE_DECREASE in E70.
  unfold Pricing.MAX_PRICE_INCREASE in E150.
  rewrite E70, E150 in H.
  unfold int_mul_float in H.
  destruct (float_of_int base_price) as [B | e] eqn:EB; [|discriminate H].
  destruct (float_of_int_ok _ _ EB) as (nb & -> & _ & _ & _ & _ & Hpos).
  specialize (Hpos Hb). pose proof scale_pos as Hsc.
  cbn [bind] in H.
  change (fmul (Fin nb) (Fin nm)) with (round_to_float (nb * nm) scale) in H.
  change (fmul (Fin nb) (Fin k150))
    with (round_to_float (nb * k150) scale) in H.
  change (fmul (Fin nb) (Fin k70)) with (round_to_float (nb * k70) scale) in H.
  unfold round_to_float in H.
  destruct (overflows (rnd (nb * nm) scale)) eqn:Eov;
    [cbn [bind py_int] in H; discriminate H|].
  cbn [bind py_int] in H.
  destruct (overflows (rnd (nb * k150) scale));
    [cbn [bind py_int] in H; discriminate H|].
  cbn [bind py_int] in H.
  destruct (overflows (rnd (nb * k70) scale));
    [cbn [bind py_int] in H; discriminate H|].
  cbn [bind py_int] in H.
  assert (H0 : 0 <= rnd (nb * k70) scale) by (apply rnd_sign; nia).
  assert (H1 : rnd (nb * k70) scale <= rnd (nb * nm) scale)
    by (apply rnd_mono; [lia | nia]).
  assert (H2 : rnd (nb * nm) scale <= rnd (nb * k150) scale)
    by (apply rnd_mono; [lia | nia]).
  rewrite !Z.quot_div_nonneg in H by lia.
  assert (rnd (nb * nm) scale / scale <= rnd (nb * k150) scale / scale)
    by (apply Z.div_le_mono; lia).
  assert (rnd (nb * k70) scale / scale <= rnd (nb * nm) scale / scale)
    by (apply Z.div_le_mono; lia).
  destruct (Z.gtb_spec (rnd (nb * nm) scale / scale)
                       (rnd (nb * k150) scale / scale)); [lia|].
  destruct (Z.ltb_spec (rnd (nb * nm) scale / scale)
                       (rnd (nb * k70) scale / scale)); [lia|].
  destruct (py_round2 q) as [q2 | e]; [|discriminate H].
  cbn [bind] in H.
  assert (E := f_equal (fun r => match r with Ok v => v | Raise _ => dec end) H).
  cbn beta iota in E. rewrite <- E.
  cbn [is_capped reason final_price].
  split; [reflexivity|]. right.
  exists q, (fmul (Fin nb) (Fin nm)).
  rewrite Hsel. cbn [fst snd].
  split; [exact Hs|]. split; [exact Hd|]. split; [reflexivity|].
  split; [reflexivity|].
  split; [unfold int_mul_float; rewrite EB; reflexivity|].
  change (fmul (Fin nb) (Fin nm)) with (round_to_float (nb * nm) scale).
  unfold round_to_float. rewrite Eov. cbn [py_int].
  rewrite Z.quot_div_nonneg by lia. reflexivity.
Qed.

(** A shortage request in mock mode. *)
Lemma local_path_never_limits_witness :
  exists dec,
    _mock_pricing_calculation (init MOCK no_contracts_env)
                              100 120 10000 "Default" = Ok dec /\
    is_capped dec = Some false.
Proof.
  destruct (mock_pricing_in_range (init MOCK no_contracts_env)
                                  100 120 10000 "Default")
    as (q & q2 & x & _ & _ & _ & _ & E);
    [lia | lia | lia | vm_compute; discriminate | vm_compute; discriminate |].
  eexists. split; [exact E|].
  apply (local_path_never_limits (init MOCK no_contracts_env)
                                 100 120 10000 "Default");
    [lia | exact E].
Defined.

End LocalPath.
